(** * VL53L0X time-of-flight driver: timing and calibration logic

    A shallow embedding of [Core/Src/VL53L0X.c].  Fixed-width C integers are
    integers in [Z] with the wrap-around of every narrowing conversion written
    out; the sensor behind the two-wire bus is a byte-addressed register
    file; driver functions are state-passing computations over the handle
    and that register file. *)

From Stdlib Require Import ZArith List Bool Lia.
Import ListNotations.
Local Open Scope Z_scope.

(** ** Fixed-width integers *)

Module CInt.

Definition wrap8 (x : Z) : Z := x mod 256.
Definition wrap16 (x : Z) : Z := x mod 65536.
Definition wrap32 (x : Z) : Z := x mod 4294967296.

(** C truth value of an integer expression. *)
Definition truthy (x : Z) : bool := negb (x =? 0).

End CInt.
Export CInt.

(** ** Timeout codec *)

(** [#define decodeVcselPeriod(reg_val) (((reg_val) + 1) << 1)] *)
Definition decodeVcselPeriod (reg_val : Z) : Z := Z.shiftl (reg_val + 1) 1.

(** [#define encodeVcselPeriod(period_pclks) (((period_pclks) >> 1) - 1)] *)
Definition encodeVcselPeriod (period_pclks : Z) : Z := Z.shiftr period_pclks 1 - 1.

(** [#define calcMacroPeriod(p) ((((uint32_t)2304 * (p) * 1655) + 500) / 1000)],
    evaluated in [uint32_t]. *)
Definition calcMacroPeriod (vcsel_period_pclks : Z) : Z :=
  wrap32 (wrap32 (wrap32 (2304 * vcsel_period_pclks) * 1655) + 500) / 1000.

(** [uint16_t VL53L0X_decodeTimeout(uint16_t reg_val)].  The shifted value is
    cast to [uint16_t] before one is added, and the sum is converted to the
    [uint16_t] return type.  For an exponent of 32 or more C leaves the
    shift undefined; the model takes the mathematical shift, whose low
    sixteen bits are zero there, as the Cortex-M3 shifter gives. *)
Definition VL53L0X_decodeTimeout (reg_val : Z) : Z :=
  let reg_val := wrap16 reg_val in
  wrap16 (wrap16 (Z.shiftl (Z.land reg_val 0x00FF)
                           (wrap16 (Z.shiftr (Z.land reg_val 0xFF00) 8))) + 1).

(** The [while ((ls_byte & 0xFFFFFF00) > 0) { ls_byte >>= 1; ms_byte++; }]
    loop of [VL53L0X_encodeTimeout]; [ls_byte] is a [uint32_t], so thirty-two
    iterations always suffice. *)
Fixpoint encode_loop (fuel : nat) (ls_byte ms_byte : Z) : Z * Z :=
  match fuel with
  | O => (ls_byte, ms_byte)
  | S fuel' =>
      if Z.land ls_byte 0xFFFFFF00 >? 0
      then encode_loop fuel' (Z.shiftr ls_byte 1) (wrap16 (ms_byte + 1))
      else (ls_byte, ms_byte)
  end.

(** [uint16_t VL53L0X_encodeTimeout(uint16_t timeout_mclks)] *)
Definition VL53L0X_encodeTimeout (timeout_mclks : Z) : Z :=
  let timeout_mclks := wrap16 timeout_mclks in
  if timeout_mclks >? 0 then
    let '(ls_byte, ms_byte) := encode_loop 32 (wrap32 (timeout_mclks - 1)) 0 in
    wrap16 (Z.lor (Z.shiftl ms_byte 8) (Z.land ls_byte 0xFF))
  else 0.

(** [uint32_t VL53L0X_timeoutMclksToMicroseconds(uint16_t, uint8_t)] *)
Definition VL53L0X_timeoutMclksToMicroseconds
           (timeout_period_mclks vcsel_period_pclks : Z) : Z :=
  let timeout_period_mclks := wrap16 timeout_period_mclks in
  let vcsel_period_pclks := wrap8 vcsel_period_pclks in
  let macro_period_ns := calcMacroPeriod vcsel_period_pclks in
  wrap32 (wrap32 (timeout_period_mclks * macro_period_ns) + macro_period_ns / 2)
  / 1000.

(** [uint32_t VL53L0X_timeoutMicrosecondsToMclks(uint32_t, uint8_t)].  A pulse
    period of zero makes the macro period zero; the quotient is then zero,
    which is what the Cortex-M3 divider returns. *)
Definition VL53L0X_timeoutMicrosecondsToMclks
           (timeout_period_us vcsel_period_pclks : Z) : Z :=
  let timeout_period_us := wrap32 timeout_period_us in
  let vcsel_period_pclks := wrap8 vcsel_period_pclks in
  let macro_period_ns := calcMacroPeriod vcsel_period_pclks in
  wrap32 (wrap32 (timeout_period_us * 1000) + macro_period_ns / 2)
  / macro_period_ns.

(** ** The handle, the sensor and the bus *)

(** Modelled from the spec: [struct VL53L0X] is declared in [VL53L0X.h], which
    is not among the sources.  The handle holds the bus address, the 2V8
    mode flag, the persisted stop variable, the cached measurement timing
    budget in microseconds and the sticky timeout flag. *)
Record VL53L0X : Type := {
  address : Z;
  io_2v8 : bool;
  stop_variable : Z;
  measurement_timing_budget_us : Z;
  did_timeout : bool
}.

Definition with_budget (b : Z) (h : VL53L0X) : VL53L0X :=
  {| address := address h; io_2v8 := io_2v8 h;
     stop_variable := stop_variable h;
     measurement_timing_budget_us := b;
     did_timeout := did_timeout h |}.

Definition with_did_timeout (t : bool) (h : VL53L0X) : VL53L0X :=
  {| address := address h; io_2v8 := io_2v8 h;
     stop_variable := stop_variable h;
     measurement_timing_budget_us := measurement_timing_budget_us h;
     did_timeout := t |}.

(** The sensor is an external collaborator.  It is a file of byte registers
    with an index that the first byte of a bus write sets and that every
    transferred byte advances; [stores] lists, oldest first, every byte the
    driver has stored into a register.  A register changes only when the
    driver stores into it: the model is the sensor between two changes of
    its own, so a status register that reads "busy" keeps reading so. *)
Record Sensor : Type := {
  regs : Z -> Z;
  index : Z;
  stores : list (Z * Z)
}.

Definition set_index (i : Z) (d : Sensor) : Sensor :=
  {| regs := regs d; index := i; stores := stores d |}.

Definition advance (d : Sensor) : Sensor := set_index (wrap8 (index d + 1)) d.

Definition store (a v : Z) (d : Sensor) : Sensor :=
  {| regs := fun r => if r =? a then v else regs d r;
     index := index d;
     stores := stores d ++ [(a, v)] |}.

Fixpoint store_bytes (data : list Z) (d : Sensor) : Sensor :=
  match data with
  | [] => d
  | b :: rest => store_bytes rest (advance (store (index d) (wrap8 b) d))
  end.

Definition bus_write (data : list Z) (d : Sensor) : Sensor :=
  match data with
  | [] => d
  | r :: payload => store_bytes payload (set_index (wrap8 r) d)
  end.

Fixpoint bus_read (n : nat) (d : Sensor) : list Z * Sensor :=
  match n with
  | O => ([], d)
  | S k =>
      let b := wrap8 (regs d (index d)) in
      let '(bs, d') := bus_read k (advance d) in
      (b :: bs, d')
  end.

Record State : Type := { hnd : VL53L0X; bus : Sensor }.

(** ** Statements and functions

    A statement either falls through with a value, executes a [return], or
    is still inside a polling loop when the fuel runs out.  The state reached
    is kept in all three cases. *)

Inductive outcome (R A : Type) : Type :=
| Normal (a : A)
| Return (r : R)
| Spin.
Arguments Normal {R A} a.
Arguments Return {R A} r.
Arguments Spin {R A}.

Definition stmt (R A : Type) : Type := State -> outcome R A * State.

(** A function called on a state: [None] when it has not returned. *)
Definition fn (T : Type) : Type := State -> option T * State.

Definition ret {R A} (a : A) : stmt R A := fun s => (Normal a, s).

Definition bind {R A B} (m : stmt R A) (k : A -> stmt R B) : stmt R B :=
  fun s =>
    match m s with
    | (Normal a, s') => k a s'
    | (Return r, s') => (Return r, s')
    | (Spin, s') => (Spin, s')
    end.

Definition return_ {R A} (r : R) : stmt R A := fun s => (Return r, s).

Definition call {R T} (f : fn T) : stmt R T :=
  fun s =>
    match f s with
    | (Some t, s') => (Normal t, s')
    | (None, s') => (Spin, s')
    end.

Definition function {T} (body : stmt T T) : fn T :=
  fun s =>
    match body s with
    | (Normal t, s') => (Some t, s')
    | (Return t, s') => (Some t, s')
    | (Spin, s') => (None, s')
    end.

Notation "x <- c1 ;; c2" := (bind c1 (fun x => c2))
  (at level 61, c1 at next level, right associativity).
Notation "c1 ;; c2" := (bind c1 (fun _ => c2))
  (at level 61, right associativity).

(** [while (cond) { body }] *)
Fixpoint while {R} (fuel : nat) (cond : stmt R bool) (body : stmt R unit)
  : stmt R unit :=
  match fuel with
  | O => fun s => (Spin, s)
  | S fuel' =>
      c <- cond ;;
      if c then body ;; while fuel' cond body else ret tt
  end.

Definition when {R} (c : bool) (m : stmt R unit) : stmt R unit :=
  if c then m else ret tt.

Definition get_dev {R} : stmt R VL53L0X := fun s => (Normal (hnd s), s).

Definition set_dev {R} (f : VL53L0X -> VL53L0X) : stmt R unit :=
  fun s => (Normal tt, {| hnd := f (hnd s); bus := bus s |}).

(** [i2c_write(I2C1, 0b0101001, data, size)] as the sensor sees it. *)
Definition i2c_write (data : list Z) : fn unit :=
  fun s => (Some tt, {| hnd := hnd s; bus := bus_write data (bus s) |}).

(** [i2c_read(I2C1, 0b0101001, data, size)] as the sensor sees it. *)
Definition i2c_read (size : nat) : fn (list Z) :=
  fun s =>
    let '(bytes, d) := bus_read size (bus s) in
    (Some bytes, {| hnd := hnd s; bus := d |}).

(** ** Register access *)

Definition VL53L0X_writeReg (reg value : Z) : fn unit :=
  function (
    let buf := [wrap8 reg; wrap8 value] in
    call (i2c_write buf)).

Definition VL53L0X_writeReg16Bit (reg value : Z) : fn unit :=
  function (
    let value := wrap16 value in
    let buf := [wrap8 reg; wrap8 (Z.shiftr value 8); wrap8 (Z.land value 0xFF)] in
    call (i2c_write buf)).

Definition VL53L0X_readReg (reg : Z) : fn Z :=
  function (
    call (i2c_write [wrap8 reg]) ;;
    value <- call (i2c_read 1) ;;
    ret (nth 0 value 0)).

Definition VL53L0X_readReg16Bit (reg : Z) : fn Z :=
  function (
    call (i2c_write [wrap8 reg]) ;;
    buf <- call (i2c_read 2) ;;
    let value := wrap16 (Z.shiftl (nth 0 buf 0) 8) in
    let value := wrap16 (Z.lor value (wrap16 (nth 1 buf 0))) in
    ret value).

(** ** Register map and driver data *)

(** The register addresses are macros of [VL53L0X.h], which is not among the
    sources; the driver is modelled for an arbitrary assignment of them. *)
Record RegisterMap : Type := {
  SYSRANGE_START : Z;
  SYSTEM_SEQUENCE_CONFIG : Z;
  SYSTEM_INTERRUPT_CLEAR : Z;
  RESULT_INTERRUPT_STATUS : Z;
  RESULT_RANGE_STATUS : Z;
  MSRC_CONFIG_TIMEOUT_MACROP : Z;
  PRE_RANGE_CONFIG_VCSEL_PERIOD : Z;
  PRE_RANGE_CONFIG_TIMEOUT_MACROP_HI : Z;
  PRE_RANGE_CONFIG_VALID_PHASE_HIGH : Z;
  PRE_RANGE_CONFIG_VALID_PHASE_LOW : Z;
  FINAL_RANGE_CONFIG_VCSEL_PERIOD : Z;
  FINAL_RANGE_CONFIG_TIMEOUT_MACROP_HI : Z;
  FINAL_RANGE_CONFIG_VALID_PHASE_HIGH : Z;
  FINAL_RANGE_CONFIG_VALID_PHASE_LOW : Z;
  GLOBAL_CONFIG_VCSEL_WIDTH : Z;
  ALGO_PHASECAL_CONFIG_TIMEOUT : Z;
  ALGO_PHASECAL_LIM : Z
}.

(** Modelled from the spec: [enum VL53L0X_vcselPeriodType] is declared in
    [VL53L0X.h], which is not among the sources.  The steps are pre-range
    and final-range; the third constructor stands for any other value an
    object of the enumeration type may hold, which the driver tests for. *)
Inductive VL53L0X_vcselPeriodType : Type :=
| VcselPeriodPreRange
| VcselPeriodFinalRange
| VcselPeriodOther.

(** Modelled from the spec: [struct VL53L0X_SequenceStepEnables], declared in
    [VL53L0X.h], is five booleans. *)
Record VL53L0X_SequenceStepEnables : Type := {
  tcc : bool;
  msrc : bool;
  dss : bool;
  pre_range : bool;
  final_range : bool
}.

(** Modelled from the spec: [struct VL53L0X_SequenceStepTimeouts], declared in
    [VL53L0X.h], holds the two pulse periods and, for each step, its timeout
    in clocks and in microseconds.  The clock counts are sixteen-bit fields
    (the source notes that a decoded timeout "is always stored in a
    uint16_t"), the microsecond values thirty-two-bit fields. *)
Record VL53L0X_SequenceStepTimeouts : Type := {
  pre_range_vcsel_period_pclks : Z;
  final_range_vcsel_period_pclks : Z;
  msrc_dss_tcc_mclks : Z;
  pre_range_mclks : Z;
  final_range_mclks : Z;
  msrc_dss_tcc_us : Z;
  pre_range_us : Z;
  final_range_us : Z
}.

(** ** The driver *)

Section Driver.

Variable rm : RegisterMap.

(** [void VL53L0X_startTimeout(struct VL53L0X* dev)]: the body is empty. *)
Definition VL53L0X_startTimeout : fn unit :=
  function (ret tt).

(** [bool VL53L0X_checkTimeoutExpired(struct VL53L0X* dev)]: [return 0;]. *)
Definition VL53L0X_checkTimeoutExpired : fn bool :=
  function (return_ (truthy 0)).

Definition VL53L0X_getVcselPulsePeriod (type : VL53L0X_vcselPeriodType) : fn Z :=
  function (
    match type with
    | VcselPeriodPreRange =>
        v <- call (VL53L0X_readReg (PRE_RANGE_CONFIG_VCSEL_PERIOD rm)) ;;
        return_ (wrap8 (decodeVcselPeriod v))
    | VcselPeriodFinalRange =>
        v <- call (VL53L0X_readReg (FINAL_RANGE_CONFIG_VCSEL_PERIOD rm)) ;;
        return_ (wrap8 (decodeVcselPeriod v))
    | VcselPeriodOther => return_ 255
    end).

Definition VL53L0X_getSequenceStepEnables : fn VL53L0X_SequenceStepEnables :=
  function (
    sequence_config <- call (VL53L0X_readReg (SYSTEM_SEQUENCE_CONFIG rm)) ;;
    ret {| tcc := truthy (Z.land (Z.shiftr sequence_config 4) 0x1);
           dss := truthy (Z.land (Z.shiftr sequence_config 3) 0x1);
           msrc := truthy (Z.land (Z.shiftr sequence_config 2) 0x1);
           pre_range := truthy (Z.land (Z.shiftr sequence_config 6) 0x1);
           final_range := truthy (Z.land (Z.shiftr sequence_config 7) 0x1) |}).

Definition VL53L0X_getSequenceStepTimeouts
           (enables : VL53L0X_SequenceStepEnables)
  : fn VL53L0X_SequenceStepTimeouts :=
  function (
    pre_period <- call (VL53L0X_getVcselPulsePeriod VcselPeriodPreRange) ;;
    msrc_reg <- call (VL53L0X_readReg (MSRC_CONFIG_TIMEOUT_MACROP rm)) ;;
    let msrc_mclks := wrap16 (msrc_reg + 1) in
    let msrc_us := VL53L0X_timeoutMclksToMicroseconds msrc_mclks pre_period in
    pre_reg <- call (VL53L0X_readReg16Bit (PRE_RANGE_CONFIG_TIMEOUT_MACROP_HI rm)) ;;
    let pre_mclks := VL53L0X_decodeTimeout pre_reg in
    let pre_us := VL53L0X_timeoutMclksToMicroseconds pre_mclks pre_period in
    final_period <- call (VL53L0X_getVcselPulsePeriod VcselPeriodFinalRange) ;;
    final_reg <- call (VL53L0X_readReg16Bit (FINAL_RANGE_CONFIG_TIMEOUT_MACROP_HI rm)) ;;
    let final_mclks := VL53L0X_decodeTimeout final_reg in
    let final_mclks :=
      if pre_range enables then wrap16 (final_mclks - pre_mclks) else final_mclks in
    let final_us := VL53L0X_timeoutMclksToMicroseconds final_mclks final_period in
    ret {| pre_range_vcsel_period_pclks := pre_period;
           final_range_vcsel_period_pclks := final_period;
           msrc_dss_tcc_mclks := msrc_mclks;
           pre_range_mclks := pre_mclks;
           final_range_mclks := final_mclks;
           msrc_dss_tcc_us := msrc_us;
           pre_range_us := pre_us;
           final_range_us := final_us |}).

(** The constants local to [VL53L0X_setMeasurementTimingBudget]. *)
Definition StartOverhead : Z := 1320.
Definition EndOverhead : Z := 960.
Definition MsrcOverhead : Z := 660.
Definition TccOverhead : Z := 590.
Definition DssOverhead : Z := 690.
Definition PreRangeOverhead : Z := 660.
Definition FinalRangeOverhead : Z := 550.
Definition MinTimingBudget : Z := 20000.

Definition VL53L0X_setMeasurementTimingBudget (budget_us : Z) : fn bool :=
  function (
    let budget_us := wrap32 budget_us in
    if budget_us <? MinTimingBudget then return_ false else
    let used_budget_us := wrap32 (StartOverhead + EndOverhead) in
    enables <- call VL53L0X_getSequenceStepEnables ;;
    timeouts <- call (VL53L0X_getSequenceStepTimeouts enables) ;;
    let used_budget_us :=
      if tcc enables
      then wrap32 (used_budget_us + wrap32 (msrc_dss_tcc_us timeouts + TccOverhead))
      else used_budget_us in
    let used_budget_us :=
      if dss enables
      then wrap32 (used_budget_us
                   + wrap32 (2 * wrap32 (msrc_dss_tcc_us timeouts + DssOverhead)))
      else if msrc enables
      then wrap32 (used_budget_us + wrap32 (msrc_dss_tcc_us timeouts + MsrcOverhead))
      else used_budget_us in
    let used_budget_us :=
      if pre_range enables
      then wrap32 (used_budget_us + wrap32 (pre_range_us timeouts + PreRangeOverhead))
      else used_budget_us in
    when (final_range enables) (
      let used_budget_us := wrap32 (used_budget_us + FinalRangeOverhead) in
      if used_budget_us >? budget_us then return_ false else
      let final_range_timeout_us := wrap32 (budget_us - used_budget_us) in
      let final_range_timeout_mclks :=
        wrap16 (VL53L0X_timeoutMicrosecondsToMclks
                  final_range_timeout_us
                  (final_range_vcsel_period_pclks timeouts)) in
      let final_range_timeout_mclks :=
        if pre_range enables
        then wrap16 (final_range_timeout_mclks + pre_range_mclks timeouts)
        else final_range_timeout_mclks in
      call (VL53L0X_writeReg16Bit (FINAL_RANGE_CONFIG_TIMEOUT_MACROP_HI rm)
                                  (VL53L0X_encodeTimeout final_range_timeout_mclks)) ;;
      set_dev (with_budget budget_us)) ;;
    ret true).

Definition VL53L0X_performSingleRefCalibration (fuel : nat) (vhv_init_byte : Z)
  : fn bool :=
  function (
    let vhv_init_byte := wrap8 vhv_init_byte in
    call (VL53L0X_writeReg (SYSRANGE_START rm) (Z.lor 0x01 vhv_init_byte)) ;;
    call VL53L0X_startTimeout ;;
    while fuel
      (status <- call (VL53L0X_readReg (RESULT_INTERRUPT_STATUS rm)) ;;
       ret (Z.land status 0x07 =? 0))
      (expired <- call VL53L0X_checkTimeoutExpired ;;
       if expired then return_ false else ret tt) ;;
    call (VL53L0X_writeReg (SYSTEM_INTERRUPT_CLEAR rm) 0x01) ;;
    call (VL53L0X_writeReg (SYSRANGE_START rm) 0x00) ;;
    ret true).

(** The body of [VL53L0X_setVcselPulsePeriod] is split at its two comment
    banners.  [apply_vcsel_period] is the [if (type == ...) ... else if ...
    else ...] chain with its two [switch] statements; a [return false] in it
    returns from [VL53L0X_setVcselPulsePeriod]. *)
Definition apply_vcsel_period
           (type : VL53L0X_vcselPeriodType) (period_pclks vcsel_period_reg : Z)
           (enables : VL53L0X_SequenceStepEnables)
           (timeouts : VL53L0X_SequenceStepTimeouts)
  : stmt bool unit :=
    match type with
    | VcselPeriodPreRange =>
        (if period_pclks =? 12 then
           call (VL53L0X_writeReg (PRE_RANGE_CONFIG_VALID_PHASE_HIGH rm) 0x18)
         else if period_pclks =? 14 then
           call (VL53L0X_writeReg (PRE_RANGE_CONFIG_VALID_PHASE_HIGH rm) 0x30)
         else if period_pclks =? 16 then
           call (VL53L0X_writeReg (PRE_RANGE_CONFIG_VALID_PHASE_HIGH rm) 0x40)
         else if period_pclks =? 18 then
           call (VL53L0X_writeReg (PRE_RANGE_CONFIG_VALID_PHASE_HIGH rm) 0x50)
         else return_ false) ;;
        call (VL53L0X_writeReg (PRE_RANGE_CONFIG_VALID_PHASE_LOW rm) 0x08) ;;
        call (VL53L0X_writeReg (PRE_RANGE_CONFIG_VCSEL_PERIOD rm) vcsel_period_reg) ;;
        let new_pre_range_timeout_mclks :=
          wrap16 (VL53L0X_timeoutMicrosecondsToMclks (pre_range_us timeouts)
                                                      period_pclks) in
        call (VL53L0X_writeReg16Bit (PRE_RANGE_CONFIG_TIMEOUT_MACROP_HI rm)
                (VL53L0X_encodeTimeout new_pre_range_timeout_mclks)) ;;
        let new_msrc_timeout_mclks :=
          wrap16 (VL53L0X_timeoutMicrosecondsToMclks (msrc_dss_tcc_us timeouts)
                                                      period_pclks) in
        call (VL53L0X_writeReg (MSRC_CONFIG_TIMEOUT_MACROP rm)
                (if new_msrc_timeout_mclks >? 256 then 255
                 else new_msrc_timeout_mclks - 1))
    | VcselPeriodFinalRange =>
        (if period_pclks =? 8 then
           call (VL53L0X_writeReg (FINAL_RANGE_CONFIG_VALID_PHASE_HIGH rm) 0x10) ;;
           call (VL53L0X_writeReg (FINAL_RANGE_CONFIG_VALID_PHASE_LOW rm) 0x08) ;;
           call (VL53L0X_writeReg (GLOBAL_CONFIG_VCSEL_WIDTH rm) 0x02) ;;
           call (VL53L0X_writeReg (ALGO_PHASECAL_CONFIG_TIMEOUT rm) 0x0C) ;;
           call (VL53L0X_writeReg 0xFF 0x01) ;;
           call (VL53L0X_writeReg (ALGO_PHASECAL_LIM rm) 0x30) ;;
           call (VL53L0X_writeReg 0xFF 0x00)
         else if period_pclks =? 10 then
           call (VL53L0X_writeReg (FINAL_RANGE_CONFIG_VALID_PHASE_HIGH rm) 0x28) ;;
           call (VL53L0X_writeReg (FINAL_RANGE_CONFIG_VALID_PHASE_LOW rm) 0x08) ;;
           call (VL53L0X_writeReg (GLOBAL_CONFIG_VCSEL_WIDTH rm) 0x03) ;;
           call (VL53L0X_writeReg (ALGO_PHASECAL_CONFIG_TIMEOUT rm) 0x09) ;;
           call (VL53L0X_writeReg 0xFF 0x01) ;;
           call (VL53L0X_writeReg (ALGO_PHASECAL_LIM rm) 0x20) ;;
           call (VL53L0X_writeReg 0xFF 0x00)
         else if period_pclks =? 12 then
           call (VL53L0X_writeReg (FINAL_RANGE_CONFIG_VALID_PHASE_HIGH rm) 0x38) ;;
           call (VL53L0X_writeReg (FINAL_RANGE_CONFIG_VALID_PHASE_LOW rm) 0x08) ;;
           call (VL53L0X_writeReg (GLOBAL_CONFIG_VCSEL_WIDTH rm) 0x03) ;;
           call (VL53L0X_writeReg (ALGO_PHASECAL_CONFIG_TIMEOUT rm) 0x08) ;;
           call (VL53L0X_writeReg 0xFF 0x01) ;;
           call (VL53L0X_writeReg (ALGO_PHASECAL_LIM rm) 0x20) ;;
           call (VL53L0X_writeReg 0xFF 0x00)
         else if period_pclks =? 14 then
           call (VL53L0X_writeReg (FINAL_RANGE_CONFIG_VALID_PHASE_HIGH rm) 0x48) ;;
           call (VL53L0X_writeReg (FINAL_RANGE_CONFIG_VALID_PHASE_LOW rm) 0x08) ;;
           call (VL53L0X_writeReg (GLOBAL_CONFIG_VCSEL_WIDTH rm) 0x03) ;;
           call (VL53L0X_writeReg (ALGO_PHASECAL_CONFIG_TIMEOUT rm) 0x07) ;;
           call (VL53L0X_writeReg 0xFF 0x01) ;;
           call (VL53L0X_writeReg (ALGO_PHASECAL_LIM rm) 0x20) ;;
           call (VL53L0X_writeReg 0xFF 0x00)
         else return_ false) ;;
        call (VL53L0X_writeReg (FINAL_RANGE_CONFIG_VCSEL_PERIOD rm) vcsel_period_reg) ;;
        let new_final_range_timeout_mclks :=
          wrap16 (VL53L0X_timeoutMicrosecondsToMclks (final_range_us timeouts)
                                                      period_pclks) in
        let new_final_range_timeout_mclks :=
          if pre_range enables
          then wrap16 (new_final_range_timeout_mclks + pre_range_mclks timeouts)
          else new_final_range_timeout_mclks in
        call (VL53L0X_writeReg16Bit (FINAL_RANGE_CONFIG_TIMEOUT_MACROP_HI rm)
                (VL53L0X_encodeTimeout new_final_range_timeout_mclks))
    | VcselPeriodOther => return_ false
    end.

(** [reapply_and_recalibrate] is what follows the chain: the cached timing
    budget is reapplied and the phase calibration performed; neither result
    is looked at. *)
Definition reapply_and_recalibrate (fuel : nat) : stmt bool bool :=
    dev <- get_dev ;;
    call (VL53L0X_setMeasurementTimingBudget (measurement_timing_budget_us dev)) ;;
    sequence_config <- call (VL53L0X_readReg (SYSTEM_SEQUENCE_CONFIG rm)) ;;
    call (VL53L0X_writeReg (SYSTEM_SEQUENCE_CONFIG rm) 0x02) ;;
    call (VL53L0X_performSingleRefCalibration fuel 0x0) ;;
    call (VL53L0X_writeReg (SYSTEM_SEQUENCE_CONFIG rm) sequence_config) ;;
    ret true.

Definition VL53L0X_setVcselPulsePeriod
           (fuel : nat) (type : VL53L0X_vcselPeriodType) (period_pclks : Z)
  : fn bool :=
  function (
    let period_pclks := wrap8 period_pclks in
    let vcsel_period_reg := wrap8 (encodeVcselPeriod period_pclks) in
    enables <- call VL53L0X_getSequenceStepEnables ;;
    timeouts <- call (VL53L0X_getSequenceStepTimeouts enables) ;;
    apply_vcsel_period type period_pclks vcsel_period_reg enables timeouts ;;
    reapply_and_recalibrate fuel).

Definition VL53L0X_readRangeContinuousMillimeters : fn Z :=
  function (
    range <- call (VL53L0X_readReg16Bit (RESULT_RANGE_STATUS rm + 10)) ;;
    call (VL53L0X_writeReg (SYSTEM_INTERRUPT_CLEAR rm) 0x01) ;;
    ret range).

Definition VL53L0X_readRangeSingleMillimeters (fuel : nat) : fn Z :=
  function (
    call (VL53L0X_writeReg 0x80 0x01) ;;
    call (VL53L0X_writeReg 0xFF 0x01) ;;
    call (VL53L0X_writeReg 0x00 0x00) ;;
    dev <- get_dev ;;
    call (VL53L0X_writeReg 0x91 (stop_variable dev)) ;;
    call (VL53L0X_writeReg 0x00 0x01) ;;
    call (VL53L0X_writeReg 0xFF 0x00) ;;
    call (VL53L0X_writeReg 0x80 0x00) ;;
    call (VL53L0X_writeReg (SYSRANGE_START rm) 0x01) ;;
    call VL53L0X_startTimeout ;;
    while fuel
      (start <- call (VL53L0X_readReg (SYSRANGE_START rm)) ;;
       ret (truthy (Z.land start 0x01)))
      (expired <- call VL53L0X_checkTimeoutExpired ;;
       if expired
       then set_dev (with_did_timeout true) ;; return_ 65535
       else ret tt) ;;
    range <- call VL53L0X_readRangeContinuousMillimeters ;;
    ret range).

(** [bool VL53L0X_getSpadInfo(dev, uint8_t* count, bool* type_is_aperture)]:
    the two output parameters are returned next to the result and are
    meaningful only when it is [true]. *)
Definition VL53L0X_getSpadInfo (fuel : nat) : fn (bool * (Z * bool)) :=
  function (
    call (VL53L0X_writeReg 0x80 0x01) ;;
    call (VL53L0X_writeReg 0xFF 0x01) ;;
    call (VL53L0X_writeReg 0x00 0x00) ;;
    call (VL53L0X_writeReg 0xFF 0x06) ;;
    v <- call (VL53L0X_readReg 0x83) ;;
    call (VL53L0X_writeReg 0x83 (Z.lor v 0x04)) ;;
    call (VL53L0X_writeReg 0xFF 0x07) ;;
    call (VL53L0X_writeReg 0x81 0x01) ;;
    call (VL53L0X_writeReg 0x80 0x01) ;;
    call (VL53L0X_writeReg 0x94 0x6b) ;;
    call (VL53L0X_writeReg 0x83 0x00) ;;
    call VL53L0X_startTimeout ;;
    while fuel
      (v <- call (VL53L0X_readReg 0x83) ;;
       ret (v =? 0x00))
      (expired <- call VL53L0X_checkTimeoutExpired ;;
       if expired then return_ (false, (0, false)) else ret tt) ;;
    call (VL53L0X_writeReg 0x83 0x01) ;;
    tmp <- call (VL53L0X_readReg 0x92) ;;
    let count := wrap8 (Z.land tmp 0x7f) in
    let type_is_aperture := truthy (Z.land (Z.shiftr tmp 7) 0x01) in
    call (VL53L0X_writeReg 0x81 0x00) ;;
    call (VL53L0X_writeReg 0xFF 0x06) ;;
    v <- call (VL53L0X_readReg 0x83) ;;
    call (VL53L0X_writeReg 0x83 (Z.land v (Z.lnot 0x04))) ;;
    call (VL53L0X_writeReg 0xFF 0x01) ;;
    call (VL53L0X_writeReg 0x00 0x01) ;;
    call (VL53L0X_writeReg 0xFF 0x00) ;;
    call (VL53L0X_writeReg 0x80 0x00) ;;
    ret (true, (count, type_is_aperture))).

End Driver.

(** ** A concrete sensor *)

(** Register addresses of the vendor's register map, used for the concrete
    runs below. *)
Definition datasheet_map : RegisterMap := {|
  SYSRANGE_START := 0x00;
  SYSTEM_SEQUENCE_CONFIG := 0x01;
  SYSTEM_INTERRUPT_CLEAR := 0x0B;
  RESULT_INTERRUPT_STATUS := 0x13;
  RESULT_RANGE_STATUS := 0x14;
  MSRC_CONFIG_TIMEOUT_MACROP := 0x46;
  PRE_RANGE_CONFIG_VCSEL_PERIOD := 0x50;
  PRE_RANGE_CONFIG_TIMEOUT_MACROP_HI := 0x51;
  PRE_RANGE_CONFIG_VALID_PHASE_HIGH := 0x57;
  PRE_RANGE_CONFIG_VALID_PHASE_LOW := 0x56;
  FINAL_RANGE_CONFIG_VCSEL_PERIOD := 0x70;
  FINAL_RANGE_CONFIG_TIMEOUT_MACROP_HI := 0x71;
  FINAL_RANGE_CONFIG_VALID_PHASE_HIGH := 0x48;
  FINAL_RANGE_CONFIG_VALID_PHASE_LOW := 0x47;
  GLOBAL_CONFIG_VCSEL_WIDTH := 0x32;
  ALGO_PHASECAL_CONFIG_TIMEOUT := 0x30;
  ALGO_PHASECAL_LIM := 0x30
|}.

(** A register file given by an association list; unlisted registers hold 0. *)
Fixpoint regs_of (l : list (Z * Z)) (r : Z) : Z :=
  match l with
  | [] => 0
  | (a, v) :: l' => if r =? a then v else regs_of l' r
  end.

Definition sensor_of (l : list (Z * Z)) : Sensor :=
  {| regs := regs_of l; index := 0; stores := [] |}.

Definition handle_of (budget : Z) : VL53L0X :=
  {| address := 0x29; io_2v8 := true; stop_variable := 0;
     measurement_timing_budget_us := budget; did_timeout := false |}.

(** A sensor with the given step-enable byte, pre-range period 14,
    final-range period 10, typical timeout registers and a measurement
    reported as ready, driven through a handle caching [budget].  The byte
    [0xE8] enables DSS, pre-range and final-range. *)
Definition configured_state (sequence_config budget : Z) : State :=
  {| hnd := handle_of budget;
     bus := sensor_of [(0x01, sequence_config); (0x13, 0x01); (0x46, 0x26);
                       (0x50, 0x06); (0x51, 0x00); (0x52, 0x96);
                       (0x70, 0x04); (0x71, 0x02); (0x72, 0xD6)] |}.

(** A sensor whose registers all read zero: it never reports ready. *)
Definition silent_state : State :=
  {| hnd := handle_of 0; bus := sensor_of [] |}.

(** ** Reference definitions for the statements below *)

(** The decoded timeout of the data model, [(mantissa << exponent) + 1], with
    the mantissa the low byte and the exponent the high byte, in unbounded
    arithmetic. *)
Definition decode_unbounded (reg_val : Z) : Z :=
  Z.shiftl (reg_val mod 256) (reg_val / 256) + 1.

(** [k] is the least shift that brings [q] under 256: the exponent the
    encoder chooses for [q + 1] clocks. *)
Definition least_exponent (q k : Z) : Prop :=
  0 <= k /\ q / 2 ^ k < 256 /\ (k = 0 \/ 0 < k /\ 256 <= q / 2 ^ (k - 1)).

(** The exponent an encoded timeout carries in its high byte. *)
Definition exponent_of (encoded : Z) : Z := encoded / 256.

Definition pulse_periods : list Z := [8; 10; 12; 14; 16; 18].
Definition pre_range_periods : list Z := [12; 14; 16; 18].
Definition final_range_periods : list Z := [8; 10; 12; 14].

(** *** Views of the sensor and of the state *)

(** The byte register [reg] holds, and the 16-bit value of [reg] and its
    successor, high byte first. *)
Definition peek (d : Sensor) (reg : Z) : Z := wrap8 (regs d (wrap8 reg)).

Definition peek16 (d : Sensor) (reg : Z) : Z :=
  wrap16 (Z.lor (wrap16 (Z.shiftl (peek d reg) 8))
                (wrap16 (peek d (wrap8 reg + 1)))).

Definition on_bus (f : Sensor -> Sensor) (s : State) : State :=
  {| hnd := hnd s; bus := f (bus s) |}.

Definition on_hnd (f : VL53L0X -> VL53L0X) (s : State) : State :=
  {| hnd := f (hnd s); bus := bus s |}.

(** The sensor after an 8-bit and after a 16-bit register write. *)
Definition write8 (reg value : Z) (d : Sensor) : Sensor :=
  bus_write [wrap8 reg; wrap8 value] d.

Definition write16 (reg value : Z) (d : Sensor) : Sensor :=
  bus_write [wrap8 reg; wrap8 (Z.shiftr (wrap16 value) 8);
             wrap8 (Z.land (wrap16 value) 0xFF)] d.

(** The bytes stored since an earlier state. *)
Definition stores_since (before after : State) : list (Z * Z) :=
  skipn (length (stores (bus before))) (stores (bus after)).

Section Views.

Variable rm : RegisterMap.

Definition period_of (reg : Z) (d : Sensor) : Z :=
  wrap8 (decodeVcselPeriod (peek d reg)).

(** What [VL53L0X_getSequenceStepEnables] reads from a sensor. *)
Definition enables_of (d : Sensor) : VL53L0X_SequenceStepEnables :=
  let sequence_config := peek d (SYSTEM_SEQUENCE_CONFIG rm) in
  {| tcc := truthy (Z.land (Z.shiftr sequence_config 4) 0x1);
     dss := truthy (Z.land (Z.shiftr sequence_config 3) 0x1);
     msrc := truthy (Z.land (Z.shiftr sequence_config 2) 0x1);
     pre_range := truthy (Z.land (Z.shiftr sequence_config 6) 0x1);
     final_range := truthy (Z.land (Z.shiftr sequence_config 7) 0x1) |}.

(** What [VL53L0X_getSequenceStepTimeouts] reads from a sensor. *)
Definition timeouts_of (enables : VL53L0X_SequenceStepEnables) (d : Sensor)
  : VL53L0X_SequenceStepTimeouts :=
  let pre_period := period_of (PRE_RANGE_CONFIG_VCSEL_PERIOD rm) d in
  let final_period := period_of (FINAL_RANGE_CONFIG_VCSEL_PERIOD rm) d in
  let msrc_mclks := wrap16 (peek d (MSRC_CONFIG_TIMEOUT_MACROP rm) + 1) in
  let pre_mclks :=
    VL53L0X_decodeTimeout (peek16 d (PRE_RANGE_CONFIG_TIMEOUT_MACROP_HI rm)) in
  let final_mclks :=
    VL53L0X_decodeTimeout (peek16 d (FINAL_RANGE_CONFIG_TIMEOUT_MACROP_HI rm)) in
  let final_mclks :=
    if pre_range enables then wrap16 (final_mclks - pre_mclks) else final_mclks in
  {| pre_range_vcsel_period_pclks := pre_period;
     final_range_vcsel_period_pclks := final_period;
     msrc_dss_tcc_mclks := msrc_mclks;
     pre_range_mclks := pre_mclks;
     final_range_mclks := final_mclks;
     msrc_dss_tcc_us := VL53L0X_timeoutMclksToMicroseconds msrc_mclks pre_period;
     pre_range_us := VL53L0X_timeoutMclksToMicroseconds pre_mclks pre_period;
     final_range_us := VL53L0X_timeoutMclksToMicroseconds final_mclks final_period |}.

End Views.

(** The later state has stored more bytes and dropped none. *)
Definition extends (s s' : State) : Prop :=
  exists l, stores (bus s') = stores (bus s) ++ l.

(** Every register address [VL53L0X_setVcselPulsePeriod] may store into. *)
Definition written_by_setVcselPulsePeriod (rm : RegisterMap) : list Z :=
  let both r := [wrap8 r; wrap8 (wrap8 r + 1)] in
  map wrap8
      [PRE_RANGE_CONFIG_VALID_PHASE_HIGH rm; PRE_RANGE_CONFIG_VALID_PHASE_LOW rm;
       PRE_RANGE_CONFIG_VCSEL_PERIOD rm; MSRC_CONFIG_TIMEOUT_MACROP rm;
       FINAL_RANGE_CONFIG_VALID_PHASE_HIGH rm; FINAL_RANGE_CONFIG_VALID_PHASE_LOW rm;
       GLOBAL_CONFIG_VCSEL_WIDTH rm; ALGO_PHASECAL_CONFIG_TIMEOUT rm; 0xFF;
       ALGO_PHASECAL_LIM rm; FINAL_RANGE_CONFIG_VCSEL_PERIOD rm;
       SYSTEM_SEQUENCE_CONFIG rm; SYSRANGE_START rm]
  ++ both (PRE_RANGE_CONFIG_TIMEOUT_MACROP_HI rm)
  ++ both (FINAL_RANGE_CONFIG_TIMEOUT_MACROP_HI rm).

(** The two bytes of the final-range timeout register lie apart from the
    step-enable byte and from the two bytes of the pre-range timeout. *)
Definition final_timeout_isolated (rm : RegisterMap) : Prop :=
  let final := [wrap8 (FINAL_RANGE_CONFIG_TIMEOUT_MACROP_HI rm);
                wrap8 (wrap8 (FINAL_RANGE_CONFIG_TIMEOUT_MACROP_HI rm) + 1)] in
  ~ In (wrap8 (SYSTEM_SEQUENCE_CONFIG rm)) final /\
  ~ In (wrap8 (PRE_RANGE_CONFIG_TIMEOUT_MACROP_HI rm)) final /\
  ~ In (wrap8 (wrap8 (PRE_RANGE_CONFIG_TIMEOUT_MACROP_HI rm) + 1)) final.

(** *** The budget model of the allocator, in unbounded arithmetic *)

(** Start and end overheads plus, for each enabled step in the order TCC, DSS
    or else MSRC, pre-range, its measured cost and its overhead, DSS twice. *)
Definition steps_cost (en : VL53L0X_SequenceStepEnables)
           (tm : VL53L0X_SequenceStepTimeouts) : Z :=
  1320 + 960
  + (if tcc en then msrc_dss_tcc_us tm + 590 else 0)
  + (if dss en then 2 * (msrc_dss_tcc_us tm + 690)
     else if msrc en then msrc_dss_tcc_us tm + 660 else 0)
  + (if pre_range en then pre_range_us tm + 660 else 0).

(** The budget used once the final-range overhead is counted. *)
Definition used_budget (en : VL53L0X_SequenceStepEnables)
           (tm : VL53L0X_SequenceStepTimeouts) : Z :=
  steps_cost en tm + 550.

(** The final-range timeout, in clocks, that a budget leaves. *)
Definition allocated_final_mclks (budget_us : Z)
           (en : VL53L0X_SequenceStepEnables)
           (tm : VL53L0X_SequenceStepTimeouts) : Z :=
  wrap16 (VL53L0X_timeoutMicrosecondsToMclks
            (budget_us - used_budget en tm)
            (final_range_vcsel_period_pclks tm)).

(** The periods a step accepts. *)
Definition allowed_periods (type : VL53L0X_vcselPeriodType) : list Z :=
  match type with
  | VcselPeriodPreRange => pre_range_periods
  | VcselPeriodFinalRange => final_range_periods
  | VcselPeriodOther => []
  end.

(** ** Further functions of the driver *)

Definition with_address (a : Z) (h : VL53L0X) : VL53L0X :=
  {| address := a; io_2v8 := io_2v8 h;
     stop_variable := stop_variable h;
     measurement_timing_budget_us := measurement_timing_budget_us h;
     did_timeout := did_timeout h |}.

(** [void VL53L0X_writeReg32Bit(struct VL53L0X* dev, uint8_t reg, uint32_t value)] *)
Definition VL53L0X_writeReg32Bit (reg value : Z) : fn unit :=
  function (
    let value := wrap32 value in
    let buf := [wrap8 reg; wrap8 (Z.shiftr value 24); wrap8 (Z.shiftr value 16);
                wrap8 (Z.shiftr value 8); wrap8 (Z.land value 0xFF)] in
    call (i2c_write buf)).

(** [uint32_t VL53L0X_readReg32Bit(struct VL53L0X* dev, uint8_t reg)] *)
Definition VL53L0X_readReg32Bit (reg : Z) : fn Z :=
  function (
    call (i2c_write [wrap8 reg]) ;;
    buf <- call (i2c_read 4) ;;
    let value := wrap32 (Z.shiftl (nth 0 buf 0) 24) in
    let value := wrap32 (Z.lor value (wrap32 (Z.shiftl (nth 1 buf 0) 16))) in
    let value := wrap32 (Z.lor value (wrap32 (Z.shiftl (nth 2 buf 0) 8))) in
    let value := wrap32 (Z.lor value (wrap32 (nth 3 buf 0))) in
    ret value).

(** [void VL53L0X_writeMulti(dev, uint8_t reg, uint8_t* src, uint8_t count)]:
    [src] is the list of the [count] bytes.  The source issues two bus
    writes, one of the register index and one of the bytes. *)
Definition VL53L0X_writeMulti (reg : Z) (src : list Z) : fn unit :=
  function (
    call (i2c_write [wrap8 reg]) ;;
    call (i2c_write src)).

(** [void VL53L0X_readMulti(dev, uint8_t reg, uint8_t* dst, uint8_t count)]:
    the bytes read into [dst] are returned. *)
Definition VL53L0X_readMulti (reg : Z) (count : nat) : fn (list Z) :=
  function (
    call (i2c_write [wrap8 reg]) ;;
    dst <- call (i2c_read count) ;;
    ret dst).


(** Register addresses used by the functions below; they too are macros of
    [VL53L0X.h] and are taken as given. *)
Record RangingRegisters : Type := {
  I2C_SLAVE_DEVICE_ADDRESS : Z;
  FINAL_RANGE_CONFIG_MIN_COUNT_RATE_RTN_LIMIT : Z;
  OSC_CALIBRATE_VAL : Z;
  SYSTEM_INTERMEASUREMENT_PERIOD : Z
}.

Section Measurement.

Variable rm : RegisterMap.
Variable rr : RangingRegisters.

(** [void VL53L0X_setAddress(struct VL53L0X* dev, uint8_t new_addr)] *)
Definition VL53L0X_setAddress (new_addr : Z) : fn unit :=
  function (
    let new_addr := wrap8 new_addr in
    call (VL53L0X_writeReg (I2C_SLAVE_DEVICE_ADDRESS rr) (Z.land new_addr 0x7F)) ;;
    set_dev (with_address new_addr)).

(** [bool VL53L0X_setSignalRateLimit(struct VL53L0X* dev)] *)
Definition VL53L0X_setSignalRateLimit : fn bool :=
  function (
    call (VL53L0X_writeReg16Bit (FINAL_RANGE_CONFIG_MIN_COUNT_RATE_RTN_LIMIT rr)
                                (Z.shiftl 1 7 / 4)) ;;
    ret true).

(** [uint16_t VL53L0X_getSignalRateLimit(struct VL53L0X* dev)] *)
Definition VL53L0X_getSignalRateLimit : fn Z :=
  function (
    v <- call (VL53L0X_readReg16Bit (FINAL_RANGE_CONFIG_MIN_COUNT_RATE_RTN_LIMIT rr)) ;;
    ret (wrap16 (v * 4 / Z.shiftl 1 7))).

(** [uint32_t VL53L0X_getMeasurementTimingBudget(struct VL53L0X* dev)]; its
    start overhead is 1910, not the 1320 of the setter. *)
Definition VL53L0X_getMeasurementTimingBudget : fn Z :=
  function (
    let StartOverhead := 1910 in
    let budget_us := wrap32 (StartOverhead + EndOverhead) in
    enables <- call (VL53L0X_getSequenceStepEnables rm) ;;
    timeouts <- call (VL53L0X_getSequenceStepTimeouts rm enables) ;;
    let budget_us :=
      if tcc enables
      then wrap32 (budget_us + wrap32 (msrc_dss_tcc_us timeouts + TccOverhead))
      else budget_us in
    let budget_us :=
      if dss enables
      then wrap32 (budget_us
                   + wrap32 (2 * wrap32 (msrc_dss_tcc_us timeouts + DssOverhead)))
      else if msrc enables
      then wrap32 (budget_us + wrap32 (msrc_dss_tcc_us timeouts + MsrcOverhead))
      else budget_us in
    let budget_us :=
      if pre_range enables
      then wrap32 (budget_us + wrap32 (pre_range_us timeouts + PreRangeOverhead))
      else budget_us in
    let budget_us :=
      if final_range enables
      then wrap32 (budget_us + wrap32 (final_range_us timeouts + FinalRangeOverhead))
      else budget_us in
    set_dev (with_budget budget_us) ;;
    ret budget_us).

(** [void VL53L0X_startContinuous(struct VL53L0X* dev, uint32_t period_ms)] *)
Definition VL53L0X_startContinuous (period_ms : Z) : fn unit :=
  function (
    let period_ms := wrap32 period_ms in
    call (VL53L0X_writeReg 0x80 0x01) ;;
    call (VL53L0X_writeReg 0xFF 0x01) ;;
    call (VL53L0X_writeReg 0x00 0x00) ;;
    dev <- get_dev ;;
    call (VL53L0X_writeReg 0x91 (stop_variable dev)) ;;
    call (VL53L0X_writeReg 0x00 0x01) ;;
    call (VL53L0X_writeReg 0xFF 0x00) ;;
    call (VL53L0X_writeReg 0x80 0x00) ;;
    if negb (period_ms =? 0) then
      osc_calibrate_val <- call (VL53L0X_readReg16Bit (OSC_CALIBRATE_VAL rr)) ;;
      let period_ms :=
        if negb (osc_calibrate_val =? 0)
        then wrap32 (period_ms * osc_calibrate_val)
        else period_ms in
      call (VL53L0X_writeReg32Bit (SYSTEM_INTERMEASUREMENT_PERIOD rr) period_ms) ;;
      call (VL53L0X_writeReg (SYSRANGE_START rm) 0x04)
    else
      call (VL53L0X_writeReg (SYSRANGE_START rm) 0x02)).

(** [void VL53L0X_stopContinuous(struct VL53L0X* dev)] *)
Definition VL53L0X_stopContinuous : fn unit :=
  function (
    call (VL53L0X_writeReg (SYSRANGE_START rm) 0x01) ;;
    call (VL53L0X_writeReg 0xFF 0x01) ;;
    call (VL53L0X_writeReg 0x00 0x00) ;;
    call (VL53L0X_writeReg 0x91 0x00) ;;
    call (VL53L0X_writeReg 0x00 0x01) ;;
    call (VL53L0X_writeReg 0xFF 0x00)).

End Measurement.

(** *** Reference SPAD selection in [VL53L0X_init] *)

(** [ref_spad_map[k] = v] on the six-byte array. *)
Fixpoint set_byte (k : nat) (v : Z) (l : list Z) : list Z :=
  match l, k with
  | [], _ => []
  | _ :: t, O => v :: t
  | h :: t, S k' => h :: set_byte k' v t
  end.

(** [(ref_spad_map[i / 8] >> (i % 8)) & 0x1] *)
Definition spad_bit (ref_spad_map : list Z) (i : Z) : bool :=
  truthy (Z.land (Z.shiftr (nth (Z.to_nat (i / 8)) ref_spad_map 0) (i mod 8)) 0x1).

(** [ref_spad_map[i / 8] &= ~(1 << (i % 8))] *)
Definition clear_spad (ref_spad_map : list Z) (i : Z) : list Z :=
  set_byte (Z.to_nat (i / 8))
           (wrap8 (Z.land (nth (Z.to_nat (i / 8)) ref_spad_map 0)
                          (Z.lnot (Z.shiftl 1 (i mod 8)))))
           ref_spad_map.

(** The [for (uint8_t i = 0; i < 48; i++)] loop of [VL53L0X_init], with [n]
    iterations left from index [i]; it returns [spads_enabled] and the
    map. *)
Fixpoint spad_loop (n : nat) (i first_spad_to_enable spad_count spads_enabled : Z)
         (ref_spad_map : list Z) : Z * list Z :=
  match n with
  | O => (spads_enabled, ref_spad_map)
  | S n' =>
      if (i <? first_spad_to_enable) || (spads_enabled =? spad_count) then
        spad_loop n' (wrap8 (i + 1)) first_spad_to_enable spad_count spads_enabled
                  (clear_spad ref_spad_map i)
      else if spad_bit ref_spad_map i then
        spad_loop n' (wrap8 (i + 1)) first_spad_to_enable spad_count
                  (wrap8 (spads_enabled + 1)) ref_spad_map
      else
        spad_loop n' (wrap8 (i + 1)) first_spad_to_enable spad_count spads_enabled
                  ref_spad_map
  end.

(** The reference SPAD selection of [VL53L0X_init], from
    [first_spad_to_enable] to the end of the loop, for the count and type
    that [VL53L0X_getSpadInfo] reported. *)
Definition select_reference_spads (spad_count : Z) (spad_type_is_aperture : bool)
           (ref_spad_map : list Z) : Z * list Z :=
  let first_spad_to_enable := if spad_type_is_aperture then 12 else 0 in
  let spads_enabled := 0 in
  spad_loop 48 0 first_spad_to_enable spad_count spads_enabled ref_spad_map.

(** The SPADs of [lo .. lo + n - 1] that a map enables. *)
Fixpoint spads_from (n : nat) (lo : Z) (ref_spad_map : list Z) : Z :=
  match n with
  | O => 0
  | S n' => (if spad_bit ref_spad_map lo then 1 else 0)
            + spads_from n' (lo + 1) ref_spad_map
  end.

(** ** Microcontroller peripherals *)

(** [struct exti]: plain read-write registers. *)
Record exti : Type := {
  imr : Z; emr : Z; rtsr : Z; ftsr : Z; swier : Z; pr : Z
}.

(** [#define EXTI_TRIGGER_RISING (1 << 0)] and
    [#define EXTI_TRIGGER_FALLING (1 << 1)] *)
Definition EXTI_TRIGGER_RISING : Z := Z.shiftl 1 0.
Definition EXTI_TRIGGER_FALLING : Z := Z.shiftl 1 1.

(** [void exti_enable(uint8_t line)] *)
Definition exti_enable (line : Z) (x : exti) : exti :=
  let line := wrap8 line in
  {| imr := wrap32 (Z.lor (imr x) (Z.shiftl 1 line));
     emr := emr x; rtsr := rtsr x; ftsr := ftsr x;
     swier := swier x; pr := pr x |}.

(** [void exti_configure(uint8_t line, uint8_t trigger)]; the shifts are
    defined for the lines below 32. *)
Definition exti_configure (line trigger : Z) (x : exti) : exti :=
  let line := wrap8 line in
  let trigger := wrap8 trigger in
  let rtsr' :=
    if truthy (Z.land trigger EXTI_TRIGGER_RISING)
    then wrap32 (Z.lor (rtsr x) (Z.shiftl 1 line))
    else wrap32 (Z.land (rtsr x) (Z.lnot (Z.shiftl 1 line))) in
  let ftsr' :=
    if truthy (Z.land trigger EXTI_TRIGGER_FALLING)
    then wrap32 (Z.lor (ftsr x) (Z.shiftl 1 line))
    else wrap32 (Z.land (ftsr x) (Z.lnot (Z.shiftl 1 line))) in
  {| imr := imr x; emr := emr x; rtsr := rtsr'; ftsr := ftsr';
     swier := swier x; pr := pr x |}.

(** [struct gpio]; [cr] is the array [cr[2]]. *)
Record gpio : Type := {
  cr : list Z; idr : Z; odr : Z; bsrr : Z; brr : Z; lckr : Z
}.

(** [void gpio_configure(struct gpio* gpio, uint8_t pin, uint8_t mode, uint8_t cnf)].
    A pin of 16 or more indexes past the end of [cr]; the result is then
    [None]. *)
Definition gpio_configure (g : gpio) (pin mode cnf : Z) : option gpio :=
  let pin := wrap8 pin in
  let mode := wrap8 mode in
  let cnf := wrap8 cnf in
  let reg := wrap8 (pin / 8) in
  let base := wrap8 ((pin mod 8) * 4) in
  match nth_error (cr g) (Z.to_nat reg) with
  | None => None
  | Some word =>
      let word' :=
        wrap32 (Z.lor (Z.lor (Z.land word (Z.lnot (Z.shiftl 0xF base)))
                             (Z.shiftl mode base))
                      (Z.shiftl (Z.shiftl cnf base) 2)) in
      Some {| cr := set_byte (Z.to_nat reg) word' (cr g);
              idr := idr g; odr := odr g; bsrr := bsrr g; brr := brr g;
              lckr := lckr g |}
  end.

(** [bool gpio_read(struct gpio* gpio, uint8_t pin)] *)
Definition gpio_read (g : gpio) (pin : Z) : bool :=
  let pin := wrap8 pin in
  negb (Z.shiftr (idr g) pin =? 0).

(** ** Reference definitions for the further statements *)

(** The vendor's addresses of the registers of [RangingRegisters]. *)
Definition datasheet_ranging : RangingRegisters := {|
  I2C_SLAVE_DEVICE_ADDRESS := 0x8A;
  FINAL_RANGE_CONFIG_MIN_COUNT_RATE_RTN_LIMIT := 0x44;
  OSC_CALIBRATE_VAL := 0xF8;
  SYSTEM_INTERMEASUREMENT_PERIOD := 0x04
|}.

(** What [VL53L0X_getMeasurementTimingBudget] adds up, in unbounded
    arithmetic: a start overhead of 1910, the end overhead, and every
    enabled step's measured cost and overhead, the final range included. *)
Definition reported_budget (en : VL53L0X_SequenceStepEnables)
           (tm : VL53L0X_SequenceStepTimeouts) : Z :=
  1910 + 960
  + (if tcc en then msrc_dss_tcc_us tm + 590 else 0)
  + (if dss en then 2 * (msrc_dss_tcc_us tm + 690)
     else if msrc en then msrc_dss_tcc_us tm + 660 else 0)
  + (if pre_range en then pre_range_us tm + 660 else 0)
  + (if final_range en then final_range_us tm + 550 else 0).

(** The two bytes of a 16-bit register. *)
Definition both_bytes (reg : Z) : list Z := [wrap8 reg; wrap8 (wrap8 reg + 1)].

(** The two bytes of the final-range timeout lie apart from every register
    the budget computation reads besides them. *)
Definition timing_registers_isolated (rm : RegisterMap) : Prop :=
  forall a,
    In a (map wrap8 [SYSTEM_SEQUENCE_CONFIG rm; PRE_RANGE_CONFIG_VCSEL_PERIOD rm;
                     FINAL_RANGE_CONFIG_VCSEL_PERIOD rm;
                     MSRC_CONFIG_TIMEOUT_MACROP rm]
          ++ both_bytes (PRE_RANGE_CONFIG_TIMEOUT_MACROP_HI rm)) ->
    ~ In a (both_bytes (FINAL_RANGE_CONFIG_TIMEOUT_MACROP_HI rm)).

(** The register holding the encoded pulse period of a step. *)
Definition period_register (rm : RegisterMap) (type : VL53L0X_vcselPeriodType) : Z :=
  match type with
  | VcselPeriodPreRange => PRE_RANGE_CONFIG_VCSEL_PERIOD rm
  | VcselPeriodFinalRange => FINAL_RANGE_CONFIG_VCSEL_PERIOD rm
  | VcselPeriodOther => 0
  end.

(** The addresses the tail of [VL53L0X_setVcselPulsePeriod] may store into:
    the reapplied budget and the phase calibration. *)
Definition written_by_reapply (rm : RegisterMap) : list Z :=
  both_bytes (FINAL_RANGE_CONFIG_TIMEOUT_MACROP_HI rm)
  ++ map wrap8 [SYSTEM_SEQUENCE_CONFIG rm; SYSRANGE_START rm;
                SYSTEM_INTERRUPT_CLEAR rm].

(** The addresses [VL53L0X_setVcselPulsePeriod] may store into once it has
    stored the encoded period of the step. *)
Definition written_after_period (rm : RegisterMap) (type : VL53L0X_vcselPeriodType)
  : list Z :=
  match type with
  | VcselPeriodPreRange =>
      both_bytes (PRE_RANGE_CONFIG_TIMEOUT_MACROP_HI rm)
      ++ [wrap8 (MSRC_CONFIG_TIMEOUT_MACROP rm)]
  | VcselPeriodFinalRange => []
  | VcselPeriodOther => []
  end
  ++ written_by_reapply rm.

(** The addresses the [if ... else if] chain of [VL53L0X_setVcselPulsePeriod]
    may store into for a step. *)
Definition written_by_apply (rm : RegisterMap) (type : VL53L0X_vcselPeriodType)
  : list Z :=
  match type with
  | VcselPeriodPreRange =>
      map wrap8 [PRE_RANGE_CONFIG_VALID_PHASE_HIGH rm;
                 PRE_RANGE_CONFIG_VALID_PHASE_LOW rm;
                 PRE_RANGE_CONFIG_VCSEL_PERIOD rm;
                 MSRC_CONFIG_TIMEOUT_MACROP rm]
      ++ both_bytes (PRE_RANGE_CONFIG_TIMEOUT_MACROP_HI rm)
  | VcselPeriodFinalRange =>
      map wrap8 [FINAL_RANGE_CONFIG_VALID_PHASE_HIGH rm;
                 FINAL_RANGE_CONFIG_VALID_PHASE_LOW rm;
                 GLOBAL_CONFIG_VCSEL_WIDTH rm;
                 ALGO_PHASECAL_CONFIG_TIMEOUT rm; 0xFF;
                 ALGO_PHASECAL_LIM rm;
                 FINAL_RANGE_CONFIG_VCSEL_PERIOD rm]
      ++ both_bytes (FINAL_RANGE_CONFIG_TIMEOUT_MACROP_HI rm)
  | VcselPeriodOther => []
  end.

(** The oscillator calibration is none of the registers the start sequence
    of continuous ranging stores into, and the start register is none of
    the four bytes of the inter-measurement period. *)
Definition continuous_registers_isolated (rm : RegisterMap) (rr : RangingRegisters)
  : Prop :=
  (forall a, In a (both_bytes (OSC_CALIBRATE_VAL rr)) ->
             ~ In a [0x80; 0xFF; 0x00; 0x91]) /\
  (forall k, 0 <= k < 4 ->
             wrap8 (SYSRANGE_START rm)
             <> wrap8 (SYSTEM_INTERMEASUREMENT_PERIOD rr + k)).

(** The four configuration bits of a pin: mode in the low two, function in
    the high two. *)
Definition pin_field (g : gpio) (pin : Z) : Z :=
  Z.land (Z.shiftr (nth (Z.to_nat (pin / 8)) (cr g) 0) (pin mod 8 * 4)) 0xF.

(** A sensor whose oscillator calibration reads 3000. *)
Definition calibrated_state : State :=
  {| hnd := handle_of 0; bus := sensor_of [(0xF8, 0x0B); (0xF9, 0xB8)] |}.

(** A reference map in which every SPAD is good. *)
Definition full_spad_map : list Z := [0xFF; 0xFF; 0xFF; 0xFF; 0xFF; 0xFF].

(** A port after reset, all pins floating inputs, with pin 7 high. *)
Definition reset_port : gpio :=
  {| cr := [0x44444444; 0x44444444]; idr := 0x80; odr := 0; bsrr := 0;
     brr := 0; lckr := 0 |}.

(** The interrupt controller after reset. *)
Definition reset_exti : exti :=
  {| imr := 0; emr := 0; rtsr := 0; ftsr := 0; swier := 0; pr := 0 |}.

(** ** Arithmetic of the fixed-width conversions *)

Lemma wrap8_range x : 0 <= wrap8 x < 256.
Proof. unfold wrap8. apply Z.mod_pos_bound. lia. Qed.

Lemma wrap16_range x : 0 <= wrap16 x < 65536.
Proof. unfold wrap16. apply Z.mod_pos_bound. lia. Qed.

Lemma wrap32_range x : 0 <= wrap32 x < 4294967296.
Proof. unfold wrap32. apply Z.mod_pos_bound. lia. Qed.

Lemma wrap8_small x : 0 <= x < 256 -> wrap8 x = x.
Proof. intros. unfold wrap8. apply Z.mod_small. assumption. Qed.

Lemma wrap16_small x : 0 <= x < 65536 -> wrap16 x = x.
Proof. intros. unfold wrap16. apply Z.mod_small. assumption. Qed.

Lemma wrap32_small x : 0 <= x < 4294967296 -> wrap32 x = x.
Proof. intros. unfold wrap32. apply Z.mod_small. assumption. Qed.

(** Masking with a run of ones from bit [lo] up to bit [hi]. *)
Lemma land_band x hi lo :
  0 <= lo -> 0 <= hi ->
  Z.land x (Z.ldiff (Z.ones hi) (Z.ones lo)) = (x mod 2 ^ hi) / 2 ^ lo * 2 ^ lo.
Proof.
  intros Hlo Hhi.
  rewrite <- Z.land_ones by assumption.
  rewrite <- Z.shiftr_div_pow2, <- Z.shiftl_mul_pow2 by assumption.
  rewrite <- Z.ldiff_ones_r by assumption.
  apply Z.bits_inj'. intros n Hn.
  rewrite !Z.land_spec, !Z.ldiff_spec, Z.land_spec.
  apply andb_assoc.
Qed.

Lemma land_low_byte x : Z.land x 0xFF = x mod 256.
Proof. change 0xFF with (Z.ones 8). rewrite Z.land_ones by lia. reflexivity. Qed.

Lemma land_high_byte x : Z.shiftr (Z.land x 0xFF00) 8 = (x mod 65536) / 256.
Proof.
  change 0xFF00 with (Z.ldiff (Z.ones 16) (Z.ones 8)).
  rewrite land_band by lia. rewrite Z.shiftr_div_pow2 by lia.
  change (2 ^ 16) with 65536. change (2 ^ 8) with 256.
  apply Z.div_mul. lia.
Qed.

Lemma land_upper_bytes x :
  Z.land x 0xFFFFFF00 = (x mod 4294967296) / 256 * 256.
Proof.
  change 0xFFFFFF00 with (Z.ldiff (Z.ones 32) (Z.ones 8)).
  rewrite land_band by lia. reflexivity.
Qed.

Lemma pow2_succ k : 0 <= k -> 2 ^ (k + 1) = 2 * 2 ^ k.
Proof. intros. rewrite Z.pow_add_r by lia. change (2 ^ 1) with 2. lia. Qed.

(** ** The timeout codec *)

Lemma decodeTimeout_mod reg_val :
  0 <= reg_val < 65536 ->
  VL53L0X_decodeTimeout reg_val = decode_unbounded reg_val mod 65536.
Proof.
  intros H. unfold VL53L0X_decodeTimeout, decode_unbounded.
  rewrite (wrap16_small reg_val) by assumption.
  rewrite land_low_byte, land_high_byte.
  rewrite (Z.mod_small reg_val 65536) by assumption.
  assert (Hq : 0 <= reg_val / 256 < 256)
    by (split; [apply Z.div_pos|apply Z.div_lt_upper_bound]; lia).
  rewrite (wrap16_small (reg_val / 256)) by lia.
  unfold wrap16. apply Z.add_mod_idemp_l. lia.
Qed.

Lemma encode_loop_spec fuel :
  forall ls ms,
    0 <= ls < 4294967296 ->
    ls < 256 * 2 ^ Z.of_nat fuel ->
    0 <= ms -> ms + Z.of_nat fuel < 65536 ->
    exists k,
      0 <= k <= Z.of_nat fuel /\
      encode_loop fuel ls ms = (ls / 2 ^ k, ms + k) /\
      ls / 2 ^ k < 256 /\
      (k = 0 \/ 0 < k /\ 256 <= ls / 2 ^ (k - 1)).
Proof.
  induction fuel as [|f IH]; intros ls ms Hls Hlt Hms Hsum.
  - exists 0. cbn [encode_loop]. change (2 ^ Z.of_nat 0) with 1 in Hlt.
    rewrite Z.div_1_r, Z.add_0_r. repeat split; lia.
  - cbn [encode_loop]. rewrite land_upper_bytes.
    rewrite (Z.mod_small ls) by assumption.
    destruct (ls / 256 * 256 >? 0) eqn:Hc.
    + apply Z.gtb_lt in Hc.
      assert (Hge : 256 <= ls) by (Z.div_mod_to_equations; lia).
      rewrite Z.shiftr_div_pow2 by lia. change (2 ^ 1) with 2.
      rewrite (wrap16_small (ms + 1)) by lia.
      rewrite Nat2Z.inj_succ, Z.pow_succ_r in Hlt by lia.
      destruct (IH (ls / 2) (ms + 1)) as (k & Hk & Heq & Hlow & Hmin).
      * split; [apply Z.div_pos; lia|apply Z.div_lt_upper_bound; lia].
      * apply Z.div_lt_upper_bound; lia.
      * lia.
      * lia.
      * exists (k + 1).
        assert (Hpow : 2 ^ (k + 1) = 2 * 2 ^ k) by (apply pow2_succ; lia).
        assert (Hdiv : ls / 2 ^ (k + 1) = ls / 2 / 2 ^ k).
        { rewrite Hpow. rewrite Z.div_div by (try apply Z.pow_pos_nonneg; lia).
          reflexivity. }
        rewrite Hdiv, Heq. repeat split; try lia.
        { f_equal. lia. }
        right. split; [lia|]. replace (k + 1 - 1) with k by lia.
        destruct Hmin as [->|[Hk0 Hmin]].
        { rewrite Z.div_1_r. assumption. }
        replace k with (k - 1 + 1) at 1 by lia.
        rewrite pow2_succ by lia.
        rewrite <- Z.div_div by (try apply Z.pow_pos_nonneg; lia).
        assumption.
    + rewrite Z.gtb_ltb in Hc. apply Z.ltb_ge in Hc.
      exists 0. rewrite Z.div_1_r, Z.add_0_r.
      repeat split; try lia.
      Z.div_mod_to_equations; lia.
Qed.

Lemma lor_shift8 k l :
  0 <= k -> 0 <= l < 256 -> Z.lor (Z.shiftl k 8) l = k * 256 + l.
Proof.
  intros Hk Hl.
  rewrite Z.shiftl_mul_pow2 by lia. change (2 ^ 8) with 256.
  rewrite <- Z.lxor_lor, <- Z.add_nocarry_lxor; try reflexivity.
  all: apply Z.bits_inj'; intros n Hn; rewrite Z.land_spec, Z.bits_0;
    change 256 with (2 ^ 8); destruct (Z.ltb_spec n 8) as [Hlt|Hge];
    [ rewrite Z.mul_pow2_bits_low by assumption; reflexivity
    | rewrite (Z.bits_above_log2 l n), andb_false_r; [reflexivity|lia|];
      destruct (Z.eq_dec l 0) as [->|Hnz]; [simpl; lia|];
      apply Z.lt_le_trans with 8; [apply Z.log2_lt_pow2; lia|assumption] ].
Qed.

Lemma lor_high_low k l :
  0 <= k -> 0 <= l < 256 -> Z.lor (Z.shiftl k 8) (Z.land l 0xFF) = k * 256 + l.
Proof.
  intros Hk Hl. rewrite land_low_byte, (Z.mod_small l) by assumption.
  apply lor_shift8; assumption.
Qed.

(** What the encoder produces for a nonzero clock count: an exponent [k], the
    least one that brings [v - 1] under 256, and the mantissa left over. *)
Lemma encodeTimeout_spec v :
  1 <= v < 65536 ->
  exists k,
    0 <= k <= 8 /\
    VL53L0X_encodeTimeout v = k * 256 + (v - 1) / 2 ^ k /\
    0 <= (v - 1) / 2 ^ k < 256 /\
    (k = 0 \/ 0 < k /\ 256 <= (v - 1) / 2 ^ (k - 1)).
Proof.
  intros Hv. unfold VL53L0X_encodeTimeout.
  rewrite (wrap16_small v) by lia.
  destruct (v >? 0) eqn:Hpos; [|rewrite Z.gtb_ltb in Hpos; apply Z.ltb_ge in Hpos; lia].
  rewrite (wrap32_small (v - 1)) by lia.
  destruct (encode_loop_spec 32 (v - 1) 0) as (k & Hk & Heq & Hlow & Hmin);
    [ lia | change (2 ^ Z.of_nat 32) with 4294967296; lia | lia
    | change (Z.of_nat 32) with 32; lia | ].
  change (Z.of_nat 32) with 32 in Hk.
  rewrite Heq. rewrite Z.add_0_l.
  assert (Hnn : 0 <= (v - 1) / 2 ^ k)
    by (apply Z.div_pos; [lia|apply Z.pow_pos_nonneg; lia]).
  assert (Hk8 : k <= 8).
  { destruct Hmin as [->|[Hk0 Hmin]]; [lia|].
    destruct (Z.le_gt_cases k 8) as [|Hgt]; [assumption|exfalso].
    assert (Hp : 2 ^ 8 <= 2 ^ (k - 1)) by (apply Z.pow_le_mono_r; lia).
    assert (Hz : (v - 1) / 2 ^ (k - 1) <= (v - 1) / 2 ^ 8)
      by (apply Z.div_le_compat_l; lia).
    assert ((v - 1) / 2 ^ 8 < 256) by (apply Z.div_lt_upper_bound; lia).
    lia. }
  exists k. rewrite lor_high_low by lia.
  rewrite wrap16_small by lia. repeat split; try lia; assumption.
Qed.

Lemma decode_encode v :
  1 <= v < 65536 ->
  exists k,
    k <= 8 /\
    least_exponent (v - 1) k /\
    exponent_of (VL53L0X_encodeTimeout v) = k /\
    VL53L0X_decodeTimeout (VL53L0X_encodeTimeout v) = v - (v - 1) mod 2 ^ k.
Proof.
  intros Hv. destruct (encodeTimeout_spec v Hv) as (k & Hk & Heq & Hm & Hmin).
  exists k. rewrite Heq.
  assert (Hp : 0 < 2 ^ k) by (apply Z.pow_pos_nonneg; lia).
  assert (Hhi : (k * 256 + (v - 1) / 2 ^ k) / 256 = k)
    by (Z.div_mod_to_equations; lia).
  assert (Hlo : (k * 256 + (v - 1) / 2 ^ k) mod 256 = (v - 1) / 2 ^ k)
    by (Z.div_mod_to_equations; lia).
  split; [lia|]. split; [unfold least_exponent; intuition lia|].
  split; [exact Hhi|].
  rewrite decodeTimeout_mod by lia.
  unfold decode_unbounded. rewrite Hhi, Hlo.
  rewrite Z.shiftl_mul_pow2 by lia.
  pose proof (Z.div_mod (v - 1) (2 ^ k) ltac:(lia)) as Hdm.
  pose proof (Z.mod_pos_bound (v - 1) (2 ^ k) Hp) as Hmb.
  rewrite Z.mod_small; lia.
Qed.

Lemma div_pow2_lt q k : 0 <= q -> 0 <= k -> q / 2 ^ k < 256 -> q < 256 * 2 ^ k.
Proof.
  intros Hq Hk H.
  assert (Hp : 0 < 2 ^ k) by (apply Z.pow_pos_nonneg; lia).
  pose proof (Z.div_mod q (2 ^ k) ltac:(lia)).
  pose proof (Z.mod_pos_bound q (2 ^ k) Hp). nia.
Qed.

Lemma div_pow2_ge q k : 0 <= q -> 0 < k -> 256 <= q / 2 ^ (k - 1) -> 128 * 2 ^ k <= q.
Proof.
  intros Hq Hk H.
  assert (Hp : 0 < 2 ^ (k - 1)) by (apply Z.pow_pos_nonneg; lia).
  pose proof (Z.div_mod q (2 ^ (k - 1)) ltac:(lia)).
  pose proof (Z.mod_pos_bound q (2 ^ (k - 1)) Hp).
  replace k with (k - 1 + 1) at 1 by lia. rewrite pow2_succ by lia. nia.
Qed.

Lemma least_exponent_mono q1 q2 k1 k2 :
  0 <= q1 <= q2 -> least_exponent q1 k1 -> least_exponent q2 k2 -> k1 <= k2.
Proof.
  intros Hq (Hk1 & Hl1 & Hm1) (Hk2 & Hl2 & Hm2).
  destruct (Z.le_gt_cases k1 k2) as [|Hgt]; [assumption|exfalso].
  destruct Hm1 as [->|[Hpos Hm1]]; [lia|].
  pose proof (div_pow2_ge q1 k1 ltac:(lia) Hpos Hm1).
  pose proof (div_pow2_lt q2 k2 ltac:(lia) Hk2 Hl2).
  assert (2 ^ (k2 + 1) <= 2 ^ k1) by (apply Z.pow_le_mono_r; lia).
  rewrite pow2_succ in * by lia. lia.
Qed.

Lemma truncation_mono q1 q2 k1 k2 :
  0 <= q1 <= q2 -> least_exponent q1 k1 -> least_exponent q2 k2 ->
  q1 - q1 mod 2 ^ k1 <= q2 - q2 mod 2 ^ k2.
Proof.
  intros Hq H1 H2.
  pose proof (least_exponent_mono _ _ _ _ Hq H1 H2) as Hle.
  destruct H1 as (Hk1 & Hl1 & Hm1), H2 as (Hk2 & Hl2 & Hm2).
  assert (Hp1 : 0 < 2 ^ k1) by (apply Z.pow_pos_nonneg; lia).
  assert (Hp2 : 0 < 2 ^ k2) by (apply Z.pow_pos_nonneg; lia).
  destruct (Z.eq_dec k1 k2) as [->|Hne].
  - pose proof (Z.div_le_mono q1 q2 (2 ^ k2) Hp2 ltac:(lia)).
    pose proof (Z.div_mod q1 (2 ^ k2) ltac:(lia)).
    pose proof (Z.div_mod q2 (2 ^ k2) ltac:(lia)). nia.
  - destruct Hm2 as [->|[Hpos Hm2]]; [lia|].
    pose proof (div_pow2_lt q1 k1 ltac:(lia) Hk1 Hl1).
    pose proof (div_pow2_ge q2 k2 ltac:(lia) Hpos Hm2) as Hge.
    assert (H2k : 2 ^ (k1 + 1) <= 2 ^ k2) by (apply Z.pow_le_mono_r; lia).
    rewrite pow2_succ in H2k by lia.
    pose proof (Z.mod_pos_bound q1 (2 ^ k1) Hp1).
    assert (128 * 2 ^ k2 <= q2 - q2 mod 2 ^ k2); [|lia].
    pose proof (Z.div_mod q2 (2 ^ k2) ltac:(lia)).
    assert (128 <= q2 / 2 ^ k2); [|nia].
    apply Z.div_le_lower_bound; lia.
Qed.

Lemma truncation_fixed a j k :
  0 <= a < 256 -> 0 <= j -> least_exponent (a * 2 ^ j) k ->
  (a * 2 ^ j) mod 2 ^ k = 0.
Proof.
  intros Ha Hj (Hk & Hl & Hm).
  assert (Hkj : k <= j).
  { destruct Hm as [->|[Hpos Hm]]; [lia|].
    destruct (Z.le_gt_cases k j) as [|Hgt]; [assumption|exfalso].
    assert (Hpj : 0 < 2 ^ j) by (apply Z.pow_pos_nonneg; lia).
    assert (2 ^ j <= 2 ^ (k - 1)) by (apply Z.pow_le_mono_r; lia).
    assert (a * 2 ^ j / 2 ^ (k - 1) <= a * 2 ^ j / 2 ^ j)
      by (apply Z.div_le_compat_l; nia).
    rewrite Z.div_mul in * by lia. lia. }
  replace j with (j - k + k) by lia.
  rewrite Z.pow_add_r, Z.mul_assoc by lia.
  apply Z.mod_mul. apply Z.pow_nonzero; lia.
Qed.

Lemma decodeTimeout_form r :
  exists a j,
    0 <= a < 256 /\ 0 <= j /\
    VL53L0X_decodeTimeout r = a * 2 ^ j + 1 /\ a * 2 ^ j + 1 < 65536.
Proof.
  unfold VL53L0X_decodeTimeout.
  pose proof (wrap16_range r) as Hr. set (v := wrap16 r) in *.
  rewrite land_low_byte, land_high_byte.
  rewrite (Z.mod_small v 65536) by assumption.
  assert (He : 0 <= v / 256 < 256)
    by (split; [apply Z.div_pos|apply Z.div_lt_upper_bound]; lia).
  assert (Hl : 0 <= v mod 256 < 256) by (apply Z.mod_pos_bound; lia).
  rewrite (wrap16_small (v / 256)) by lia.
  set (e := v / 256) in *. set (l := v mod 256) in *.
  rewrite Z.shiftl_mul_pow2 by lia.
  destruct (Z.lt_ge_cases e 16) as [Hlt|Hge].
  - exists (l mod 2 ^ (16 - e)), e.
    assert (Hp : 0 < 2 ^ (16 - e)) by (apply Z.pow_pos_nonneg; lia).
    assert (Hpe : 0 < 2 ^ e) by (apply Z.pow_pos_nonneg; lia).
    pose proof (Z.mod_pos_bound l (2 ^ (16 - e)) Hp) as Hb.
    pose proof (Z.mod_le l (2 ^ (16 - e)) ltac:(lia) Hp) as Hb'.
    assert (Hw : wrap16 (l * 2 ^ e) = l mod 2 ^ (16 - e) * 2 ^ e).
    { unfold wrap16. change 65536 with (2 ^ 16).
      replace 16 with (16 - e + e) at 1 by lia.
      rewrite Z.pow_add_r by lia.
      apply Z.mul_mod_distr_r; lia. }
    rewrite Hw.
    assert (Hlt16 : l mod 2 ^ (16 - e) * 2 ^ e < 65536).
    { rewrite <- Hw. apply wrap16_range. }
    assert (Hodd : l mod 2 ^ (16 - e) * 2 ^ e <> 65535).
    { destruct (Z.eq_dec e 0) as [->|Hne].
      - change (2 ^ 0) with 1. lia.
      - replace e with (e - 1 + 1) by lia. rewrite pow2_succ by lia. lia. }
    rewrite wrap16_small by lia.
    repeat split; lia.
  - exists 0, 0.
    assert (Hw : wrap16 (l * 2 ^ e) = 0).
    { unfold wrap16. change 65536 with (2 ^ 16).
      replace e with (e - 16 + 16) by lia.
      rewrite Z.pow_add_r, Z.mul_assoc by lia.
      apply Z.mod_mul. lia. }
    rewrite Hw. repeat split; lia.
Qed.

Lemma decode_encode_fixed r :
  let pre := VL53L0X_decodeTimeout r in
  1 <= pre < 65536 /\
  VL53L0X_decodeTimeout (VL53L0X_encodeTimeout pre) = pre.
Proof.
  intros pre. subst pre.
  destruct (decodeTimeout_form r) as (a & j & Ha & Hj & -> & Hlt).
  assert (0 <= a * 2 ^ j) by (apply Z.mul_nonneg_nonneg; [|apply Z.pow_nonneg]; lia).
  split; [lia|].
  destruct (decode_encode (a * 2 ^ j + 1)) as (k & _ & Hk & _ & ->); [lia|].
  replace (a * 2 ^ j + 1 - 1) with (a * 2 ^ j) in * by lia.
  rewrite (truncation_fixed a j k) by assumption. lia.
Qed.

Lemma decode_encode_mono v w :
  1 <= v <= w -> w < 65536 ->
  VL53L0X_decodeTimeout (VL53L0X_encodeTimeout v)
  <= VL53L0X_decodeTimeout (VL53L0X_encodeTimeout w).
Proof.
  intros Hv Hw.
  destruct (decode_encode v) as (k1 & _ & Hk1 & _ & ->); [lia|].
  destruct (decode_encode w) as (k2 & _ & Hk2 & _ & ->); [lia|].
  pose proof (truncation_mono (v - 1) (w - 1) k1 k2 ltac:(lia) Hk1 Hk2). lia.
Qed.

(** C5 (as amended).  For every 16-bit register value, [VL53L0X_decodeTimeout]
    returns [(mantissa << exponent) + 1] reduced modulo 2^16, the return type
    being [uint16_t]; it is the unbounded value exactly when that value fits
    in sixteen bits. *)
Theorem decodeTimeout_truncates reg_val :
  0 <= reg_val < 65536 ->
  VL53L0X_decodeTimeout reg_val = decode_unbounded reg_val mod 65536 /\
  (VL53L0X_decodeTimeout reg_val = decode_unbounded reg_val
   <-> decode_unbounded reg_val < 65536).
Proof.
  intros H. pose proof (decodeTimeout_mod reg_val H) as Hd.
  split; [exact Hd|].
  assert (Hpos : 0 < decode_unbounded reg_val).
  { unfold decode_unbounded.
    assert (0 <= Z.shiftl (reg_val mod 256) (reg_val / 256)); [|lia].
    apply Z.shiftl_nonneg. apply Z.mod_pos_bound. lia. }
  rewrite Hd. split; intros Hx.
  - rewrite <- Hx. apply Z.mod_pos_bound. lia.
  - apply Z.mod_small. lia.
Qed.

(** The amended C5 at mantissa [0xF9], exponent 2. *)
Lemma decodeTimeout_truncates_witness :
  VL53L0X_decodeTimeout 0x02F9 = decode_unbounded 0x02F9 mod 65536 /\
  (VL53L0X_decodeTimeout 0x02F9 = decode_unbounded 0x02F9
   <-> decode_unbounded 0x02F9 < 65536).
Proof. apply (decodeTimeout_truncates 0x02F9). lia. Defined.

(** C5, as stated, fails: mantissa 255 with exponent 9 decodes to 65025, not
    to [(255 << 9) + 1 = 130561]. *)
Lemma decodeTimeout_not_unbounded :
  0 <= 0x09FF < 65536 /\
  VL53L0X_decodeTimeout 0x09FF <> decode_unbounded 0x09FF.
Proof. split; [lia|]. vm_compute. discriminate. Qed.

(** C6.  Decoding an encoded clock count returns the count itself for every
    count of 1 to 256, and for every nonzero 16-bit count it returns a value
    that is never above the count and falls short of it by exactly the bits
    the encoder shifted out, [(v - 1) mod 2^e] with [e] the exponent of the
    encoding. *)
Theorem decode_encode_round_trip v :
  1 <= v <= 65535 ->
  let e := exponent_of (VL53L0X_encodeTimeout v) in
  let v' := VL53L0X_decodeTimeout (VL53L0X_encodeTimeout v) in
  (v <= 256 -> e = 0 /\ v' = v) /\
  v' <= v /\
  v - v' = (v - 1) mod 2 ^ e /\
  v - v' < 2 ^ e /\
  0 <= e <= 8.
Proof.
  intros Hv e v'. subst e v'.
  destruct (decode_encode v) as (k & Hk8 & (Hk & Hlow & Hmin) & -> & ->); [lia|].
  assert (Hp : 0 < 2 ^ k) by (apply Z.pow_pos_nonneg; lia).
  pose proof (Z.mod_pos_bound (v - 1) (2 ^ k) Hp) as Hmb.
  assert (Hsmall : v <= 256 -> k = 0).
  { intros Hle. destruct Hmin as [->|[Hk0 Hmin]]; [reflexivity|exfalso].
    pose proof (div_pow2_ge (v - 1) k ltac:(lia) Hk0 Hmin).
    assert (2 ^ 1 <= 2 ^ k) by (apply Z.pow_le_mono_r; lia).
    change (2 ^ 1) with 2 in *. lia. }
  repeat split; try lia.
  rewrite (Hsmall ltac:(assumption)), Z.mod_1_r. lia.
Qed.

(** C6 at 1000 clocks, which the encoder shifts twice. *)
Lemma decode_encode_round_trip_witness :
  let e := exponent_of (VL53L0X_encodeTimeout 1000) in
  let v' := VL53L0X_decodeTimeout (VL53L0X_encodeTimeout 1000) in
  (1000 <= 256 -> e = 0 /\ v' = 1000) /\
  v' <= 1000 /\
  1000 - v' = (1000 - 1) mod 2 ^ e /\
  1000 - v' < 2 ^ e /\
  0 <= e <= 8.
Proof. apply (decode_encode_round_trip 1000). lia. Defined.

(** ** Clock and microsecond conversions *)

Ltac each_pulse_period H :=
  unfold pulse_periods in H; cbn [In] in H;
  repeat (destruct H as [H|H]; [subst|]); [..|contradiction].

Ltac macro_period_const :=
  unfold VL53L0X_timeoutMicrosecondsToMclks, VL53L0X_timeoutMclksToMicroseconds;
  repeat match goal with
  | |- context [calcMacroPeriod ?p] =>
      let m := eval vm_compute in (calcMacroPeriod p) in
      change (calcMacroPeriod p) with m in *
  end.

(** C7 (as amended).  For every pulse period of 8, 10, 12, 14, 16 and 18,
    with its macro period [calcMacroPeriod p]: for a 16-bit clock count [c]
    with [(c + 1) * macro < 2^32], clocks to microseconds and back returns
    the clock count or the count plus one.  For microseconds [us] with
    [us * 1000 + macro < 2^32]: when the clock count they convert to is below
    65536, microseconds to clocks and back returns a value between the
    starting value and the starting value plus one macro period in
    microseconds (30 to 68) -- not within one microsecond; when that count is
    65536 or more, it is cut to the sixteen bits of the parameter of
    [VL53L0X_timeoutMclksToMicroseconds] and the round trip returns less
    than the starting value. *)
Theorem conversion_round_trips p :
  In p pulse_periods ->
  (forall c,
      0 <= c < 65536 -> (c + 1) * calcMacroPeriod p < 4294967296 ->
      let c' := VL53L0X_timeoutMicrosecondsToMclks
                  (VL53L0X_timeoutMclksToMicroseconds c p) p in
      c <= c' <= c + 1) /\
  (forall us,
      0 <= us -> us * 1000 + calcMacroPeriod p < 4294967296 ->
      VL53L0X_timeoutMicrosecondsToMclks us p < 65536 ->
      let us' := VL53L0X_timeoutMclksToMicroseconds
                   (VL53L0X_timeoutMicrosecondsToMclks us p) p in
      us <= us' <= us + calcMacroPeriod p / 1000) /\
  (forall us,
      0 <= us -> us * 1000 + calcMacroPeriod p < 4294967296 ->
      65536 <= VL53L0X_timeoutMicrosecondsToMclks us p ->
      let us' := VL53L0X_timeoutMclksToMicroseconds
                   (VL53L0X_timeoutMicrosecondsToMclks us p) p in
      us' < us).
Proof.
  intros Hp. split; [|split].
  - intros c Hc Hov c'. subst c'. revert Hov.
    each_pulse_period Hp; macro_period_const; intros Hov;
      unfold wrap16, wrap32; Z.div_mod_to_equations; lia.
  - intros us Hus Hov Hfit us'. subst us'. revert Hov Hfit.
    each_pulse_period Hp; macro_period_const; intros Hov Hfit;
      unfold wrap16, wrap32 in *; Z.div_mod_to_equations; lia.
  - intros us Hus Hov Hfit us'. subst us'. revert Hov Hfit.
    each_pulse_period Hp; macro_period_const; intros Hov Hfit;
      unfold wrap16, wrap32 in *; Z.div_mod_to_equations; lia.
Qed.

(** C7, as stated, fails for the microsecond round trip: at pulse period 14,
    1000 microseconds become 19 clocks and come back as 1040 microseconds. *)
Lemma microsecond_round_trip_not_within_one :
  In 14 pulse_periods /\
  ~ (Z.abs (VL53L0X_timeoutMclksToMicroseconds
              (VL53L0X_timeoutMicrosecondsToMclks 1000 14) 14 - 1000) <= 1).
Proof. split; [simpl; tauto|]. vm_compute. intros H. apply H. reflexivity. Qed.

(** The amended C7 at pulse period 14, for 151 clocks and for 1000
    microseconds, and at pulse period 8 for 2100000 microseconds, which are
    68841 clocks. *)
Lemma conversion_round_trips_witness :
  (let c' := VL53L0X_timeoutMicrosecondsToMclks
               (VL53L0X_timeoutMclksToMicroseconds 151 14) 14 in
   151 <= c' <= 151 + 1) /\
  (let us' := VL53L0X_timeoutMclksToMicroseconds
                (VL53L0X_timeoutMicrosecondsToMclks 1000 14) 14 in
   1000 <= us' <= 1000 + calcMacroPeriod 14 / 1000) /\
  (let us' := VL53L0X_timeoutMclksToMicroseconds
                (VL53L0X_timeoutMicrosecondsToMclks 2100000 8) 8 in
   us' < 2100000).
Proof.
  assert (Hp : In 14 pulse_periods) by (simpl; tauto).
  assert (Hq : In 8 pulse_periods) by (simpl; tauto).
  split; [|split].
  - apply (proj1 (conversion_round_trips 14 Hp) 151); vm_compute; intuition congruence.
  - apply (proj1 (proj2 (conversion_round_trips 14 Hp)) 1000);
      vm_compute; intuition congruence.
  - apply (proj2 (proj2 (conversion_round_trips 8 Hq)) 2100000);
      vm_compute; intuition congruence.
Defined.

(** ** Bus and register access *)

Lemma bind_call {R T B} (f : fn T) (k : T -> stmt R B) s :
  bind (call f) k s
  = match f s with
    | (Some t, s') => k t s'
    | (None, s') => (Spin, s')
    end.
Proof. unfold bind, call. destruct (f s) as [[t|] s']; reflexivity. Qed.

Lemma wrap8_idem x : wrap8 (wrap8 x) = wrap8 x.
Proof. unfold wrap8. apply Z.mod_mod. lia. Qed.

Lemma wrap32_idem x : wrap32 (wrap32 x) = wrap32 x.
Proof. unfold wrap32. apply Z.mod_mod. lia. Qed.

Lemma VL53L0X_writeReg_spec reg value s :
  VL53L0X_writeReg reg value s = (Some tt, on_bus (write8 reg value) s).
Proof. reflexivity. Qed.

Lemma VL53L0X_writeReg16Bit_spec reg value s :
  VL53L0X_writeReg16Bit reg value s = (Some tt, on_bus (write16 reg value) s).
Proof. reflexivity. Qed.

Lemma VL53L0X_readReg_spec reg s :
  VL53L0X_readReg reg s
  = (Some (peek (bus s) reg), on_bus (set_index (wrap8 (wrap8 reg + 1))) s).
Proof.
  unfold VL53L0X_readReg, function, bind, call, ret, i2c_write, i2c_read, peek, on_bus.
  cbn [bus_write bus_read store_bytes set_index advance regs index stores hnd bus nth].
  rewrite !wrap8_idem. reflexivity.
Qed.

Lemma VL53L0X_readReg16Bit_spec reg s :
  VL53L0X_readReg16Bit reg s
  = (Some (peek16 (bus s) reg),
     on_bus (set_index (wrap8 (wrap8 (wrap8 reg + 1) + 1))) s).
Proof.
  unfold VL53L0X_readReg16Bit, function, bind, call, ret, i2c_write, i2c_read,
    peek16, peek, on_bus.
  cbn [bus_write bus_read store_bytes set_index advance regs index stores hnd bus nth].
  rewrite !wrap8_idem. reflexivity.
Qed.

Lemma bus_on_bus f s : bus (on_bus f s) = f (bus s).
Proof. reflexivity. Qed.

Lemma peek_set_index i d reg : peek (set_index i d) reg = peek d reg.
Proof. reflexivity. Qed.

Lemma regs_write8 reg value d a :
  regs (write8 reg value d) a
  = if a =? wrap8 reg then wrap8 value else regs d a.
Proof.
  unfold write8. cbn [bus_write store_bytes advance set_index store regs index].
  rewrite !wrap8_idem. reflexivity.
Qed.

Lemma stores_write8 reg value d :
  stores (write8 reg value d) = stores d ++ [(wrap8 reg, wrap8 value)].
Proof.
  unfold write8. cbn [bus_write store_bytes advance set_index store stores index].
  rewrite !wrap8_idem. reflexivity.
Qed.

Lemma regs_write16 reg value d a :
  regs (write16 reg value d) a
  = if a =? wrap8 (wrap8 reg + 1) then wrap8 (Z.land (wrap16 value) 0xFF)
    else if a =? wrap8 reg then wrap8 (Z.shiftr (wrap16 value) 8)
    else regs d a.
Proof.
  unfold write16. cbn [bus_write store_bytes advance set_index store regs index].
  rewrite !wrap8_idem. reflexivity.
Qed.

Lemma stores_write16 reg value d :
  stores (write16 reg value d)
  = stores d ++ [(wrap8 reg, wrap8 (Z.shiftr (wrap16 value) 8));
                 (wrap8 (wrap8 reg + 1), wrap8 (Z.land (wrap16 value) 0xFF))].
Proof.
  unfold write16. cbn [bus_write store_bytes advance set_index store stores index].
  rewrite !wrap8_idem, <- app_assoc. reflexivity.
Qed.

Lemma wrap8_succ_neq r : wrap8 r <> wrap8 (wrap8 r + 1).
Proof. unfold wrap8. Z.div_mod_to_equations. lia. Qed.

Lemma peek_write16_other reg value d r :
  ~ In (wrap8 r) [wrap8 reg; wrap8 (wrap8 reg + 1)] ->
  peek (write16 reg value d) r = peek d r.
Proof.
  intros Hr. unfold peek. rewrite regs_write16.
  destruct (Z.eqb_spec (wrap8 r) (wrap8 (wrap8 reg + 1))) as [E|_];
    [exfalso; apply Hr; rewrite E; simpl; tauto|].
  destruct (Z.eqb_spec (wrap8 r) (wrap8 reg)) as [E|_];
    [exfalso; apply Hr; rewrite E; simpl; tauto|].
  reflexivity.
Qed.

Lemma peek16_write16_other reg value d r :
  ~ In (wrap8 r) [wrap8 reg; wrap8 (wrap8 reg + 1)] ->
  ~ In (wrap8 (wrap8 r + 1)) [wrap8 reg; wrap8 (wrap8 reg + 1)] ->
  peek16 (write16 reg value d) r = peek16 d r.
Proof.
  intros H0 H1. unfold peek16.
  rewrite (peek_write16_other reg value d r) by assumption.
  rewrite (peek_write16_other reg value d (wrap8 r + 1)) by assumption.
  reflexivity.
Qed.

Lemma peek16_write16_same reg value d :
  peek16 (write16 reg value d) reg = wrap16 value.
Proof.
  unfold peek16, peek. rewrite !regs_write16.
  pose proof (wrap8_succ_neq reg) as Hne.
  destruct (Z.eqb_spec (wrap8 reg) (wrap8 (wrap8 reg + 1))) as [E|_];
    [contradiction|].
  rewrite !Z.eqb_refl.
  pose proof (wrap16_range value) as Hv.
  set (v := wrap16 value) in *.
  rewrite land_low_byte, Z.shiftr_div_pow2 by lia. change (2 ^ 8) with 256.
  rewrite !wrap8_idem.
  assert (Hhi : 0 <= v / 256 < 256)
    by (split; [apply Z.div_pos|apply Z.div_lt_upper_bound]; lia).
  assert (Hlo : 0 <= v mod 256 < 256) by (apply Z.mod_pos_bound; lia).
  rewrite (wrap8_small (v / 256)) by assumption.
  unfold wrap8. rewrite (Z.mod_mod v 256) by lia.
  rewrite (wrap16_small (v mod 256)) by lia.
  assert (Hs : wrap16 (Z.shiftl (v / 256) 8) = Z.shiftl (v / 256) 8).
  { apply wrap16_small. rewrite Z.shiftl_mul_pow2 by lia.
    change (2 ^ 8) with 256. lia. }
  rewrite Hs, lor_shift8 by lia.
  pose proof (Z.div_mod v 256 ltac:(lia)).
  rewrite wrap16_small by lia. lia.
Qed.

(** ** Reading the sequence steps *)

Section Reads.

Variable rm : RegisterMap.

Ltac run :=
  repeat first
    [ rewrite bind_call
    | rewrite VL53L0X_readReg_spec
    | rewrite VL53L0X_readReg16Bit_spec
    | rewrite VL53L0X_writeReg_spec
    | rewrite VL53L0X_writeReg16Bit_spec ];
  cbv beta iota.

Lemma getVcselPulsePeriod_pre s :
  VL53L0X_getVcselPulsePeriod rm VcselPeriodPreRange s
  = (Some (period_of (PRE_RANGE_CONFIG_VCSEL_PERIOD rm) (bus s)),
     on_bus (set_index (wrap8 (wrap8 (PRE_RANGE_CONFIG_VCSEL_PERIOD rm) + 1))) s).
Proof. unfold VL53L0X_getVcselPulsePeriod, function. run. reflexivity. Qed.

Lemma getVcselPulsePeriod_final s :
  VL53L0X_getVcselPulsePeriod rm VcselPeriodFinalRange s
  = (Some (period_of (FINAL_RANGE_CONFIG_VCSEL_PERIOD rm) (bus s)),
     on_bus (set_index (wrap8 (wrap8 (FINAL_RANGE_CONFIG_VCSEL_PERIOD rm) + 1))) s).
Proof. unfold VL53L0X_getVcselPulsePeriod, function. run. reflexivity. Qed.

Lemma getSequenceStepEnables_spec s :
  VL53L0X_getSequenceStepEnables rm s
  = (Some (enables_of rm (bus s)),
     on_bus (set_index (wrap8 (wrap8 (SYSTEM_SEQUENCE_CONFIG rm) + 1))) s).
Proof. unfold VL53L0X_getSequenceStepEnables, function. run. reflexivity. Qed.

Lemma getSequenceStepTimeouts_spec en s :
  VL53L0X_getSequenceStepTimeouts rm en s
  = (Some (timeouts_of rm en (bus s)),
     on_bus (set_index
               (wrap8 (wrap8 (wrap8 (FINAL_RANGE_CONFIG_TIMEOUT_MACROP_HI rm) + 1) + 1)))
            s).
Proof.
  unfold VL53L0X_getSequenceStepTimeouts, function.
  rewrite bind_call, getVcselPulsePeriod_pre. run.
  rewrite getVcselPulsePeriod_final. run.
  reflexivity.
Qed.

End Reads.

(** ** The timing budget allocator *)

Lemma enables_of_set_index rm i d :
  enables_of rm (set_index i d) = enables_of rm d.
Proof. reflexivity. Qed.

Lemma timeouts_of_set_index rm en i d :
  timeouts_of rm en (set_index i d) = timeouts_of rm en d.
Proof. reflexivity. Qed.

Lemma timeoutMclksToMicroseconds_range c p :
  0 <= VL53L0X_timeoutMclksToMicroseconds c p <= 4294967.
Proof.
  unfold VL53L0X_timeoutMclksToMicroseconds.
  match goal with |- 0 <= wrap32 ?x / 1000 <= _ => pose proof (wrap32_range x) end.
  Z.div_mod_to_equations; lia.
Qed.

Lemma timeoutMicrosecondsToMclks_wrap32 us p :
  VL53L0X_timeoutMicrosecondsToMclks (wrap32 us) p
  = VL53L0X_timeoutMicrosecondsToMclks us p.
Proof.
  unfold VL53L0X_timeoutMicrosecondsToMclks. rewrite wrap32_idem. reflexivity.
Qed.

(** Strips the innermost 32-bit wrap-arounds whose argument is in range. *)
Ltac unwrap32 :=
  repeat match goal with
  | |- context [wrap32 ?x] =>
      lazymatch x with
      | context [wrap32 _] => fail
      | _ => rewrite (wrap32_small x) by lia
      end
  end.

(** The 32-bit sums of the allocator never wrap: every measured cost is the
    quotient of a 32-bit value by 1000. *)
Lemma steps_cost_range en tm :
  0 <= msrc_dss_tcc_us tm <= 4294967 ->
  0 <= pre_range_us tm <= 4294967 ->
  2280 <= steps_cost en tm <= 17185808.
Proof.
  intros Hm Hp. unfold steps_cost.
  destruct (tcc en), (dss en), (msrc en), (pre_range en); lia.
Qed.

Section Allocator.

Variable rm : RegisterMap.

(** The allocator in closed form. *)
Lemma setMeasurementTimingBudget_spec budget_us s :
  let budget := wrap32 budget_us in
  let en := enables_of rm (bus s) in
  let tm := timeouts_of rm en (bus s) in
  let read :=
    on_bus (set_index
      (wrap8 (wrap8 (wrap8 (FINAL_RANGE_CONFIG_TIMEOUT_MACROP_HI rm) + 1) + 1))) s in
  VL53L0X_setMeasurementTimingBudget rm budget_us s
  = if budget <? 20000 then (Some false, s)
    else if final_range en then
      if used_budget en tm >? budget then (Some false, read)
      else (Some true,
            on_hnd (with_budget budget)
              (on_bus (write16 (FINAL_RANGE_CONFIG_TIMEOUT_MACROP_HI rm)
                         (VL53L0X_encodeTimeout
                            (if pre_range en
                             then wrap16 (allocated_final_mclks budget en tm
                                          + pre_range_mclks tm)
                             else allocated_final_mclks budget en tm))) s))
    else (Some true, read).
Proof.
  intros budget en tm read. subst read.
  unfold VL53L0X_setMeasurementTimingBudget, function.
  fold budget. change MinTimingBudget with 20000.
  destruct (budget <? 20000) eqn:Hmin; [reflexivity|].
  rewrite bind_call, getSequenceStepEnables_spec. cbv beta iota.
  rewrite bind_call, getSequenceStepTimeouts_spec. cbv beta iota.
  rewrite ?bus_on_bus, ?timeouts_of_set_index, ?enables_of_set_index.
  fold en. fold tm.
  assert (Hm : 0 <= msrc_dss_tcc_us tm <= 4294967)
    by apply timeoutMclksToMicroseconds_range.
  assert (Hp : 0 <= pre_range_us tm <= 4294967)
    by apply timeoutMclksToMicroseconds_range.
  pose proof (steps_cost_range en tm Hm Hp) as Hc.
  unfold allocated_final_mclks, used_budget.
  clearbody tm. clearbody en. clearbody budget.
  repeat match goal with
  | |- context [wrap32 (?E + FinalRangeOverhead)] =>
      progress replace E with (steps_cost en tm)
        by (unfold steps_cost, StartOverhead, EndOverhead, TccOverhead,
              DssOverhead, MsrcOverhead, PreRangeOverhead;
            destruct (tcc en), (dss en), (msrc en), (pre_range en);
            cbv iota; unwrap32; lia)
  end.
  change FinalRangeOverhead with 550.
  rewrite (wrap32_small (steps_cost en tm + 550)) by lia.
  rewrite timeoutMicrosecondsToMclks_wrap32.
  unfold when, bind.
  destruct (final_range en); [|reflexivity].
  destruct (steps_cost en tm + 550 >? budget); [reflexivity|].
  unfold call. rewrite VL53L0X_writeReg16Bit_spec.
  reflexivity.
Qed.

(** C2.  The allocator fails for every budget under 20000 microseconds; with
    the final-range step enabled it fails exactly when the start and end
    overheads, the enabled steps' measured costs and overheads and the
    final-range overhead exceed the budget; in every other case it
    succeeds. *)
Theorem setMeasurementTimingBudget_result budget_us s en s1 tm s2 :
  0 <= budget_us < 4294967296 ->
  VL53L0X_getSequenceStepEnables rm s = (Some en, s1) ->
  VL53L0X_getSequenceStepTimeouts rm en s1 = (Some tm, s2) ->
  let result := fst (VL53L0X_setMeasurementTimingBudget rm budget_us s) in
  (budget_us < 20000 -> result = Some false) /\
  (20000 <= budget_us -> final_range en = true ->
   (result = Some false <-> budget_us < used_budget en tm) /\
   (result = Some true <-> used_budget en tm <= budget_us)) /\
  (20000 <= budget_us -> final_range en = false -> result = Some true).
Proof.
  intros Hb Hen Htm result. subst result.
  rewrite getSequenceStepEnables_spec in Hen. injection Hen as <- <-.
  rewrite getSequenceStepTimeouts_spec in Htm. injection Htm as <- <-.
  rewrite ?bus_on_bus, ?timeouts_of_set_index.
  rewrite setMeasurementTimingBudget_spec, (wrap32_small budget_us) by assumption.
  set (en := enables_of rm (bus s)).
  change (timeouts_of rm en (bus (on_bus _ s))) with (timeouts_of rm en (bus s)).
  set (tm := timeouts_of rm en (bus s)).
  split; [|split].
  - intros Hlt. apply Z.ltb_lt in Hlt. rewrite Hlt. reflexivity.
  - intros Hge Hfin. apply Z.ltb_ge in Hge. rewrite Hge, Hfin.
    destruct (Z.gtb_spec (used_budget en tm) budget_us);
      cbn [fst]; (split; split; intros; first [reflexivity|discriminate|lia]).
  - intros Hge Hfin. apply Z.ltb_ge in Hge. rewrite Hge, Hfin. reflexivity.
Qed.

End Allocator.

Lemma encodeTimeout_range v : 0 <= VL53L0X_encodeTimeout v < 65536.
Proof.
  unfold VL53L0X_encodeTimeout.
  destruct (wrap16 v >? 0); [|lia].
  destruct (encode_loop _ _ _). apply wrap16_range.
Qed.

(** ** What the allocator leaves behind *)

Section AllocatorState.

Variable rm : RegisterMap.

Lemma read_steps s en s1 tm s2 :
  VL53L0X_getSequenceStepEnables rm s = (Some en, s1) ->
  VL53L0X_getSequenceStepTimeouts rm en s1 = (Some tm, s2) ->
  en = enables_of rm (bus s) /\ tm = timeouts_of rm en (bus s).
Proof.
  intros Hen Htm.
  rewrite getSequenceStepEnables_spec in Hen.
  assert (E1 : s1 = on_bus (set_index (wrap8 (wrap8 (SYSTEM_SEQUENCE_CONFIG rm) + 1))) s)
    by congruence.
  subst s1. rewrite getSequenceStepTimeouts_spec in Htm.
  split; [congruence|].
  injection Htm as Ht _. symmetry. exact Ht.
Qed.

Lemma enables_of_write16_final v d :
  final_timeout_isolated rm ->
  enables_of rm (write16 (FINAL_RANGE_CONFIG_TIMEOUT_MACROP_HI rm) v d)
  = enables_of rm d.
Proof.
  intros (Hseq & _). unfold enables_of.
  rewrite peek_write16_other by assumption. reflexivity.
Qed.

(** C8 (as amended).  When [VL53L0X_setMeasurementTimingBudget] returns
    success with the final-range step enabled, the handle caches the requested
    budget; when it returns success with the final-range step disabled, the
    handle is left as it was. *)
Theorem setMeasurementTimingBudget_caches budget_us s en s1 s' :
  0 <= budget_us < 4294967296 ->
  VL53L0X_getSequenceStepEnables rm s = (Some en, s1) ->
  VL53L0X_setMeasurementTimingBudget rm budget_us s = (Some true, s') ->
  (final_range en = true ->
   measurement_timing_budget_us (hnd s') = budget_us) /\
  (final_range en = false -> hnd s' = hnd s).
Proof.
  intros Hb Hen Hset.
  rewrite getSequenceStepEnables_spec in Hen.
  assert (Een : en = enables_of rm (bus s)) by congruence.
  rewrite setMeasurementTimingBudget_spec, (wrap32_small budget_us) in Hset
    by assumption.
  rewrite <- Een in Hset.
  destruct (budget_us <? 20000); [discriminate|].
  destruct (final_range en).
  - destruct (_ >? _); [discriminate|].
    assert (E : s' = on_hnd (with_budget budget_us)
        (on_bus (write16 (FINAL_RANGE_CONFIG_TIMEOUT_MACROP_HI rm)
          (VL53L0X_encodeTimeout
            (if pre_range en
             then wrap16 (allocated_final_mclks budget_us en (timeouts_of rm en (bus s))
                          + pre_range_mclks (timeouts_of rm en (bus s)))
             else allocated_final_mclks budget_us en (timeouts_of rm en (bus s))))) s))
      by congruence.
    subst s'. split; [reflexivity|discriminate].
  - assert (E : s' = on_bus (set_index
        (wrap8 (wrap8 (wrap8 (FINAL_RANGE_CONFIG_TIMEOUT_MACROP_HI rm) + 1) + 1))) s)
      by congruence.
    subst s'. split; [discriminate|reflexivity].
Qed.

(** C1.  With pre-range and final-range enabled, a successful
    [VL53L0X_setMeasurementTimingBudget] stores the encoding of the allocated
    clocks plus the pre-range clocks; [VL53L0X_getSequenceStepTimeouts] then
    reads the same pre-range clocks and subtracts them from the decoded
    register.  In 16-bit arithmetic the subtraction undoes the addition, and
    the value read back is the allocated one less the bits the encoder
    shifted out (plus one where the sum wrapped to zero, which encodes as
    zero and decodes as one).  When the sum fits in sixteen bits no
    wrap-around is involved: the value read back is at most the allocated
    one and short of it by less than [2^e]. *)
Theorem final_range_timeout_additive budget_us s en s1 tm s2 s' en' s1' tm' s2' :
  final_timeout_isolated rm ->
  0 <= budget_us < 4294967296 ->
  VL53L0X_getSequenceStepEnables rm s = (Some en, s1) ->
  VL53L0X_getSequenceStepTimeouts rm en s1 = (Some tm, s2) ->
  pre_range en = true ->
  final_range en = true ->
  VL53L0X_setMeasurementTimingBudget rm budget_us s = (Some true, s') ->
  VL53L0X_getSequenceStepEnables rm s' = (Some en', s1') ->
  VL53L0X_getSequenceStepTimeouts rm en' s1' = (Some tm', s2') ->
  let allocated := allocated_final_mclks budget_us en tm in
  let written := wrap16 (allocated + pre_range_mclks tm) in
  let e := exponent_of (VL53L0X_encodeTimeout written) in
  peek16 (bus s') (FINAL_RANGE_CONFIG_TIMEOUT_MACROP_HI rm)
    = VL53L0X_encodeTimeout written /\
  pre_range en' = true /\
  pre_range_mclks tm' = pre_range_mclks tm /\
  final_range_mclks tm'
    = wrap16 (VL53L0X_decodeTimeout (VL53L0X_encodeTimeout written)
              - pre_range_mclks tm) /\
  wrap16 (written - pre_range_mclks tm) = allocated /\
  (1 <= written ->
   final_range_mclks tm' = wrap16 (allocated - (written - 1) mod 2 ^ e)) /\
  (written = 0 -> final_range_mclks tm' = wrap16 (allocated + 1)) /\
  (allocated + pre_range_mclks tm < 65536 ->
   final_range_mclks tm' <= allocated /\
   allocated - final_range_mclks tm' = (written - 1) mod 2 ^ e /\
   allocated - final_range_mclks tm' < 2 ^ e).
Proof.
  intros Hiso Hb Hen Htm Hpre Hfin Hset Hen' Htm' allocated written e.
  destruct (read_steps _ _ _ _ _ Hen Htm) as [Een Etm].
  destruct (read_steps _ _ _ _ _ Hen' Htm') as [Een' Etm'].
  rewrite setMeasurementTimingBudget_spec, (wrap32_small budget_us) in Hset
    by assumption.
  rewrite <- Een, <- Etm, Hfin, Hpre in Hset.
  destruct (budget_us <? 20000); [discriminate|].
  destruct (_ >? _); [discriminate|].
  fold allocated in Hset. fold written in Hset.
  assert (Ebus : bus s' = write16 (FINAL_RANGE_CONFIG_TIMEOUT_MACROP_HI rm)
                                  (VL53L0X_encodeTimeout written) (bus s)).
  { assert (E : s' = on_hnd (with_budget budget_us)
        (on_bus (write16 (FINAL_RANGE_CONFIG_TIMEOUT_MACROP_HI rm)
                         (VL53L0X_encodeTimeout written)) s)) by congruence.
    rewrite E. reflexivity. }
  clear Hset Hen Htm Hen' Htm'.
  assert (Hfinal : peek16 (bus s') (FINAL_RANGE_CONFIG_TIMEOUT_MACROP_HI rm)
                   = VL53L0X_encodeTimeout written).
  { rewrite Ebus, peek16_write16_same.
    apply wrap16_small, encodeTimeout_range. }
  assert (Hen' : en' = en).
  { rewrite Een', Een, Ebus. apply enables_of_write16_final. assumption. }
  assert (Hpre' : pre_range_mclks tm' = pre_range_mclks tm).
  { rewrite Etm', Etm. unfold timeouts_of. cbn [pre_range_mclks].
    rewrite Ebus. destruct Hiso as (_ & H0 & H1).
    rewrite peek16_write16_other by assumption. reflexivity. }
  assert (Hget : final_range_mclks tm'
                 = wrap16 (VL53L0X_decodeTimeout (VL53L0X_encodeTimeout written)
                           - pre_range_mclks tm)).
  { rewrite <- Hpre', <- Hfinal. rewrite Etm' at 1 2.
    unfold timeouts_of. cbn [final_range_mclks pre_range_mclks].
    rewrite Hen', Hpre. reflexivity. }
  assert (Ha : 0 <= allocated < 65536) by apply wrap16_range.
  assert (Hinv : wrap16 (written - pre_range_mclks tm) = allocated).
  { unfold written, wrap16. rewrite Zminus_mod_idemp_l.
    replace (allocated + pre_range_mclks tm - pre_range_mclks tm)
      with allocated by lia.
    apply Z.mod_small. assumption. }
  assert (Hwr : 0 <= written < 65536) by apply wrap16_range.
  assert (Hround : 1 <= written ->
                   VL53L0X_decodeTimeout (VL53L0X_encodeTimeout written)
                   = written - (written - 1) mod 2 ^ e /\
                   0 <= e /\ 0 <= (written - 1) mod 2 ^ e < 2 ^ e).
  { intros Hpos.
    destruct (decode_encode written) as (k & _ & (Hk & _) & Hexp & Hdec); [lia|].
    subst e. rewrite Hexp, Hdec.
    assert (Hpk : 0 < 2 ^ k) by (apply Z.pow_pos_nonneg; lia).
    pose proof (Z.mod_pos_bound (written - 1) (2 ^ k) Hpk). lia. }
  split; [exact Hfinal|]. split; [congruence|]. split; [exact Hpre'|].
  split; [exact Hget|]. split; [exact Hinv|].
  split; [|split].
  - intros Hpos. destruct (Hround Hpos) as (Hdec & _ & _).
    rewrite Hget, Hdec, <- Hinv. unfold wrap16.
    rewrite Zminus_mod_idemp_l. f_equal. lia.
  - intros Hzero. rewrite Hget, Hzero.
    change (VL53L0X_decodeTimeout (VL53L0X_encodeTimeout 0)) with 1.
    rewrite <- Hinv, Hzero. unfold wrap16.
    rewrite Zplus_mod_idemp_l. f_equal. lia.
  - intros Hfit. rewrite Hget.
    assert (Hp : 1 <= pre_range_mclks tm < 65536 /\
                 VL53L0X_decodeTimeout (VL53L0X_encodeTimeout (pre_range_mclks tm))
                 = pre_range_mclks tm).
    { rewrite Etm. unfold timeouts_of. cbn [pre_range_mclks].
      apply decode_encode_fixed. }
    destruct Hp as [Hp Hfix].
    assert (Hw : written = allocated + pre_range_mclks tm)
      by (apply wrap16_small; lia).
    pose proof (decode_encode_mono (pre_range_mclks tm) written
                  ltac:(lia) ltac:(lia)) as Hmono.
    rewrite Hfix in Hmono.
    destruct (Hround ltac:(lia)) as (Hdec & He & Hr).
    rewrite Hdec in *.
    rewrite wrap16_small by lia. lia.
Qed.

End AllocatorState.

(** ** Polling loops *)

Lemma VL53L0X_startTimeout_spec s : VL53L0X_startTimeout s = (Some tt, s).
Proof. reflexivity. Qed.

Lemma VL53L0X_checkTimeoutExpired_spec s :
  VL53L0X_checkTimeoutExpired s = (Some false, s).
Proof. reflexivity. Qed.

(** A loop that polls one register and whose body falls through: on a
    register file it ends at once or never. *)
Lemma poll_spec {R} reg (test : Z -> bool) (body : stmt R unit) fuel :
  (forall s, body s = (Normal tt, s)) ->
  forall s,
    while fuel (v <- call (VL53L0X_readReg reg) ;; ret (test v)) body s
    = match fuel with
      | O => (Spin, s)
      | S _ => (if test (peek (bus s) reg) then Spin else Normal tt,
                on_bus (set_index (wrap8 (wrap8 reg + 1))) s)
      end.
Proof.
  intros Hbody. induction fuel as [|fuel IH]; intros s; [reflexivity|].
  cbn [while]. unfold bind at 1. rewrite bind_call, VL53L0X_readReg_spec.
  unfold ret at 1. destruct (test (peek (bus s) reg)) eqn:Ht; [|reflexivity].
  unfold bind. rewrite Hbody, IH.
  destruct fuel; [reflexivity|].
  rewrite bus_on_bus, peek_set_index, Ht. reflexivity.
Qed.

Section Calibration.

Variable rm : RegisterMap.

Lemma performSingleRefCalibration_spec fuel vhv s :
  let started :=
    on_bus (write8 (SYSRANGE_START rm) (Z.lor 0x01 (wrap8 vhv))) s in
  let polled :=
    on_bus (set_index (wrap8 (wrap8 (RESULT_INTERRUPT_STATUS rm) + 1))) started in
  VL53L0X_performSingleRefCalibration rm fuel vhv s
  = match fuel with
    | O => (None, started)
    | S _ =>
        if Z.land (peek (bus started) (RESULT_INTERRUPT_STATUS rm)) 0x07 =? 0
        then (None, polled)
        else (Some true,
              on_bus (fun d => write8 (SYSRANGE_START rm) 0x00
                                 (write8 (SYSTEM_INTERRUPT_CLEAR rm) 0x01 d))
                     started)
    end.
Proof.
  intros started polled.
  unfold VL53L0X_performSingleRefCalibration, function.
  rewrite bind_call, VL53L0X_writeReg_spec. cbv beta iota. fold started.
  rewrite bind_call, VL53L0X_startTimeout_spec. cbv beta iota.
  unfold bind at 1.
  rewrite (poll_spec (RESULT_INTERRUPT_STATUS rm) (fun status => Z.land status 0x07 =? 0)).
  2:{ intros s0. rewrite bind_call, VL53L0X_checkTimeoutExpired_spec. reflexivity. }
  destruct fuel; [reflexivity|].
  destruct (Z.land _ _ =? 0); [reflexivity|].
  rewrite bind_call, VL53L0X_writeReg_spec. cbv beta iota.
  rewrite bind_call, VL53L0X_writeReg_spec. cbv beta iota.
  reflexivity.
Qed.

End Calibration.

(** ** Single-shot ranging and reference SPAD discovery *)

Section Ranging.

Variable rm : RegisterMap.

Ltac run :=
  repeat first
    [ rewrite bind_call
    | rewrite VL53L0X_readReg_spec
    | rewrite VL53L0X_readReg16Bit_spec
    | rewrite VL53L0X_writeReg_spec
    | rewrite VL53L0X_writeReg16Bit_spec
    | rewrite VL53L0X_startTimeout_spec
    | rewrite VL53L0X_checkTimeoutExpired_spec
    | progress cbv beta iota ].

Lemma bind_get_dev {R B} (k : VL53L0X -> stmt R B) s :
  bind get_dev k s = k (hnd s) s.
Proof. reflexivity. Qed.

Lemma peek_write8_same reg value d : peek (write8 reg value d) reg = wrap8 value.
Proof. unfold peek. rewrite regs_write8, Z.eqb_refl. apply wrap8_idem. Qed.

(** On a register file the start bit just written is never cleared. *)
Lemma readRangeSingleMillimeters_spins fuel s :
  exists s',
    VL53L0X_readRangeSingleMillimeters rm fuel s = (None, s') /\ hnd s' = hnd s.
Proof.
  unfold VL53L0X_readRangeSingleMillimeters, function.
  run. rewrite bind_get_dev. run. unfold bind at 1.
  rewrite (poll_spec (SYSRANGE_START rm) (fun start => truthy (Z.land start 0x01))).
  2:{ intros s0. run. reflexivity. }
  destruct fuel; [eexists; split; reflexivity|].
  rewrite bus_on_bus, peek_write8_same.
  eexists; split; reflexivity.
Qed.

Lemma getSpadInfo_spins fuel s : fst (VL53L0X_getSpadInfo fuel s) = None.
Proof.
  unfold VL53L0X_getSpadInfo, function.
  run. unfold bind at 1.
  rewrite (poll_spec 0x83 (fun v => v =? 0x00)).
  2:{ intros s0. run. reflexivity. }
  destruct fuel; [reflexivity|].
  rewrite bus_on_bus, peek_write8_same. reflexivity.
Qed.

(** C4 fails on the code.  [VL53L0X_checkTimeoutExpired] always answers
    "not expired", so on a sensor that does not report ready no polling loop
    ends, whatever number of iterations it is given: the calibration wait
    never returns failure, the single-shot wait never returns 65535 and
    never sets the timeout flag, and the reference SPAD wait never
    returns. *)
Theorem polling_never_times_out fuel vhv s :
  Z.land (peek (bus s) (RESULT_INTERRUPT_STATUS rm)) 0x07 = 0 ->
  wrap8 (RESULT_INTERRUPT_STATUS rm) <> wrap8 (SYSRANGE_START rm) ->
  fst (VL53L0X_performSingleRefCalibration rm fuel vhv s) = None /\
  fst (VL53L0X_readRangeSingleMillimeters rm fuel s) = None /\
  did_timeout (hnd (snd (VL53L0X_readRangeSingleMillimeters rm fuel s)))
    = did_timeout (hnd s) /\
  fst (VL53L0X_getSpadInfo fuel s) = None.
Proof.
  intros Hidle Hne.
  destruct (readRangeSingleMillimeters_spins fuel s) as (s' & -> & Hh).
  split; [|split; [reflexivity|split; [cbn [snd]; rewrite Hh; reflexivity
                                      |apply getSpadInfo_spins]]].
  rewrite performSingleRefCalibration_spec.
  destruct fuel; [reflexivity|].
  rewrite bus_on_bus. unfold peek at 1. rewrite regs_write8.
  destruct (Z.eqb_spec (wrap8 (RESULT_INTERRUPT_STATUS rm)) (wrap8 (SYSRANGE_START rm)));
    [contradiction|].
  fold (peek (bus s) (RESULT_INTERRUPT_STATUS rm)). rewrite Hidle. reflexivity.
Qed.

End Ranging.

(** ** The pulse period controller *)

Lemma extends_refl s : extends s s.
Proof. exists []. rewrite app_nil_r. reflexivity. Qed.

Lemma extends_trans s1 s2 s3 : extends s1 s2 -> extends s2 s3 -> extends s1 s3.
Proof.
  intros [l1 H1] [l2 H2]. exists (l1 ++ l2). rewrite H2, H1, app_assoc. reflexivity.
Qed.

Lemma extends_set_index i s : extends s (on_bus (set_index i) s).
Proof. exists []. rewrite app_nil_r. reflexivity. Qed.

Lemma extends_write8 reg v s : extends s (on_bus (write8 reg v) s).
Proof. eexists. rewrite bus_on_bus, stores_write8. reflexivity. Qed.

Lemma stores_since_app s s' l :
  stores (bus s') = stores (bus s) ++ l -> stores_since s s' = l.
Proof.
  intros H. unfold stores_since. rewrite H.
  rewrite skipn_app, skipn_all, Nat.sub_diag. reflexivity.
Qed.

Section Period.

Variable rm : RegisterMap.

Ltac run :=
  repeat first
    [ rewrite bind_call
    | rewrite bind_get_dev
    | rewrite VL53L0X_readReg_spec
    | rewrite VL53L0X_readReg16Bit_spec
    | rewrite VL53L0X_writeReg_spec
    | rewrite VL53L0X_writeReg16Bit_spec
    | progress cbv beta iota ].

Lemma setMeasurementTimingBudget_effect budget_us s :
  exists r s',
    VL53L0X_setMeasurementTimingBudget rm budget_us s = (Some r, s') /\
    extends s s' /\
    forall reg,
      ~ In (wrap8 reg) [wrap8 (FINAL_RANGE_CONFIG_TIMEOUT_MACROP_HI rm);
                        wrap8 (wrap8 (FINAL_RANGE_CONFIG_TIMEOUT_MACROP_HI rm) + 1)] ->
      peek (bus s') reg = peek (bus s) reg.
Proof.
  rewrite setMeasurementTimingBudget_spec. cbv zeta.
  destruct (_ <? _).
  { do 2 eexists. split; [reflexivity|]. split; [apply extends_refl|reflexivity]. }
  destruct (final_range _).
  2:{ do 2 eexists. split; [reflexivity|].
      split; [apply extends_set_index|reflexivity]. }
  destruct (_ >? _).
  { do 2 eexists. split; [reflexivity|].
    split; [apply extends_set_index|reflexivity]. }
  do 2 eexists. split; [reflexivity|]. split.
  - eexists. cbn [on_hnd bus on_bus]. rewrite stores_write16. reflexivity.
  - intros reg Hreg. cbn [on_hnd bus on_bus]. apply peek_write16_other. assumption.
Qed.

(** The closing part never yields failure, only stores, and completes as soon
    as the sensor reports the calibration done. *)
Lemma reapply_and_recalibrate_effect fuel s :
  exists o s',
    reapply_and_recalibrate rm fuel s = (o, s') /\
    (o = Normal true \/ o = Spin) /\
    extends s s' /\
    (fuel <> O ->
     ~ In (wrap8 (RESULT_INTERRUPT_STATUS rm)) (written_by_setVcselPulsePeriod rm) ->
     Z.land (peek (bus s) (RESULT_INTERRUPT_STATUS rm)) 0x07 <> 0 ->
     o = Normal true).
Proof.
  unfold reapply_and_recalibrate. rewrite bind_get_dev, bind_call.
  destruct (setMeasurementTimingBudget_effect (measurement_timing_budget_us (hnd s)) s)
    as (r & s1 & -> & Hext1 & Hframe).
  run. rewrite performSingleRefCalibration_spec. cbv zeta.
  set (s2 := on_bus (write8 (SYSRANGE_START rm) (Z.lor 1 (wrap8 0)))
               (on_bus (write8 (SYSTEM_SEQUENCE_CONFIG rm) 2)
                  (on_bus (set_index (wrap8 (wrap8 (SYSTEM_SEQUENCE_CONFIG rm) + 1))) s1))).
  assert (Hext2 : extends s s2).
  { destruct Hext1 as [l1 Hl1]. eexists. unfold s2.
    rewrite !bus_on_bus, !stores_write8. cbn [stores set_index].
    rewrite Hl1, <- !app_assoc. reflexivity. }
  destruct fuel as [|fuel].
  { do 2 eexists. split; [reflexivity|]. split; [now right|].
    split; [exact Hext2|]. intros H; contradiction. }
  destruct (Z.land (peek (bus s2) (RESULT_INTERRUPT_STATUS rm)) 7 =? 0) eqn:Hst.
  - do 2 eexists. split; [reflexivity|]. split; [now right|].
    split; [eapply extends_trans; [exact Hext2|apply extends_set_index]|].
    intros _ Hiso Hready. exfalso. apply Z.eqb_eq in Hst. apply Hready.
    rewrite <- Hst. f_equal.
    rewrite <- (Hframe (RESULT_INTERRUPT_STATUS rm)).
    2:{ intros Hin. apply Hiso. unfold written_by_setVcselPulsePeriod.
        rewrite !in_app_iff. right. right. exact Hin. }
    unfold s2, peek. rewrite !bus_on_bus, !regs_write8.
    destruct (Z.eqb_spec (wrap8 (RESULT_INTERRUPT_STATUS rm)) (wrap8 (SYSRANGE_START rm)))
      as [E|_].
    { exfalso. apply Hiso. rewrite E. unfold written_by_setVcselPulsePeriod.
      rewrite !in_app_iff. left. cbn [map In]. tauto. }
    destruct (Z.eqb_spec (wrap8 (RESULT_INTERRUPT_STATUS rm))
                         (wrap8 (SYSTEM_SEQUENCE_CONFIG rm))) as [E|_].
    { exfalso. apply Hiso. rewrite E. unfold written_by_setVcselPulsePeriod.
      rewrite !in_app_iff. left. cbn [map In]. tauto. }
    reflexivity.
  - run. do 2 eexists. split; [reflexivity|]. split; [now left|].
    split; [|reflexivity].
    eapply extends_trans; [exact Hext2|].
    eapply extends_trans; [|apply extends_write8].
    eexists. rewrite bus_on_bus, stores_write8, stores_write8, <- app_assoc.
    reflexivity.
Qed.

Lemma bind_return {A B} (r : bool) (k : A -> stmt bool B) s :
  bind (return_ r) k s = (Return r, s).
Proof. reflexivity. Qed.

Lemma apply_vcsel_period_invalid type p r en tm s :
  ~ In p (allowed_periods type) ->
  apply_vcsel_period rm type p r en tm s = (Return false, s).
Proof.
  intros Hp. unfold apply_vcsel_period.
  destruct type; cbn [allowed_periods pre_range_periods final_range_periods In] in Hp;
    [| |reflexivity];
    repeat match goal with
    | |- context [p =? ?c] =>
        destruct (Z.eqb_spec p c) as [E|_]; [exfalso; apply Hp; rewrite E; tauto|]
    end;
    apply bind_return.
Qed.

(** The value [VL53L0X_setVcselPulsePeriod] passes to [VL53L0X_writeReg] for
    the MSRC timeout register. *)
Lemma apply_vcsel_period_pre p r en tm s :
  In p pre_range_periods ->
  exists hi,
    apply_vcsel_period rm VcselPeriodPreRange p r en tm s
    = (Normal tt,
       on_bus (fun d =>
         write8 (MSRC_CONFIG_TIMEOUT_MACROP rm)
           (let new := wrap16 (VL53L0X_timeoutMicrosecondsToMclks
                                 (msrc_dss_tcc_us tm) p) in
            if new >? 256 then 255 else new - 1)
           (write16 (PRE_RANGE_CONFIG_TIMEOUT_MACROP_HI rm)
              (VL53L0X_encodeTimeout
                 (wrap16 (VL53L0X_timeoutMicrosecondsToMclks (pre_range_us tm) p)))
              (write8 (PRE_RANGE_CONFIG_VCSEL_PERIOD rm) r
                 (write8 (PRE_RANGE_CONFIG_VALID_PHASE_LOW rm) 0x08
                    (write8 (PRE_RANGE_CONFIG_VALID_PHASE_HIGH rm) hi d))))) s).
Proof.
  intros Hp. unfold apply_vcsel_period.
  cbn [pre_range_periods In] in Hp.
  destruct Hp as [<-|[<-|[<-|[<-|[]]]]]; cbn [Z.eqb Pos.eqb];
    [ exists 0x18 | exists 0x30 | exists 0x40 | exists 0x50 ];
    run; reflexivity.
Qed.

Lemma apply_vcsel_period_final p r en tm s :
  In p final_range_periods ->
  exists hi width timeout lim,
    apply_vcsel_period rm VcselPeriodFinalRange p r en tm s
    = (Normal tt,
       on_bus (fun d =>
         write16 (FINAL_RANGE_CONFIG_TIMEOUT_MACROP_HI rm)
           (VL53L0X_encodeTimeout
              (let new := wrap16 (VL53L0X_timeoutMicrosecondsToMclks
                                    (final_range_us tm) p) in
               if pre_range en then wrap16 (new + pre_range_mclks tm) else new))
           (write8 (FINAL_RANGE_CONFIG_VCSEL_PERIOD rm) r
              (write8 0xFF 0x00
                 (write8 (ALGO_PHASECAL_LIM rm) lim
                    (write8 0xFF 0x01
                       (write8 (ALGO_PHASECAL_CONFIG_TIMEOUT rm) timeout
                          (write8 (GLOBAL_CONFIG_VCSEL_WIDTH rm) width
                             (write8 (FINAL_RANGE_CONFIG_VALID_PHASE_LOW rm) 0x08
                                (write8 (FINAL_RANGE_CONFIG_VALID_PHASE_HIGH rm)
                                        hi d))))))))) s).
Proof.
  intros Hp. unfold apply_vcsel_period.
  cbn [final_range_periods In] in Hp.
  destruct Hp as [<-|[<-|[<-|[<-|[]]]]]; cbn [Z.eqb Pos.eqb];
    [ exists 0x10, 0x02, 0x0C, 0x30 | exists 0x28, 0x03, 0x09, 0x20
    | exists 0x38, 0x03, 0x08, 0x20 | exists 0x48, 0x03, 0x07, 0x20 ];
    unfold bind at 1; run; reflexivity.
Qed.

Ltac in_written :=
  unfold written_by_setVcselPulsePeriod; cbn [map app In];
  repeat first [left; reflexivity | right].

Ltac frame Hiso :=
  unfold peek; rewrite ?bus_on_bus;
  repeat first
    [ rewrite regs_write8
    | rewrite regs_write16
    | match goal with
      | |- context [?a =? ?b] =>
          destruct (Z.eqb_spec a b) as [E|_];
          [exfalso; apply Hiso; rewrite E; in_written|]
      end ];
  try reflexivity.

(** What the first part does for an allowed period: it falls through, leaves
    the handle alone, only stores, and touches none but the listed
    registers. *)
Lemma apply_vcsel_period_effect type p r en tm s :
  In p (allowed_periods type) ->
  exists s',
    apply_vcsel_period rm type p r en tm s = (Normal tt, s') /\
    hnd s' = hnd s /\
    extends s s' /\
    (~ In (wrap8 (RESULT_INTERRUPT_STATUS rm)) (written_by_setVcselPulsePeriod rm) ->
     peek (bus s') (RESULT_INTERRUPT_STATUS rm)
     = peek (bus s) (RESULT_INTERRUPT_STATUS rm)).
Proof.
  intros Hp. destruct type; cbn [allowed_periods] in Hp; [| |contradiction].
  - destruct (apply_vcsel_period_pre p r en tm s Hp) as (hi & ->).
    eexists. split; [reflexivity|]. split; [reflexivity|]. split.
    + eexists. rewrite bus_on_bus, !stores_write8, stores_write16, !stores_write8.
      rewrite <- !app_assoc. reflexivity.
    + intros Hiso. frame Hiso.
  - destruct (apply_vcsel_period_final p r en tm s Hp) as (hi & w & t & l & ->).
    eexists. split; [reflexivity|]. split; [reflexivity|]. split.
    + eexists. rewrite bus_on_bus, !stores_write16, !stores_write8.
      rewrite <- !app_assoc. reflexivity.
    + intros Hiso. frame Hiso.
Qed.

Lemma setVcselPulsePeriod_unfold fuel type p s :
  let en := enables_of rm (bus s) in
  let tm := timeouts_of rm en (bus s) in
  VL53L0X_setVcselPulsePeriod rm fuel type p s
  = function
      (apply_vcsel_period rm type (wrap8 p) (wrap8 (encodeVcselPeriod (wrap8 p)))
                          en tm ;;
       reapply_and_recalibrate rm fuel)
      (on_bus (set_index
         (wrap8 (wrap8 (wrap8 (FINAL_RANGE_CONFIG_TIMEOUT_MACROP_HI rm) + 1) + 1))) s).
Proof.
  intros en tm. unfold VL53L0X_setVcselPulsePeriod, function at 1.
  rewrite bind_call, getSequenceStepEnables_spec. cbv beta iota.
  rewrite bind_call, getSequenceStepTimeouts_spec. cbv beta iota.
  reflexivity.
Qed.

(** C9 (as amended).  For a period outside the set its step allows (12, 14,
    16, 18 for pre-range; 8, 10, 12, 14 for final-range) -- 13 on pre-range
    for one -- [VL53L0X_setVcselPulsePeriod] returns failure and has stored
    no byte into any register: the register file and the handle are as
    before.  It has not left the device alone: the sequence-step enables and
    timeouts are read before the period is looked at, and the sensor's
    register index is left behind the last register read, the low byte of
    the final-range timeout. *)
Theorem setVcselPulsePeriod_rejects fuel type period_pclks s :
  0 <= period_pclks < 256 ->
  ~ In period_pclks (allowed_periods type) ->
  let result := VL53L0X_setVcselPulsePeriod rm fuel type period_pclks s in
  fst result = Some false /\
  stores_since s (snd result) = [] /\
  stores (bus (snd result)) = stores (bus s) /\
  regs (bus (snd result)) = regs (bus s) /\
  hnd (snd result) = hnd s /\
  index (bus (snd result))
  = wrap8 (wrap8 (wrap8 (FINAL_RANGE_CONFIG_TIMEOUT_MACROP_HI rm) + 1) + 1) /\
  snd result
  = snd (VL53L0X_getSequenceStepTimeouts rm
           (enables_of rm (bus s))
           (snd (VL53L0X_getSequenceStepEnables rm s))).
Proof.
  intros Hrange Hp result. subst result.
  rewrite setVcselPulsePeriod_unfold. cbv zeta.
  rewrite (wrap8_small period_pclks) by assumption.
  unfold function, bind. rewrite apply_vcsel_period_invalid by assumption.
  rewrite getSequenceStepEnables_spec, getSequenceStepTimeouts_spec.
  cbn [fst snd]. split; [reflexivity|]. split; [|repeat split].
  apply stores_since_app. rewrite app_nil_r. reflexivity.
Qed.

(** C3 (as amended).  For an allowed period [VL53L0X_setVcselPulsePeriod]
    never returns failure, whatever the reapplication of the cached budget
    returned: its result is discarded.  Once the sensor reports the phase
    calibration done, the function returns success. *)
Theorem setVcselPulsePeriod_ignores_budget_result fuel type period_pclks s :
  In period_pclks (allowed_periods type) ->
  let result := fst (VL53L0X_setVcselPulsePeriod rm fuel type period_pclks s) in
  result <> Some false /\
  (fuel <> O ->
   ~ In (wrap8 (RESULT_INTERRUPT_STATUS rm)) (written_by_setVcselPulsePeriod rm) ->
   Z.land (peek (bus s) (RESULT_INTERRUPT_STATUS rm)) 0x07 <> 0 ->
   result = Some true).
Proof.
  intros Hp result. subst result.
  assert (Hrange : 0 <= period_pclks < 256).
  { destruct type; cbn [allowed_periods pre_range_periods final_range_periods In] in Hp;
      intuition lia. }
  rewrite setVcselPulsePeriod_unfold. cbv zeta.
  rewrite (wrap8_small period_pclks) by assumption.
  unfold function, bind.
  match goal with
  | |- context [apply_vcsel_period rm type period_pclks ?r ?en ?tm ?s0] =>
      destruct (apply_vcsel_period_effect type period_pclks r en tm s0 Hp)
        as (s1 & -> & Hh & Hext & Hst)
  end.
  destruct (reapply_and_recalibrate_effect fuel s1) as (o & s2 & -> & Ho & _ & Hready).
  split.
  - destruct Ho as [-> | ->]; cbn [fst]; discriminate.
  - intros Hfuel Hiso Hrdy. rewrite Hready; [reflexivity|assumption..|].
    rewrite Hst by assumption. exact Hrdy.
Qed.

(** C10.  When the pre-range period is changed, the sixth byte stored goes
    to the MSRC timeout register.  It is 255 when the recomputed MSRC
    timeout exceeds 256 clocks, the recomputed value less one when that is 1
    to 256, and 255 again when it is 0; it always lies in 0..255. *)
Theorem msrc_timeout_saturates fuel period_pclks s en s1 tm s2 :
  In period_pclks pre_range_periods ->
  VL53L0X_getSequenceStepEnables rm s = (Some en, s1) ->
  VL53L0X_getSequenceStepTimeouts rm en s1 = (Some tm, s2) ->
  let new_msrc_timeout_mclks :=
    wrap16 (VL53L0X_timeoutMicrosecondsToMclks (msrc_dss_tcc_us tm) period_pclks) in
  let s' := snd (VL53L0X_setVcselPulsePeriod rm fuel VcselPeriodPreRange
                                             period_pclks s) in
  exists byte,
    nth_error (stores_since s s') 5
    = Some (wrap8 (MSRC_CONFIG_TIMEOUT_MACROP rm), byte) /\
    0 <= byte <= 255 /\
    (256 < new_msrc_timeout_mclks -> byte = 255) /\
    (1 <= new_msrc_timeout_mclks <= 256 -> byte = new_msrc_timeout_mclks - 1) /\
    (new_msrc_timeout_mclks = 0 -> byte = 255).
Proof.
  intros Hp Hen Htm new s'. subst s'.
  destruct (read_steps _ _ _ _ _ _ Hen Htm) as [Een Etm].
  assert (Hrange : 0 <= period_pclks < 256)
    by (cbn [pre_range_periods In] in Hp; intuition lia).
  rewrite setVcselPulsePeriod_unfold. cbv zeta.
  rewrite (wrap8_small period_pclks) by assumption.
  rewrite <- Een, <- Etm.
  unfold function, bind.
  match goal with
  | |- context [apply_vcsel_period rm _ period_pclks ?r en tm ?s0] =>
      destruct (apply_vcsel_period_pre period_pclks r en tm s0 Hp) as (hi & ->)
  end.
  cbv zeta. fold new.
  match goal with
  | |- context [reapply_and_recalibrate rm fuel ?s1] =>
      destruct (reapply_and_recalibrate_effect fuel s1)
        as (o & sf & -> & Ho & [l Hl] & _)
  end.
  exists (wrap8 (if new >? 256 then 255 else new - 1)).
  split.
  - assert (Hs : stores_since s sf
                 = [(wrap8 (PRE_RANGE_CONFIG_VALID_PHASE_HIGH rm), wrap8 hi);
                    (wrap8 (PRE_RANGE_CONFIG_VALID_PHASE_LOW rm), wrap8 8);
                    (wrap8 (PRE_RANGE_CONFIG_VCSEL_PERIOD rm),
                     wrap8 (wrap8 (encodeVcselPeriod period_pclks)))]
                   ++ [(wrap8 (PRE_RANGE_CONFIG_TIMEOUT_MACROP_HI rm),
                        wrap8 (Z.shiftr (wrap16 (VL53L0X_encodeTimeout
                          (wrap16 (VL53L0X_timeoutMicrosecondsToMclks
                                     (pre_range_us tm) period_pclks)))) 8));
                       (wrap8 (wrap8 (PRE_RANGE_CONFIG_TIMEOUT_MACROP_HI rm) + 1),
                        wrap8 (Z.land (wrap16 (VL53L0X_encodeTimeout
                          (wrap16 (VL53L0X_timeoutMicrosecondsToMclks
                                     (pre_range_us tm) period_pclks)))) 255))]
                   ++ [(wrap8 (MSRC_CONFIG_TIMEOUT_MACROP rm),
                        wrap8 (if new >? 256 then 255 else new - 1))]
                   ++ l).
    { apply stores_since_app. rewrite Hl.
      rewrite bus_on_bus, !stores_write8, stores_write16, !stores_write8.
      cbn [stores set_index bus on_bus]. rewrite <- !app_assoc. reflexivity. }
    destruct o; cbn [snd]; rewrite Hs; reflexivity.
  - pose proof (wrap16_range (VL53L0X_timeoutMicrosecondsToMclks
                                (msrc_dss_tcc_us tm) period_pclks)) as Hnew.
    fold new in Hnew.
    destruct (Z.gtb_spec new 256) as [Hgt|Hle].
    + change (wrap8 255) with 255. repeat split; lia.
    + pose proof (wrap8_range (new - 1)).
      repeat split; try lia.
      * intros H1. apply wrap8_small. lia.
      * intros ->. reflexivity.
Qed.

End Period.

(** ** Concrete runs on the sensor of the vendor's register map *)

(** A run is determined by its result and its final state. *)
Lemma run_result {A B} (p : A * B) (a : A) : fst p = a -> p = (a, snd p).
Proof. destruct p. cbn [fst snd]. intros ->. reflexivity. Qed.

(** C2 on the default configuration: 33000 microseconds are granted, 19999
    refused. *)
Lemma setMeasurementTimingBudget_result_witness :
  fst (VL53L0X_setMeasurementTimingBudget datasheet_map 33000
         (configured_state 0xE8 0)) = Some true /\
  fst (VL53L0X_setMeasurementTimingBudget datasheet_map 19999
         (configured_state 0xE8 0)) = Some false.
Proof.
  split.
  - destruct (setMeasurementTimingBudget_result datasheet_map 33000
                (configured_state 0xE8 0) _ _ _ _ ltac:(lia)
                (getSequenceStepEnables_spec datasheet_map _)
                (getSequenceStepTimeouts_spec datasheet_map _ _))
      as (_ & H & _).
    destruct H as [_ H]; [lia | vm_compute; reflexivity | ].
    apply H. vm_compute. discriminate.
  - destruct (setMeasurementTimingBudget_result datasheet_map 19999
                (configured_state 0xE8 0) _ _ _ _ ltac:(lia)
                (getSequenceStepEnables_spec datasheet_map _)
                (getSequenceStepTimeouts_spec datasheet_map _ _))
      as (H & _).
    apply H. lia.
Defined.

(** The amended C8 on the default configuration: 33000 microseconds are cached. *)
Lemma setMeasurementTimingBudget_caches_witness :
  measurement_timing_budget_us
    (hnd (snd (VL53L0X_setMeasurementTimingBudget datasheet_map 33000
                 (configured_state 0xE8 0)))) = 33000.
Proof.
  refine (proj1 (setMeasurementTimingBudget_caches datasheet_map 33000
                   (configured_state 0xE8 0) _ _ _ ltac:(lia)
                   (getSequenceStepEnables_spec datasheet_map _) _) _).
  - apply run_result. vm_compute. reflexivity.
  - vm_compute. reflexivity.
Defined.

(** C8, as stated, fails: with the final-range step disabled ([0x68]) the
    allocator returns success and the handle still caches 0, not 33000. *)
Lemma budget_not_cached_without_final_range :
  let result := VL53L0X_setMeasurementTimingBudget datasheet_map 33000
                  (configured_state 0x68 0) in
  fst result = Some true /\
  measurement_timing_budget_us (hnd (snd result)) <> 33000.
Proof. vm_compute. split; [reflexivity|discriminate]. Qed.

(** In the vendor's map the final-range timeout occupies [0x71] and [0x72]. *)
Lemma final_timeout_isolated_datasheet : final_timeout_isolated datasheet_map.
Proof.
  unfold final_timeout_isolated. vm_compute.
  repeat split; intros H; repeat destruct H as [H|H]; try discriminate H; exact H.
Qed.

(** C1 on the default configuration with a budget of 33000 microseconds: 415
    clocks are allocated on top of 151 pre-range clocks. *)
Lemma final_range_timeout_additive_witness :
  let s := configured_state 0xE8 0 in
  let s' := snd (VL53L0X_setMeasurementTimingBudget datasheet_map 33000 s) in
  let en := enables_of datasheet_map (bus s) in
  let tm := timeouts_of datasheet_map en (bus s) in
  let tm' := timeouts_of datasheet_map (enables_of datasheet_map (bus s')) (bus s') in
  let allocated := allocated_final_mclks 33000 en tm in
  let written := wrap16 (allocated + pre_range_mclks tm) in
  peek16 (bus s') (FINAL_RANGE_CONFIG_TIMEOUT_MACROP_HI datasheet_map)
    = VL53L0X_encodeTimeout written /\
  pre_range_mclks tm' = pre_range_mclks tm /\
  wrap16 (written - pre_range_mclks tm) = allocated /\
  final_range_mclks tm' <= allocated.
Proof.
  intros s s' en tm tm' allocated written.
  edestruct (final_range_timeout_additive datasheet_map 33000 s)
    as (H1 & _ & H3 & _ & H5 & _ & _ & H6).
  - exact final_timeout_isolated_datasheet.
  - lia.
  - apply getSequenceStepEnables_spec.
  - apply getSequenceStepTimeouts_spec.
  - vm_compute. reflexivity.
  - vm_compute. reflexivity.
  - apply (run_result _ (Some true)). vm_compute. reflexivity.
  - apply getSequenceStepEnables_spec.
  - apply getSequenceStepTimeouts_spec.
  - split; [exact H1|]. split; [exact H3|]. split; [exact H5|].
    apply H6. vm_compute. reflexivity.
Defined.

(** In the vendor's map the interrupt status register [0x13] is none of the
    registers a period change stores into. *)
Lemma status_not_written_datasheet :
  ~ In (wrap8 (RESULT_INTERRUPT_STATUS datasheet_map))
       (written_by_setVcselPulsePeriod datasheet_map).
Proof.
  vm_compute. intros H; repeat destruct H as [H|H]; try discriminate H; exact H.
Qed.

(** The amended C3: a pre-range period of 18 is accepted although the cached
    budget of 19000 microseconds cannot be reapplied. *)
Lemma setVcselPulsePeriod_ignores_budget_result_witness :
  fst (VL53L0X_setVcselPulsePeriod datasheet_map 1 VcselPeriodPreRange 18
         (configured_state 0xE8 19000)) = Some true.
Proof.
  apply (setVcselPulsePeriod_ignores_budget_result datasheet_map 1
           VcselPeriodPreRange 18 (configured_state 0xE8 19000)).
  - simpl; tauto.
  - discriminate.
  - exact status_not_written_datasheet.
  - vm_compute. discriminate.
Defined.

(** C3, as stated, fails: the handle caches 19000 microseconds, so the
    reapplication of the budget fails in whatever state it is attempted, and
    [VL53L0X_setVcselPulsePeriod] still returns success. *)
Lemma budget_failure_not_propagated :
  let s := configured_state 0xE8 19000 in
  (forall s1,
      fst (VL53L0X_setMeasurementTimingBudget datasheet_map
             (measurement_timing_budget_us (hnd s)) s1) = Some false) /\
  fst (VL53L0X_setVcselPulsePeriod datasheet_map 1 VcselPeriodPreRange 18 s)
  = Some true.
Proof. split; [intros s1; reflexivity|vm_compute; reflexivity]. Qed.

(** C4's failing input: a sensor that always reads zero, polled a thousand
    times. *)
Lemma polling_never_times_out_witness :
  fst (VL53L0X_performSingleRefCalibration datasheet_map 1000 0x40 silent_state) = None /\
  fst (VL53L0X_readRangeSingleMillimeters datasheet_map 1000 silent_state) = None /\
  did_timeout (hnd (snd (VL53L0X_readRangeSingleMillimeters datasheet_map 1000
                           silent_state))) = false /\
  fst (VL53L0X_getSpadInfo 1000 silent_state) = None.
Proof.
  apply (polling_never_times_out datasheet_map 1000 0x40 silent_state).
  - reflexivity.
  - vm_compute. discriminate.
Defined.

(** The amended C9 at the odd pre-range period 13: nothing is stored and
    the register index is left at [0x73]. *)
Lemma setVcselPulsePeriod_rejects_witness :
  let result := VL53L0X_setVcselPulsePeriod datasheet_map 1 VcselPeriodPreRange 13
                  (configured_state 0xE8 33000) in
  fst result = Some false /\
  stores_since (configured_state 0xE8 33000) (snd result) = [] /\
  stores (bus (snd result)) = stores (bus (configured_state 0xE8 33000)) /\
  regs (bus (snd result)) = regs (bus (configured_state 0xE8 33000)) /\
  hnd (snd result) = hnd (configured_state 0xE8 33000) /\
  index (bus (snd result)) = 0x73.
Proof.
  destruct (setVcselPulsePeriod_rejects datasheet_map 1 VcselPeriodPreRange 13
              (configured_state 0xE8 33000))
    as (H1 & H2 & H3 & H4 & H5 & H6 & _).
  - lia.
  - simpl. intros H; repeat destruct H as [H|H]; try discriminate H; exact H.
  - repeat split; assumption.
Defined.

(** C9, as stated, fails: the rejected call has touched the device.  The
    sensor's register index, 0 before the call, is [0x73] after it, behind
    the last of the registers read before the period is examined. *)
Lemma rejected_period_reads_device :
  let s := configured_state 0xE8 33000 in
  let result := VL53L0X_setVcselPulsePeriod datasheet_map 1 VcselPeriodPreRange 13 s in
  0 <= 13 < 256 /\
  ~ In 13 (allowed_periods VcselPeriodPreRange) /\
  fst result = Some false /\
  index (bus s) = 0 /\
  index (bus (snd result)) = 0x73 /\
  bus (snd result) <> bus s.
Proof.
  intros s result.
  split; [lia|]. split.
  { simpl. intros H; repeat destruct H as [H|H]; try discriminate H; exact H. }
  split; [vm_compute; reflexivity|]. split; [reflexivity|].
  split; [vm_compute; reflexivity|].
  intros E. apply (f_equal index) in E. vm_compute in E. discriminate E.
Qed.

(** C10 for a change of the pre-range period to 18. *)
Lemma msrc_timeout_saturates_witness :
  exists byte,
    nth_error (stores_since (configured_state 0xE8 33000)
                 (snd (VL53L0X_setVcselPulsePeriod datasheet_map 1
                         VcselPeriodPreRange 18 (configured_state 0xE8 33000)))) 5
    = Some (wrap8 (MSRC_CONFIG_TIMEOUT_MACROP datasheet_map), byte) /\
    0 <= byte <= 255.
Proof.
  destruct (msrc_timeout_saturates datasheet_map 1 18 (configured_state 0xE8 33000)
              _ _ _ _ ltac:(simpl; tauto)
              (getSequenceStepEnables_spec datasheet_map _)
              (getSequenceStepTimeouts_spec datasheet_map _ _))
    as (byte & H1 & H2 & _).
  exists byte. split; [exact H1|exact H2].
Defined.

(** * Further verified properties *)

(** ** The two codecs *)

(** X1.  Encoding a pulse period into its register byte and decoding the
    byte clears the period's lowest bit: an even period of at most 255 comes
    back unchanged, an odd one comes back one lower. *)
Theorem vcsel_period_codec_round_trip p :
  0 <= p < 256 ->
  wrap8 (decodeVcselPeriod (wrap8 (encodeVcselPeriod p))) = p - p mod 2.
Proof.
  intros Hp. unfold decodeVcselPeriod, encodeVcselPeriod, wrap8.
  rewrite Z.shiftr_div_pow2, Z.shiftl_mul_pow2 by lia.
  change (2 ^ 1) with 2.
  Z.div_mod_to_equations; lia.
Qed.

(** The encoder's exponent is determined by the clock count. *)
Lemma least_exponent_unique q k1 k2 :
  0 <= q -> least_exponent q k1 -> least_exponent q k2 -> k1 = k2.
Proof.
  intros Hq H1 H2.
  pose proof (least_exponent_mono q q k1 k2 ltac:(lia) H1 H2).
  pose proof (least_exponent_mono q q k2 k1 ltac:(lia) H2 H1). lia.
Qed.

Lemma encodeTimeout_zero v : wrap16 v = 0 -> VL53L0X_encodeTimeout v = 0.
Proof. intros H. unfold VL53L0X_encodeTimeout. rewrite H. reflexivity. Qed.

Lemma encodeTimeout_least v k :
  1 <= v < 65536 -> least_exponent (v - 1) k ->
  VL53L0X_encodeTimeout v = k * 256 + (v - 1) / 2 ^ k.
Proof.
  intros Hv Hk.
  destruct (encodeTimeout_spec v Hv) as (k' & Hk' & Heq & Hm & Hmin).
  assert (k' = k); [|subst; exact Heq].
  apply (least_exponent_unique (v - 1)); [lia| |exact Hk].
  unfold least_exponent. intuition lia.
Qed.

(** X2.  [VL53L0X_encodeTimeout] preserves order: a larger clock count never
    encodes to a smaller 16-bit register value. *)
Theorem encodeTimeout_monotone v w :
  0 <= v <= w -> w < 65536 ->
  VL53L0X_encodeTimeout v <= VL53L0X_encodeTimeout w.
Proof.
  intros Hv Hw.
  destruct (Z.eq_dec v 0) as [->|Hne].
  { rewrite (encodeTimeout_zero 0) by reflexivity. apply encodeTimeout_range. }
  destruct (encodeTimeout_spec v ltac:(lia)) as (k1 & Hk1 & -> & Hm1 & Hmin1).
  destruct (encodeTimeout_spec w ltac:(lia)) as (k2 & Hk2 & -> & Hm2 & Hmin2).
  assert (H1 : least_exponent (v - 1) k1) by (unfold least_exponent; intuition lia).
  assert (H2 : least_exponent (w - 1) k2) by (unfold least_exponent; intuition lia).
  pose proof (least_exponent_mono (v - 1) (w - 1) k1 k2 ltac:(lia) H1 H2) as Hle.
  destruct (Z.eq_dec k1 k2) as [->|Hk].
  - assert (Hp : 0 < 2 ^ k2) by (apply Z.pow_pos_nonneg; lia).
    pose proof (Z.div_le_mono (v - 1) (w - 1) (2 ^ k2) Hp ltac:(lia)). lia.
  - nia.
Qed.

(** A register value with an exponent of at most 8 decodes without
    wrap-around. *)
Lemma decodeTimeout_normal k m :
  0 <= k <= 8 -> 0 <= m < 256 ->
  VL53L0X_decodeTimeout (k * 256 + m) = m * 2 ^ k + 1.
Proof.
  intros Hk Hm.
  assert (Hp : 0 < 2 ^ k <= 2 ^ 8)
    by (split; [apply Z.pow_pos_nonneg|apply Z.pow_le_mono_r]; lia).
  change (2 ^ 8) with 256 in Hp.
  rewrite decodeTimeout_mod by lia.
  unfold decode_unbounded.
  replace ((k * 256 + m) / 256) with k by (Z.div_mod_to_equations; lia).
  replace ((k * 256 + m) mod 256) with m by (Z.div_mod_to_equations; lia).
  rewrite Z.shiftl_mul_pow2 by lia.
  apply Z.mod_small. nia.
Qed.

Lemma least_exponent_normal k m :
  0 <= k -> 0 <= m < 256 -> k = 0 \/ 128 <= m ->
  least_exponent (m * 2 ^ k) k.
Proof.
  intros Hk Hm Hn.
  assert (Hp : 0 < 2 ^ k) by (apply Z.pow_pos_nonneg; lia).
  unfold least_exponent. rewrite Z.div_mul by lia.
  split; [lia|]. split; [lia|].
  destruct (Z.eq_dec k 0) as [->|Hne]; [now left|right].
  split; [lia|].
  replace k with (k - 1 + 1) at 1 by lia. rewrite pow2_succ by lia.
  replace (m * (2 * 2 ^ (k - 1))) with (2 * m * 2 ^ (k - 1)) by ring.
  rewrite Z.div_mul; [lia|]. apply Z.pow_nonzero; lia.
Qed.

(** X3.  A 16-bit register value survives decoding and re-encoding exactly
    when it is normalised: its exponent is at most 8 and, unless the exponent
    is 0, its mantissa is at least 128. *)
Theorem encode_decode_normal_form r :
  0 <= r < 65536 ->
  VL53L0X_encodeTimeout (VL53L0X_decodeTimeout r) = r
  <-> r / 256 <= 8 /\ (r / 256 = 0 \/ 128 <= r mod 256).
Proof.
  intros Hr. split.
  - intros Heq.
    destruct (decode_encode_fixed r) as [Hd _]. cbv zeta in Hd.
    destruct (encodeTimeout_spec _ Hd) as (k & Hk & He & Hm & Hmin).
    rewrite Heq in He.
    assert (Hhi : r / 256 = k) by (Z.div_mod_to_equations; lia).
    assert (Hlo : r mod 256 = (VL53L0X_decodeTimeout r - 1) / 2 ^ k)
      by (Z.div_mod_to_equations; lia).
    rewrite Hhi, Hlo. split; [lia|].
    destruct Hmin as [->|[Hpos Hmin]]; [now left|right].
    pose proof (div_pow2_ge (VL53L0X_decodeTimeout r - 1) k ltac:(lia) Hpos Hmin).
    apply Z.div_le_lower_bound; [apply Z.pow_pos_nonneg|]; lia.
  - intros [Hk Hn].
    assert (Hk0 : 0 <= r / 256) by (apply Z.div_pos; lia).
    pose proof (Z.mod_pos_bound r 256 ltac:(lia)) as Hm.
    pose proof (Z.div_mod r 256 ltac:(lia)) as Hdm.
    replace r with (r / 256 * 256 + r mod 256) at 1 by lia.
    rewrite decodeTimeout_normal by lia.
    assert (0 <= r mod 256 * 2 ^ (r / 256) <= 255 * 2 ^ 8).
    { split; [apply Z.mul_nonneg_nonneg; [|apply Z.pow_nonneg]; lia|].
      apply Z.mul_le_mono_nonneg;
        [lia | lia | apply Z.pow_nonneg; lia | apply Z.pow_le_mono_r; lia]. }
    change (2 ^ 8) with 256 in *.
    rewrite (encodeTimeout_least _ (r / 256)).
    + replace (r mod 256 * 2 ^ (r / 256) + 1 - 1) with (r mod 256 * 2 ^ (r / 256)) by lia.
      rewrite Z.div_mul; [lia|]. apply Z.pow_nonzero; lia.
    + lia.
    + replace (r mod 256 * 2 ^ (r / 256) + 1 - 1) with (r mod 256 * 2 ^ (r / 256)) by lia.
      apply least_exponent_normal; lia.
Qed.

(** X4.  Whatever [VL53L0X_encodeTimeout] produces is reproduced when it is
    decoded and encoded again, for every argument. *)
Theorem encodeTimeout_stable v :
  VL53L0X_encodeTimeout (VL53L0X_decodeTimeout (VL53L0X_encodeTimeout v))
  = VL53L0X_encodeTimeout v.
Proof.
  assert (Hw : VL53L0X_encodeTimeout v = VL53L0X_encodeTimeout (wrap16 v)).
  { unfold VL53L0X_encodeTimeout, wrap16. rewrite Z.mod_mod by lia. reflexivity. }
  rewrite Hw. pose proof (wrap16_range v) as Hr. set (u := wrap16 v) in *.
  destruct (Z.eq_dec u 0) as [->|Hne]; [reflexivity|].
  destruct (encodeTimeout_spec u ltac:(lia)) as (k & Hk & -> & Hm & Hmin).
  rewrite decodeTimeout_normal by lia.
  assert (Hp : 0 < 2 ^ k <= 2 ^ 8)
    by (split; [apply Z.pow_pos_nonneg|apply Z.pow_le_mono_r]; lia).
  change (2 ^ 8) with 256 in Hp.
  rewrite (encodeTimeout_least _ k).
  - replace ((u - 1) / 2 ^ k * 2 ^ k + 1 - 1) with ((u - 1) / 2 ^ k * 2 ^ k) by lia.
    rewrite Z.div_mul; lia.
  - nia.
  - replace ((u - 1) / 2 ^ k * 2 ^ k + 1 - 1) with ((u - 1) / 2 ^ k * 2 ^ k) by lia.
    apply least_exponent_normal; try lia.
    destruct Hmin as [->|[Hpos Hmin]]; [now left|right].
    pose proof (div_pow2_ge (u - 1) k ltac:(lia) Hpos Hmin).
    apply Z.div_le_lower_bound; lia.
Qed.

(** X25.  [VL53L0X_decodeTimeout] never returns 0: every decoded timeout lies
    between 1 and 65535, and encoding it and decoding the result returns it
    unchanged. *)
Theorem decodeTimeout_positive reg_val :
  1 <= VL53L0X_decodeTimeout reg_val <= 65535 /\
  VL53L0X_decodeTimeout (VL53L0X_encodeTimeout (VL53L0X_decodeTimeout reg_val))
  = VL53L0X_decodeTimeout reg_val.
Proof.
  destruct (decode_encode_fixed reg_val) as [Hr Hf]. cbv zeta in Hr, Hf.
  split; [lia|exact Hf].
Qed.

(** ** Register round trips *)

(** X5.  After [VL53L0X_writeReg], [VL53L0X_readReg] of the same register
    returns the low byte of the value written, and of any other register what
    it returned before. *)
Theorem writeReg_readReg reg value reg' s :
  fst (VL53L0X_readReg reg' (snd (VL53L0X_writeReg reg value s)))
  = if wrap8 reg' =? wrap8 reg then Some (wrap8 value)
    else fst (VL53L0X_readReg reg' s).
Proof.
  rewrite VL53L0X_writeReg_spec, !VL53L0X_readReg_spec.
  cbn [fst snd]. rewrite bus_on_bus. unfold peek. rewrite regs_write8.
  destruct (wrap8 reg' =? wrap8 reg); [rewrite wrap8_idem|]; reflexivity.
Qed.

Lemma wrap8_succ r : wrap8 (wrap8 r + 1) = wrap8 (r + 1).
Proof. unfold wrap8. Z.div_mod_to_equations. lia. Qed.

(** X6.  After [VL53L0X_writeReg16Bit], [VL53L0X_readReg16Bit] of the same
    register returns the value reduced to 16 bits; the register itself holds
    the high byte and its successor the low byte. *)
Theorem writeReg16Bit_readReg16Bit reg value s :
  let s' := snd (VL53L0X_writeReg16Bit reg value s) in
  fst (VL53L0X_readReg16Bit reg s') = Some (wrap16 value) /\
  fst (VL53L0X_readReg reg s') = Some (wrap16 value / 256) /\
  fst (VL53L0X_readReg (reg + 1) s') = Some (wrap16 value mod 256).
Proof.
  intros s'. subst s'.
  rewrite VL53L0X_writeReg16Bit_spec, VL53L0X_readReg16Bit_spec, !VL53L0X_readReg_spec.
  cbn [fst snd]. rewrite bus_on_bus, peek16_write16_same.
  split; [reflexivity|].
  unfold peek. rewrite !regs_write16. rewrite <- (wrap8_succ reg). rewrite Z.eqb_refl.
  pose proof (wrap8_succ_neq reg) as Hne.
  destruct (Z.eqb_spec (wrap8 reg) (wrap8 (wrap8 reg + 1))) as [E|_];
    [contradiction|].
  rewrite Z.eqb_refl, !wrap8_idem.
  pose proof (wrap16_range value) as Hv. set (v := wrap16 value) in *.
  rewrite land_low_byte, Z.shiftr_div_pow2 by lia. change (2 ^ 8) with 256.
  unfold wrap8. rewrite Z.mod_mod by lia.
  split; [|reflexivity].
  rewrite Z.mod_small; [reflexivity|].
  split; [apply Z.div_pos|apply Z.div_lt_upper_bound]; lia.
Qed.

(** Or-ing below a shift is adding. *)
Lemma lor_shiftl_add n k l :
  0 <= n -> 0 <= k -> 0 <= l < 2 ^ n -> Z.lor (Z.shiftl k n) l = k * 2 ^ n + l.
Proof.
  intros Hn Hk Hl.
  rewrite Z.shiftl_mul_pow2 by lia.
  assert (Hd : Z.land (k * 2 ^ n) l = 0).
  { apply Z.bits_inj'; intros i Hi. rewrite Z.land_spec, Z.bits_0.
    destruct (Z.ltb_spec i n) as [Hlt|Hge].
    - rewrite Z.mul_pow2_bits_low by assumption. reflexivity.
    - destruct (Z.eq_dec l 0) as [->|Hnz];
        [rewrite Z.bits_0; apply andb_false_r|].
      rewrite (Z.bits_above_log2 l i), andb_false_r; [reflexivity|lia|].
      apply Z.lt_le_trans with n; [apply Z.log2_lt_pow2; lia|assumption]. }
  rewrite <- Z.lxor_lor, <- Z.add_nocarry_lxor by assumption. reflexivity.
Qed.

Lemma bytes_to_word b3 b2 b1 b0 :
  0 <= b3 < 256 -> 0 <= b2 < 256 -> 0 <= b1 < 256 -> 0 <= b0 < 256 ->
  wrap32 (Z.lor (wrap32 (Z.lor (wrap32 (Z.lor (wrap32 (Z.shiftl b3 24))
                                              (wrap32 (Z.shiftl b2 16))))
                               (wrap32 (Z.shiftl b1 8))))
                (wrap32 b0))
  = b3 * 16777216 + b2 * 65536 + b1 * 256 + b0.
Proof.
  intros H3 H2 H1 H0.
  set (rhs := b3 * 16777216 + b2 * 65536 + b1 * 256 + b0).
  rewrite (Z.shiftl_mul_pow2 b2), (Z.shiftl_mul_pow2 b1) by lia.
  change (2 ^ 16) with 65536. change (2 ^ 8) with 256.
  rewrite (wrap32_small (Z.shiftl b3 24))
    by (rewrite Z.shiftl_mul_pow2 by lia; change (2 ^ 24) with 16777216; lia).
  rewrite (wrap32_small (b2 * 65536)), (wrap32_small (b1 * 256)), (wrap32_small b0)
    by lia.
  rewrite (lor_shiftl_add 24 b3 (b2 * 65536))
    by (try lia; change (2 ^ 24) with 16777216; lia).
  change (2 ^ 24) with 16777216.
  rewrite (wrap32_small (b3 * 16777216 + b2 * 65536)) by lia.
  replace (b3 * 16777216 + b2 * 65536) with ((b3 * 256 + b2) * 2 ^ 16)
    by (change (2 ^ 16) with 65536; ring).
  rewrite <- (Z.shiftl_mul_pow2 (b3 * 256 + b2) 16) by lia.
  rewrite (lor_shiftl_add 16 (b3 * 256 + b2) (b1 * 256))
    by (try lia; change (2 ^ 16) with 65536; lia).
  change (2 ^ 16) with 65536.
  rewrite (wrap32_small ((b3 * 256 + b2) * 65536 + b1 * 256)) by lia.
  replace ((b3 * 256 + b2) * 65536 + b1 * 256)
    with (((b3 * 256 + b2) * 256 + b1) * 2 ^ 8)
    by (change (2 ^ 8) with 256; ring).
  rewrite <- (Z.shiftl_mul_pow2 ((b3 * 256 + b2) * 256 + b1) 8) by lia.
  rewrite (lor_shiftl_add 8 ((b3 * 256 + b2) * 256 + b1) b0)
    by (try lia; change (2 ^ 8) with 256; lia).
  change (2 ^ 8) with 256.
  subst rhs. rewrite wrap32_small; lia.
Qed.

Lemma VL53L0X_readReg32Bit_spec reg s :
  fst (VL53L0X_readReg32Bit reg s)
  = Some (peek (bus s) reg * 16777216 + peek (bus s) (reg + 1) * 65536
          + peek (bus s) (reg + 2) * 256 + peek (bus s) (reg + 3)).
Proof.
  unfold VL53L0X_readReg32Bit, function, bind, call, ret, i2c_write, i2c_read, peek.
  cbn [bus_write bus_read store_bytes set_index advance regs index stores hnd bus nth
       fst snd].
  rewrite bytes_to_word by apply wrap8_range.
  rewrite !wrap8_idem.
  replace (wrap8 (wrap8 (wrap8 reg + 1) + 1)) with (wrap8 (reg + 2))
    by (unfold wrap8; Z.div_mod_to_equations; lia).
  replace (wrap8 (wrap8 (reg + 2) + 1)) with (wrap8 (reg + 3))
    by (unfold wrap8; Z.div_mod_to_equations; lia).
  rewrite wrap8_succ. reflexivity.
Qed.

Lemma regs_writeReg32Bit reg value s a :
  let v := wrap32 value in
  regs (bus (snd (VL53L0X_writeReg32Bit reg value s))) a
  = if a =? wrap8 (reg + 3) then v mod 256
    else if a =? wrap8 (reg + 2) then v / 256 mod 256
    else if a =? wrap8 (reg + 1) then v / 65536 mod 256
    else if a =? wrap8 reg then v / 16777216 mod 256
    else regs (bus s) a.
Proof.
  intros v. subst v.
  unfold VL53L0X_writeReg32Bit, function, bind, call, ret, i2c_write.
  cbn [bus_write store_bytes set_index advance store regs index stores hnd bus fst snd].
  rewrite !wrap8_idem.
  replace (wrap8 (wrap8 (wrap8 reg + 1) + 1)) with (wrap8 (reg + 2))
    by (unfold wrap8; Z.div_mod_to_equations; lia).
  replace (wrap8 (wrap8 (reg + 2) + 1)) with (wrap8 (reg + 3))
    by (unfold wrap8; Z.div_mod_to_equations; lia).
  rewrite wrap8_succ, land_low_byte, !Z.shiftr_div_pow2 by lia.
  change (2 ^ 8) with 256. change (2 ^ 16) with 65536.
  change (2 ^ 24) with 16777216.
  unfold wrap8. rewrite Z.mod_mod by lia. reflexivity.
Qed.

Lemma peek16_bytes d reg :
  peek16 d reg = peek d reg * 256 + peek d (reg + 1).
Proof.
  unfold peek16.
  assert (E : peek d (wrap8 reg + 1) = peek d (reg + 1))
    by (unfold peek; rewrite wrap8_succ; reflexivity).
  rewrite E.
  assert (H0 : 0 <= peek d reg < 256) by apply wrap8_range.
  assert (H1 : 0 <= peek d (reg + 1) < 256) by apply wrap8_range.
  rewrite (wrap16_small (peek d (reg + 1))) by lia.
  rewrite (wrap16_small (Z.shiftl (peek d reg) 8))
    by (rewrite Z.shiftl_mul_pow2 by lia; change (2 ^ 8) with 256; lia).
  rewrite lor_shift8 by lia. apply wrap16_small. lia.
Qed.

Lemma wrap8_offset_neq reg i j :
  0 <= i < 256 -> 0 <= j < 256 -> i <> j -> wrap8 (reg + i) <> wrap8 (reg + j).
Proof. unfold wrap8. intros. Z.div_mod_to_equations. lia. Qed.

Ltac offsets reg :=
  replace (wrap8 reg) with (wrap8 (reg + 0)) by (f_equal; lia);
  repeat match goal with
  | |- context [wrap8 (reg + ?i + ?j)] =>
      replace (reg + i + j) with (reg + (i + j)) by lia; simpl (i + j)
  end;
  repeat match goal with
  | |- context [wrap8 (reg + ?i) =? wrap8 (reg + ?j)] =>
      first
        [ unify i j; rewrite (Z.eqb_refl (wrap8 (reg + i)))
        | let E := fresh in
          destruct (Z.eqb_spec (wrap8 (reg + i)) (wrap8 (reg + j))) as [E|_];
          [exfalso; revert E; apply wrap8_offset_neq; lia|] ]
  end.

(** The four bytes [VL53L0X_writeReg32Bit] leaves, most significant first. *)
Lemma word_after_writeReg32Bit reg value s :
  let d := bus (snd (VL53L0X_writeReg32Bit reg value s)) in
  peek d reg * 16777216 + peek d (reg + 1) * 65536
  + peek d (reg + 2) * 256 + peek d (reg + 3) = wrap32 value /\
  peek d reg * 256 + peek d (reg + 1) = wrap32 value / 65536 /\
  peek d (reg + 2) * 256 + peek d (reg + 2 + 1) = wrap32 value mod 65536.
Proof.
  intros d. subst d. unfold peek.
  rewrite !regs_writeReg32Bit.
  pose proof (wrap32_range value) as Hv. set (v := wrap32 value) in *.
  offsets reg. unfold wrap8. rewrite !Z.mod_mod by lia.
  repeat split; Z.div_mod_to_equations; lia.
Qed.

(** X7.  After [VL53L0X_writeReg32Bit], [VL53L0X_readReg32Bit] of the same
    register returns the value reduced to 32 bits; a 16-bit read of the
    register returns its high half and of the register two further its low
    half. *)
Theorem writeReg32Bit_readReg32Bit reg value s :
  let s' := snd (VL53L0X_writeReg32Bit reg value s) in
  fst (VL53L0X_readReg32Bit reg s') = Some (wrap32 value) /\
  fst (VL53L0X_readReg16Bit reg s') = Some (wrap32 value / 65536) /\
  fst (VL53L0X_readReg16Bit (reg + 2) s') = Some (wrap32 value mod 65536).
Proof.
  intros s'.
  rewrite VL53L0X_readReg32Bit_spec, !VL53L0X_readReg16Bit_spec.
  cbn [fst]. rewrite !peek16_bytes. subst s'.
  destruct (word_after_writeReg32Bit reg value s) as (H32 & Hhi & Hlo).
  cbv zeta in H32, Hhi, Hlo. rewrite H32, Hhi, Hlo. repeat split.
Qed.

(** ** Multi-byte transfers *)

Lemma bus_read_bytes n :
  forall d,
    0 <= index d < 256 ->
    fst (bus_read n d)
    = map (fun k => wrap8 (regs d (wrap8 (index d + Z.of_nat k)))) (seq 0 n) /\
    regs (snd (bus_read n d)) = regs d /\
    stores (snd (bus_read n d)) = stores d.
Proof.
  induction n as [|n IH]; intros d Hi.
  - repeat split.
  - cbn [bus_read].
    specialize (IH (advance d) ltac:(apply wrap8_range)).
    destruct (bus_read n (advance d)) as [bs d'] eqn:E.
    cbn [fst snd] in *. destruct IH as (IH & Hr & Hs).
    split; [|split; [exact Hr|exact Hs]].
    cbn [seq map]. f_equal.
    + change (Z.of_nat 0) with 0.
      rewrite Z.add_0_r, (wrap8_small (index d)) by assumption. reflexivity.
    + rewrite IH, <- seq_shift, map_map. apply map_ext. intros k.
      cbn [advance set_index regs index]. f_equal. f_equal.
      unfold wrap8. rewrite Nat2Z.inj_succ. Z.div_mod_to_equations. lia.
Qed.

(** X8.  [VL53L0X_readMulti] returns the bytes of [count] consecutive
    registers from [reg] on, the address wrapping after 255; it stores
    nothing and leaves the handle alone. *)
Theorem readMulti_registers reg count s :
  let result := VL53L0X_readMulti reg count s in
  fst result
  = Some (map (fun k => peek (bus s) (reg + Z.of_nat k)) (seq 0 count)) /\
  regs (bus (snd result)) = regs (bus s) /\
  stores (bus (snd result)) = stores (bus s) /\
  hnd (snd result) = hnd s.
Proof.
  intros result. subst result.
  unfold VL53L0X_readMulti, function, bind, call, ret, i2c_write, i2c_read.
  cbn [bus_write store_bytes hnd bus]. rewrite wrap8_idem.
  pose proof (bus_read_bytes count (set_index (wrap8 reg) (bus s))
                             ltac:(apply wrap8_range)) as (Hb & Hr & Hs).
  destruct (bus_read count (set_index (wrap8 reg) (bus s))) as [bs d'].
  cbn [fst snd hnd bus] in *.
  repeat split; try assumption.
  rewrite Hb. f_equal. apply map_ext. intros k.
  unfold peek. cbn [set_index regs index]. f_equal. f_equal.
  unfold wrap8. Z.div_mod_to_equations. lia.
Qed.

Lemma store_bytes_stores data :
  forall d,
    0 <= index d < 256 ->
    stores (store_bytes data d)
    = stores d
      ++ combine (map (fun k => wrap8 (index d + Z.of_nat k)) (seq 0 (length data)))
                 (map wrap8 data).
Proof.
  induction data as [|b rest IH]; intros d Hi.
  - cbn. rewrite app_nil_r. reflexivity.
  - cbn [store_bytes length seq map combine].
    rewrite IH by apply wrap8_range.
    cbn [advance set_index store stores index].
    rewrite <- app_assoc. cbn [app]. f_equal. f_equal.
    + change (Z.of_nat 0) with 0.
      rewrite Z.add_0_r, (wrap8_small (index d)) by assumption. reflexivity.
    + rewrite <- seq_shift, map_map. f_equal. apply map_ext. intros k.
      unfold wrap8. rewrite Nat2Z.inj_succ. Z.div_mod_to_equations. lia.
Qed.

(** X9.  [VL53L0X_writeMulti] sends the register index and the bytes as two
    bus writes, and the sensor takes the first byte of a bus write for an
    index: with no byte nothing is stored, and otherwise the bytes after the
    first are stored from the address the first byte names on.  The first
    byte is never stored and [reg] plays no part. *)
Theorem writeMulti_stores reg s :
  stores_since s (snd (VL53L0X_writeMulti reg [] s)) = [] /\
  forall first rest,
    stores_since s (snd (VL53L0X_writeMulti reg (first :: rest) s))
    = combine (map (fun k => wrap8 (first + Z.of_nat k)) (seq 0 (length rest)))
              (map wrap8 rest).
Proof.
  split.
  - apply stores_since_app. cbn. rewrite app_nil_r. reflexivity.
  - intros first rest. apply stores_since_app.
    unfold VL53L0X_writeMulti, function, bind, call, ret, i2c_write.
    cbn [bus_write store_bytes hnd bus snd].
    rewrite store_bytes_stores by apply wrap8_range.
    cbn [set_index stores index]. f_equal. f_equal. apply map_ext. intros k.
    unfold wrap8. Z.div_mod_to_equations. lia.
Qed.

(** ** The handle: address and signal rate limit *)

(** X11.  [VL53L0X_setAddress] stores the low seven bits of the new address
    in the sensor and the whole byte in the handle: the two agree exactly
    when the address is below 128. *)
Theorem setAddress_masks rr new_addr s :
  let s' := snd (VL53L0X_setAddress rr new_addr s) in
  fst (VL53L0X_readReg (I2C_SLAVE_DEVICE_ADDRESS rr) s') = Some (wrap8 new_addr mod 128) /\
  address (hnd s') = wrap8 new_addr /\
  (fst (VL53L0X_readReg (I2C_SLAVE_DEVICE_ADDRESS rr) s') = Some (address (hnd s'))
   <-> wrap8 new_addr < 128).
Proof.
  intros s'.
  pose proof (wrap8_range new_addr) as Hr.
  pose proof (Z.mod_pos_bound (wrap8 new_addr) 128 ltac:(lia)) as Hm.
  assert (Hread : fst (VL53L0X_readReg (I2C_SLAVE_DEVICE_ADDRESS rr) s')
                  = Some (wrap8 new_addr mod 128)).
  { subst s'. unfold VL53L0X_setAddress, function.
    rewrite bind_call, VL53L0X_writeReg_spec. cbv beta iota.
    unfold bind, set_dev. cbn [snd]. rewrite VL53L0X_readReg_spec. cbn [fst hnd bus].
    unfold on_bus. cbn [bus]. rewrite peek_write8_same.
    change 0x7F with (Z.ones 7). rewrite Z.land_ones by lia. change (2 ^ 7) with 128.
    rewrite (wrap8_small (wrap8 new_addr mod 128)) by lia. reflexivity. }
  assert (Haddr : address (hnd s') = wrap8 new_addr) by reflexivity.
  rewrite Hread, Haddr.
  split; [reflexivity|]. split; [reflexivity|]. split.
  - intros E. injection E as E. lia.
  - intros Hlt. rewrite Z.mod_small by lia. reflexivity.
Qed.

(** X12.  [VL53L0X_getSignalRateLimit] returns the 16-bit limit register
    divided by 32; after [VL53L0X_setSignalRateLimit], which always succeeds,
    it returns 1. *)
Theorem signalRateLimit_round_trip rr s :
  fst (VL53L0X_getSignalRateLimit rr s)
  = Some (peek16 (bus s) (FINAL_RANGE_CONFIG_MIN_COUNT_RATE_RTN_LIMIT rr) / 32) /\
  fst (VL53L0X_setSignalRateLimit rr s) = Some true /\
  fst (VL53L0X_getSignalRateLimit rr (snd (VL53L0X_setSignalRateLimit rr s)))
  = Some 1.
Proof.
  assert (Hget : forall s0,
    fst (VL53L0X_getSignalRateLimit rr s0)
    = Some (peek16 (bus s0) (FINAL_RANGE_CONFIG_MIN_COUNT_RATE_RTN_LIMIT rr) / 32)).
  { intros s0. unfold VL53L0X_getSignalRateLimit, function.
    rewrite bind_call, VL53L0X_readReg16Bit_spec. cbv beta iota.
    unfold ret. cbn [fst]. f_equal.
    pose proof (wrap16_range
      (Z.lor (wrap16 (Z.shiftl (peek (bus s0)
                (FINAL_RANGE_CONFIG_MIN_COUNT_RATE_RTN_LIMIT rr)) 8))
             (wrap16 (peek (bus s0)
                (wrap8 (FINAL_RANGE_CONFIG_MIN_COUNT_RATE_RTN_LIMIT rr) + 1))))) as Hr.
    unfold peek16. change (Z.shiftl 1 7) with 128.
    set (v := wrap16 _) in *. clearbody v.
    unfold wrap16. Z.div_mod_to_equations. lia. }
  split; [apply Hget|]. split; [reflexivity|].
  rewrite Hget. unfold VL53L0X_setSignalRateLimit, function.
  rewrite bind_call, VL53L0X_writeReg16Bit_spec. cbv beta iota.
  unfold ret. cbn [snd]. rewrite bus_on_bus, peek16_write16_same. reflexivity.
Qed.

(** ** The reported timing budget *)

Section Reporting.

Variable rm : RegisterMap.

Lemma reported_budget_range en tm :
  0 <= msrc_dss_tcc_us tm <= 4294967 ->
  0 <= pre_range_us tm <= 4294967 ->
  0 <= final_range_us tm <= 4294967 ->
  reported_budget en tm = steps_cost en tm + 590
                          + (if final_range en then final_range_us tm + 550 else 0) /\
  2870 <= reported_budget en tm <= 21481915.
Proof.
  intros Hm Hp Hf. unfold reported_budget, steps_cost.
  destruct (tcc en), (dss en), (msrc en), (pre_range en), (final_range en); lia.
Qed.

(** The getter in closed form. *)
Lemma getMeasurementTimingBudget_spec s :
  let en := enables_of rm (bus s) in
  let tm := timeouts_of rm en (bus s) in
  VL53L0X_getMeasurementTimingBudget rm s
  = (Some (reported_budget en tm),
     on_hnd (with_budget (reported_budget en tm))
       (on_bus (set_index
          (wrap8 (wrap8 (wrap8 (FINAL_RANGE_CONFIG_TIMEOUT_MACROP_HI rm) + 1) + 1)))
          s)).
Proof.
  intros en tm.
  unfold VL53L0X_getMeasurementTimingBudget, function.
  rewrite bind_call, getSequenceStepEnables_spec. cbv beta iota.
  rewrite bind_call, getSequenceStepTimeouts_spec. cbv beta iota.
  rewrite ?bus_on_bus, ?timeouts_of_set_index, ?enables_of_set_index.
  fold en. fold tm.
  assert (Hm : 0 <= msrc_dss_tcc_us tm <= 4294967)
    by apply timeoutMclksToMicroseconds_range.
  assert (Hp : 0 <= pre_range_us tm <= 4294967)
    by apply timeoutMclksToMicroseconds_range.
  assert (Hf : 0 <= final_range_us tm <= 4294967).
  { subst tm. unfold timeouts_of. cbn [final_range_us].
    apply timeoutMclksToMicroseconds_range. }
  clearbody tm. clearbody en.
  match goal with
  | |- context [with_budget ?E] =>
      replace E with (reported_budget en tm)
        by (unfold reported_budget, EndOverhead, TccOverhead,
              DssOverhead, MsrcOverhead, PreRangeOverhead, FinalRangeOverhead;
            destruct (tcc en), (dss en), (msrc en), (pre_range en), (final_range en);
            cbv iota zeta; unwrap32; lia)
  end.
  reflexivity.
Qed.

(** X13.  [VL53L0X_getMeasurementTimingBudget] returns the sum of a start
    overhead of 1910, the end overhead and the enabled steps' costs and
    overheads, without 32-bit wrap-around; that is 590 more than the
    allocator counts for the same steps, plus the final-range cost and
    overhead when that step is enabled.  It caches the sum in the handle and
    stores nothing in the sensor. *)
Theorem getMeasurementTimingBudget_reports s en s1 tm s2 :
  VL53L0X_getSequenceStepEnables rm s = (Some en, s1) ->
  VL53L0X_getSequenceStepTimeouts rm en s1 = (Some tm, s2) ->
  let result := VL53L0X_getMeasurementTimingBudget rm s in
  fst result = Some (reported_budget en tm) /\
  2870 <= reported_budget en tm <= 21481915 /\
  reported_budget en tm
  = steps_cost en tm + 590
    + (if final_range en then final_range_us tm + 550 else 0) /\
  measurement_timing_budget_us (hnd (snd result)) = reported_budget en tm /\
  stores_since s (snd result) = [] /\
  regs (bus (snd result)) = regs (bus s).
Proof.
  intros Hen Htm result. subst result.
  destruct (read_steps rm s en s1 tm s2 Hen Htm) as [-> ->].
  rewrite getMeasurementTimingBudget_spec. cbn [fst snd].
  set (en := enables_of rm (bus s)). set (tm := timeouts_of rm en (bus s)).
  assert (Hf : 0 <= final_range_us tm <= 4294967).
  { subst tm. unfold timeouts_of. cbn [final_range_us].
    apply timeoutMclksToMicroseconds_range. }
  destruct (reported_budget_range en tm) as [Heq Hr];
    try apply timeoutMclksToMicroseconds_range; try assumption.
  split; [reflexivity|]. split; [exact Hr|]. split; [exact Heq|].
  split; [reflexivity|]. split; [|reflexivity].
  apply stores_since_app. cbn. rewrite app_nil_r. reflexivity.
Qed.

(** X14.  A budget of at least 20000 that the getter reports is accepted by
    [VL53L0X_setMeasurementTimingBudget] called next.  With the final range
    enabled the budget is cached and the timeout written is computed from the
    final-range time read before plus 590 microseconds, the difference of the
    two start overheads. *)
Theorem setMeasurementTimingBudget_accepts_reported s en s1 tm s2 g s' :
  VL53L0X_getSequenceStepEnables rm s = (Some en, s1) ->
  VL53L0X_getSequenceStepTimeouts rm en s1 = (Some tm, s2) ->
  VL53L0X_getMeasurementTimingBudget rm s = (Some g, s') ->
  20000 <= g ->
  let result := VL53L0X_setMeasurementTimingBudget rm g s' in
  fst result = Some true /\
  (final_range en = true ->
   measurement_timing_budget_us (hnd (snd result)) = g /\
   peek16 (bus (snd result)) (FINAL_RANGE_CONFIG_TIMEOUT_MACROP_HI rm)
   = VL53L0X_encodeTimeout
       (let mclks := wrap16 (VL53L0X_timeoutMicrosecondsToMclks
                               (final_range_us tm + 590)
                               (final_range_vcsel_period_pclks tm)) in
        if pre_range en then wrap16 (mclks + pre_range_mclks tm) else mclks)).
Proof.
  intros Hen Htm Hget Hmin result. subst result.
  destruct (read_steps rm s en s1 tm s2 Hen Htm) as [Een Etm].
  rewrite getMeasurementTimingBudget_spec in Hget.
  rewrite <- Een, <- Etm in Hget. injection Hget as Hg Hs'.
  assert (Hf : 0 <= final_range_us tm <= 4294967).
  { rewrite Etm. unfold timeouts_of. cbn [final_range_us].
    apply timeoutMclksToMicroseconds_range. }
  assert (Hm : 0 <= msrc_dss_tcc_us tm <= 4294967)
    by (rewrite Etm; apply timeoutMclksToMicroseconds_range).
  assert (Hp : 0 <= pre_range_us tm <= 4294967)
    by (rewrite Etm; apply timeoutMclksToMicroseconds_range).
  destruct (reported_budget_range en tm Hm Hp Hf) as [Heq Hr].
  rewrite setMeasurementTimingBudget_spec. cbv zeta.
  rewrite (wrap32_small g) by lia.
  assert (Hen' : enables_of rm (bus s') = en) by (rewrite <- Hs', Een; reflexivity).
  assert (Htm' : timeouts_of rm en (bus s') = tm)
    by (rewrite <- Hs', Etm, Een; reflexivity).
  rewrite Hen', Htm'.
  apply Z.ltb_ge in Hmin. rewrite Hmin.
  unfold allocated_final_mclks, used_budget.
  destruct (final_range en) eqn:Hfin.
  - assert (Hgt : (steps_cost en tm + 550 >? g) = false).
    { rewrite Z.gtb_ltb. apply Z.ltb_ge. lia. }
    rewrite Hgt. cbn [fst snd]. split; [reflexivity|]. intros _.
    split; [reflexivity|].
    unfold on_hnd. cbn [bus]. rewrite bus_on_bus, peek16_write16_same.
    replace (g - (steps_cost en tm + 550)) with (final_range_us tm + 590) by lia.
    apply wrap16_small. apply encodeTimeout_range.
  - split; [reflexivity|]. intros H. discriminate H.
Qed.

(** X15.  [VL53L0X_setMeasurementTimingBudget] always returns; when it
    returns [false] it has stored nothing and left the registers and the
    handle as they were; and whatever it stores goes to the two bytes of the
    final-range timeout. *)
Theorem setMeasurementTimingBudget_stores budget_us s :
  let result := VL53L0X_setMeasurementTimingBudget rm budget_us s in
  fst result <> None /\
  (fst result = Some false ->
   stores_since s (snd result) = [] /\
   regs (bus (snd result)) = regs (bus s) /\
   hnd (snd result) = hnd s) /\
  (forall a v,
      In (a, v) (stores_since s (snd result)) ->
      In a (both_bytes (FINAL_RANGE_CONFIG_TIMEOUT_MACROP_HI rm))).
Proof.
  intros result. subst result.
  rewrite setMeasurementTimingBudget_spec. cbv zeta.
  assert (Hnil : forall i, stores_since s (on_bus (set_index i) s) = []).
  { intros i. apply stores_since_app. cbn. rewrite app_nil_r. reflexivity. }
  assert (Hnil' : stores_since s s = []).
  { apply stores_since_app. rewrite app_nil_r. reflexivity. }
  destruct (wrap32 budget_us <? 20000).
  { cbn [fst snd]. rewrite Hnil'. repeat split; try discriminate.
    intros a v []. }
  destruct (final_range _).
  - destruct (used_budget _ _ >? _).
    + cbn [fst snd]. rewrite Hnil. repeat split; try discriminate.
      intros a v [].
    + cbn [fst snd]. split; [discriminate|]. split; [discriminate|].
      intros a v. erewrite stores_since_app
        by (unfold on_hnd; cbn [bus]; rewrite bus_on_bus; apply stores_write16).
      unfold both_bytes. cbn [In].
      intros [E|[E|[]]]; injection E as <- _; tauto.
  - cbn [fst snd]. rewrite Hnil. repeat split; try discriminate.
    intros a v [].
Qed.

End Reporting.

Section Reapplication.

Variable rm : RegisterMap.

(** A write of the final-range timeout changes none of the other values the
    budget computation reads. *)
Lemma timing_reads_write16_final v d :
  timing_registers_isolated rm ->
  let d' := write16 (FINAL_RANGE_CONFIG_TIMEOUT_MACROP_HI rm) v d in
  enables_of rm d' = enables_of rm d /\
  forall en,
    msrc_dss_tcc_us (timeouts_of rm en d') = msrc_dss_tcc_us (timeouts_of rm en d) /\
    pre_range_us (timeouts_of rm en d') = pre_range_us (timeouts_of rm en d) /\
    pre_range_mclks (timeouts_of rm en d') = pre_range_mclks (timeouts_of rm en d) /\
    final_range_vcsel_period_pclks (timeouts_of rm en d')
    = final_range_vcsel_period_pclks (timeouts_of rm en d).
Proof.
  intros Hiso d'.
  assert (Hp : forall r,
    In (wrap8 r)
       (map wrap8 [SYSTEM_SEQUENCE_CONFIG rm; PRE_RANGE_CONFIG_VCSEL_PERIOD rm;
                   FINAL_RANGE_CONFIG_VCSEL_PERIOD rm;
                   MSRC_CONFIG_TIMEOUT_MACROP rm]
        ++ both_bytes (PRE_RANGE_CONFIG_TIMEOUT_MACROP_HI rm)) ->
    peek d' r = peek d r).
  { intros r Hin. apply peek_write16_other. apply (Hiso _ Hin). }
  assert (H16 : peek16 d' (PRE_RANGE_CONFIG_TIMEOUT_MACROP_HI rm)
                = peek16 d (PRE_RANGE_CONFIG_TIMEOUT_MACROP_HI rm)).
  { unfold peek16. rewrite !Hp; [reflexivity| |].
    - rewrite wrap8_succ, <- wrap8_succ. cbn. tauto.
    - cbn. tauto. }
  split.
  - unfold enables_of. rewrite Hp by (cbn; tauto). reflexivity.
  - intros en. unfold timeouts_of, period_of.
    cbn [msrc_dss_tcc_us pre_range_us pre_range_mclks final_range_vcsel_period_pclks].
    rewrite H16, !Hp by (cbn; tauto). repeat split.
Qed.

Lemma regs_write16_twice reg v d a :
  regs (write16 reg v (write16 reg v d)) a = regs (write16 reg v d) a.
Proof.
  rewrite !regs_write16.
  destruct (a =? wrap8 (wrap8 reg + 1)); [reflexivity|].
  destruct (a =? wrap8 reg); reflexivity.
Qed.

(** X16.  Applying the same budget a second time gives the same result and
    leaves every register and the handle as the first application left
    them. *)
Theorem setMeasurementTimingBudget_idempotent budget_us s :
  timing_registers_isolated rm ->
  let once := VL53L0X_setMeasurementTimingBudget rm budget_us s in
  let twice := VL53L0X_setMeasurementTimingBudget rm budget_us (snd once) in
  fst twice = fst once /\
  (forall a, regs (bus (snd twice)) a = regs (bus (snd once)) a) /\
  hnd (snd twice) = hnd (snd once).
Proof.
  intros Hiso once twice. subst twice once.
  rewrite (setMeasurementTimingBudget_spec rm budget_us s). cbv zeta.
  set (en := enables_of rm (bus s)). set (tm := timeouts_of rm en (bus s)).
  set (b := wrap32 budget_us).
  destruct (b <? 20000) eqn:Hmin.
  { cbn [snd fst]. rewrite setMeasurementTimingBudget_spec. cbv zeta.
    fold b. rewrite Hmin. repeat split. }
  destruct (final_range en) eqn:Hfin.
  - destruct (used_budget en tm >? b) eqn:Hgt.
    + cbn [snd fst]. rewrite setMeasurementTimingBudget_spec. cbv zeta.
      rewrite bus_on_bus, enables_of_set_index, timeouts_of_set_index.
      fold en. fold tm. fold b. rewrite Hmin, Hfin, Hgt. repeat split.
    + cbn [snd fst].
      match goal with
      | |- context [write16 _ ?v] => set (v0 := v)
      end.
      set (s1 := on_hnd (with_budget b)
                   (on_bus (write16 (FINAL_RANGE_CONFIG_TIMEOUT_MACROP_HI rm) v0) s)).
      assert (Hb1 : bus s1
                    = write16 (FINAL_RANGE_CONFIG_TIMEOUT_MACROP_HI rm) v0 (bus s))
        by reflexivity.
      rewrite (setMeasurementTimingBudget_spec rm budget_us s1). cbv zeta.
      rewrite !Hb1.
      destruct (timing_reads_write16_final v0 (bus s) Hiso) as [Een Htm].
      cbv zeta in Een, Htm. rewrite Een. fold en.
      destruct (Htm en) as (Hm & Hp & Hpm & Hfp). fold tm in Hm, Hp, Hpm, Hfp.
      fold b. rewrite Hmin, Hfin.
      assert (Hub : used_budget en
                      (timeouts_of rm en
                         (write16 (FINAL_RANGE_CONFIG_TIMEOUT_MACROP_HI rm) v0 (bus s)))
                    = used_budget en tm)
        by (unfold used_budget, steps_cost; rewrite Hm, Hp; reflexivity).
      unfold allocated_final_mclks. rewrite Hub, Hpm, Hfp, Hgt.
      cbn [fst snd]. split; [reflexivity|]. split; [|reflexivity].
      intros a. unfold on_hnd, on_bus. cbn [bus hnd]. rewrite Hb1.
      apply regs_write16_twice.
  - cbn [snd fst]. rewrite setMeasurementTimingBudget_spec. cbv zeta.
    rewrite bus_on_bus, enables_of_set_index.
    fold en. fold b. rewrite Hmin, Hfin. repeat split.
Qed.

End Reapplication.

(** ** Reading back what a period change wrote *)

Lemma snd_function {T} (body : stmt T T) s : snd (function body s) = snd (body s).
Proof. unfold function. destruct (body s) as [[t|t|] s']; reflexivity. Qed.

Lemma fst_function_true (body : stmt bool bool) s :
  fst (function body s) = Some true ->
  body s = (Normal true, snd (body s)) \/ body s = (Return true, snd (body s)).
Proof.
  unfold function. destruct (body s) as [[t|t|] s']; cbn [fst snd]; intros H;
    [left|right|discriminate]; congruence.
Qed.

Lemma peek_write8_other reg v d r :
  wrap8 r <> wrap8 reg -> peek (write8 reg v d) r = peek d r.
Proof.
  intros Hne. unfold peek. rewrite regs_write8.
  destruct (Z.eqb_spec (wrap8 r) (wrap8 reg)); [contradiction|reflexivity].
Qed.

Ltac run_calls :=
  repeat first
    [ rewrite bind_call
    | rewrite bind_get_dev
    | rewrite VL53L0X_readReg_spec
    | rewrite VL53L0X_readReg16Bit_spec
    | rewrite VL53L0X_writeReg_spec
    | rewrite VL53L0X_writeReg16Bit_spec
    | progress cbv beta iota ].

(** Registers apart from the listed ones read the same through a chain of
    register writes; [Hiso] is the negated membership, unfolded. *)
Ltac apart Hiso :=
  rewrite ?bus_on_bus;
  repeat first
    [ rewrite peek_set_index
    | rewrite peek_write8_other
        by (let E := fresh in intros E; apply Hiso; rewrite E; tauto)
    | rewrite peek_write16_other
        by (let E := fresh in
            cbn [In]; intros [E|[E|[]]]; apply Hiso; rewrite <- E; tauto) ].

Section Readback.

Variable rm : RegisterMap.

(** The closing part changes none but its own registers. *)
Lemma reapply_and_recalibrate_frame fuel s reg :
  ~ In (wrap8 reg) (written_by_reapply rm) ->
  peek (bus (snd (reapply_and_recalibrate rm fuel s))) reg = peek (bus s) reg.
Proof.
  intros Hiso. unfold reapply_and_recalibrate. rewrite bind_get_dev, bind_call.
  destruct (setMeasurementTimingBudget_effect rm
              (measurement_timing_budget_us (hnd s)) s)
    as (r & s1 & -> & _ & Hframe).
  assert (H1 : peek (bus s1) reg = peek (bus s) reg).
  { apply Hframe. intros Hin. apply Hiso. unfold written_by_reapply.
    apply in_or_app. left. exact Hin. }
  unfold written_by_reapply, both_bytes in Hiso. cbn [map app In] in Hiso.
  run_calls. rewrite performSingleRefCalibration_spec. cbv zeta.
  destruct fuel as [|fuel].
  { cbn [snd]. apart Hiso. exact H1. }
  destruct (_ =? 0).
  - cbn [snd]. apart Hiso. exact H1.
  - run_calls. unfold ret. cbn [snd]. apart Hiso. exact H1.
Qed.

(** When the closing part completes, the step-enable byte is what it was. *)
Lemma reapply_and_recalibrate_restores fuel s s' :
  ~ In (wrap8 (SYSTEM_SEQUENCE_CONFIG rm))
       (both_bytes (FINAL_RANGE_CONFIG_TIMEOUT_MACROP_HI rm)) ->
  reapply_and_recalibrate rm fuel s = (Normal true, s') ->
  peek (bus s') (SYSTEM_SEQUENCE_CONFIG rm) = peek (bus s) (SYSTEM_SEQUENCE_CONFIG rm).
Proof.
  intros Hiso. unfold reapply_and_recalibrate. rewrite bind_get_dev, bind_call.
  destruct (setMeasurementTimingBudget_effect rm
              (measurement_timing_budget_us (hnd s)) s)
    as (r & s1 & -> & _ & Hframe).
  specialize (Hframe (SYSTEM_SEQUENCE_CONFIG rm) Hiso).
  run_calls. rewrite performSingleRefCalibration_spec. cbv zeta.
  destruct fuel as [|fuel]; [discriminate|].
  destruct (_ =? 0); [discriminate|].
  run_calls. unfold ret. intros E. injection E as <-.
  rewrite bus_on_bus, peek_write8_same.
  unfold peek at 1. rewrite wrap8_idem. exact Hframe.
Qed.

Lemma allowed_period_byte type p :
  In p (allowed_periods type) ->
  wrap8 p = p /\ wrap8 (decodeVcselPeriod (wrap8 (wrap8 (encodeVcselPeriod p)))) = p.
Proof.
  destruct type; cbn [allowed_periods pre_range_periods final_range_periods In];
    intros H; repeat destruct H as [<-|H]; try contradiction; split; reflexivity.
Qed.

(** X17.  After [VL53L0X_setVcselPulsePeriod] with a period allowed for the
    step, [VL53L0X_getVcselPulsePeriod] of that step returns the period. *)
Theorem getVcselPulsePeriod_after_set fuel type period_pclks s :
  In period_pclks (allowed_periods type) ->
  ~ In (wrap8 (period_register rm type)) (written_after_period rm type) ->
  fst (VL53L0X_getVcselPulsePeriod rm type
         (snd (VL53L0X_setVcselPulsePeriod rm fuel type period_pclks s)))
  = Some period_pclks.
Proof.
  intros Hp Hiso.
  destruct (allowed_period_byte type period_pclks Hp) as [Hw Hrt].
  rewrite setVcselPulsePeriod_unfold. cbv zeta. rewrite Hw.
  rewrite snd_function. unfold bind.
  assert (Hre : ~ In (wrap8 (period_register rm type)) (written_by_reapply rm)).
  { intros Hin. apply Hiso. unfold written_after_period.
    apply in_or_app. right. exact Hin. }
  destruct type; cbn [allowed_periods] in Hp; [| |contradiction].
  - match goal with
    | |- context [apply_vcsel_period rm _ period_pclks ?r ?en ?tm ?s0] =>
        destruct (apply_vcsel_period_pre rm period_pclks r en tm s0 Hp) as (hi & ->)
    end.
    rewrite getVcselPulsePeriod_pre. cbn [fst]. f_equal.
    unfold period_of.
    rewrite (reapply_and_recalibrate_frame fuel _ _ Hre).
    unfold period_register, written_after_period, written_by_reapply, both_bytes
      in Hiso.
    cbn [map app In] in Hiso. unfold period_register.
    apart Hiso. rewrite peek_write8_same. exact Hrt.
  - match goal with
    | |- context [apply_vcsel_period rm _ period_pclks ?r ?en ?tm ?s0] =>
        destruct (apply_vcsel_period_final rm period_pclks r en tm s0 Hp)
          as (hi & w & t & l & ->)
    end.
    rewrite getVcselPulsePeriod_final. cbn [fst]. f_equal.
    unfold period_of.
    rewrite (reapply_and_recalibrate_frame fuel _ _ Hre).
    unfold period_register, written_after_period, written_by_reapply, both_bytes
      in Hiso.
    cbn [map app In] in Hiso. unfold period_register.
    apart Hiso. rewrite peek_write8_same. exact Hrt.
Qed.

(** X18.  When [VL53L0X_setVcselPulsePeriod] returns [true], the step-enable
    byte, which it overwrites for the phase calibration, reads as before the
    call, and so do the step enables. *)
Theorem setVcselPulsePeriod_restores_sequence_config fuel type period_pclks s :
  ~ In (wrap8 (SYSTEM_SEQUENCE_CONFIG rm))
       (written_by_apply rm type
        ++ both_bytes (FINAL_RANGE_CONFIG_TIMEOUT_MACROP_HI rm)) ->
  let result := VL53L0X_setVcselPulsePeriod rm fuel type period_pclks s in
  fst result = Some true ->
  fst (VL53L0X_readReg (SYSTEM_SEQUENCE_CONFIG rm) (snd result))
  = fst (VL53L0X_readReg (SYSTEM_SEQUENCE_CONFIG rm) s) /\
  fst (VL53L0X_getSequenceStepEnables rm (snd result))
  = fst (VL53L0X_getSequenceStepEnables rm s).
Proof.
  intros Hiso result Hres.
  assert (Hpeek : peek (bus (snd result)) (SYSTEM_SEQUENCE_CONFIG rm)
                  = peek (bus s) (SYSTEM_SEQUENCE_CONFIG rm)).
  { subst result. revert Hres.
    rewrite setVcselPulsePeriod_unfold. cbv zeta.
    set (p := wrap8 period_pclks).
    destruct (in_dec Z.eq_dec p (allowed_periods type)) as [Hp|Hp].
    2:{ unfold function, bind.
        rewrite (apply_vcsel_period_invalid rm type p _ _ _ _ Hp).
        cbn [fst]. discriminate. }
    intros Hres. rewrite snd_function.
    apply fst_function_true in Hres. revert Hres. unfold bind.
    assert (Hfin : ~ In (wrap8 (SYSTEM_SEQUENCE_CONFIG rm))
                        (both_bytes (FINAL_RANGE_CONFIG_TIMEOUT_MACROP_HI rm)))
      by (intros Hin; apply Hiso; apply in_or_app; right; exact Hin).
    assert (Hap : ~ In (wrap8 (SYSTEM_SEQUENCE_CONFIG rm)) (written_by_apply rm type))
      by (intros Hin; apply Hiso; apply in_or_app; left; exact Hin).
    destruct type; cbn [allowed_periods] in Hp; [| |contradiction].
    - match goal with
      | |- context [apply_vcsel_period rm _ p ?r ?en ?tm ?s0] =>
          destruct (apply_vcsel_period_pre rm p r en tm s0 Hp) as (hi & ->)
      end.
      match goal with
      | |- context [reapply_and_recalibrate rm fuel ?s1] =>
          destruct (reapply_and_recalibrate_effect rm fuel s1)
            as (o & sf & E & Ho & _)
      end.
      rewrite E in *. cbn [snd].
      intros [Hres|Hres]; [|destruct Ho as [->| ->]; discriminate].
      injection Hres as ->.
      rewrite (reapply_and_recalibrate_restores fuel _ _ Hfin E).
      unfold written_by_apply, both_bytes in Hap. cbn [map app In] in Hap.
      apart Hap. reflexivity.
    - match goal with
      | |- context [apply_vcsel_period rm _ p ?r ?en ?tm ?s0] =>
          destruct (apply_vcsel_period_final rm p r en tm s0 Hp)
            as (hi & w & t & l & ->)
      end.
      match goal with
      | |- context [reapply_and_recalibrate rm fuel ?s1] =>
          destruct (reapply_and_recalibrate_effect rm fuel s1)
            as (o & sf & E & Ho & _)
      end.
      rewrite E in *. cbn [snd].
      intros [Hres|Hres]; [|destruct Ho as [->| ->]; discriminate].
      injection Hres as ->.
      rewrite (reapply_and_recalibrate_restores fuel _ _ Hfin E).
      unfold written_by_apply, both_bytes in Hap. cbn [map app In] in Hap.
      apart Hap. reflexivity. }
  rewrite !VL53L0X_readReg_spec, !getSequenceStepEnables_spec. cbn [fst].
  unfold enables_of. rewrite Hpeek. split; reflexivity.
Qed.

End Readback.

(** ** Continuous ranging *)

Lemma VL53L0X_writeReg32Bit_returns reg value s :
  VL53L0X_writeReg32Bit reg value s
  = (Some tt, snd (VL53L0X_writeReg32Bit reg value s)).
Proof. reflexivity. Qed.

(** X19.  [VL53L0X_startContinuous] always returns.  With a period of 0 it
    stores eight bytes and leaves 2, back-to-back mode, in the start register;
    otherwise it leaves 4, timed mode, there and the inter-measurement period
    reads back as the period times the oscillator calibration value, reduced
    to 32 bits, or as the period itself when that value is 0. *)
Theorem startContinuous_mode rm rr period_ms s osc :
  continuous_registers_isolated rm rr ->
  fst (VL53L0X_readReg16Bit (OSC_CALIBRATE_VAL rr) s) = Some osc ->
  let result := VL53L0X_startContinuous rm rr period_ms s in
  fst result = Some tt /\
  (wrap32 period_ms = 0 ->
   fst (VL53L0X_readReg (SYSRANGE_START rm) (snd result)) = Some 2 /\
   length (stores_since s (snd result)) = 8%nat) /\
  (wrap32 period_ms <> 0 ->
   fst (VL53L0X_readReg (SYSRANGE_START rm) (snd result)) = Some 4 /\
   fst (VL53L0X_readReg32Bit (SYSTEM_INTERMEASUREMENT_PERIOD rr) (snd result))
   = Some (if osc =? 0 then wrap32 period_ms
           else wrap32 (wrap32 period_ms * osc))).
Proof.
  intros [Hosc Hper] Hread result. subst result.
  rewrite VL53L0X_readReg16Bit_spec in Hread. cbn [fst] in Hread.
  injection Hread as Hread.
  unfold VL53L0X_startContinuous, function. run_calls.
  destruct (Z.eqb_spec (wrap32 period_ms) 0) as [Hz|Hnz]; cbn [negb].
  - run_calls. unfold call. rewrite !VL53L0X_writeReg_spec.
    cbn [fst snd]. split; [reflexivity|]. split; [|contradiction].
    intros _. rewrite ?VL53L0X_readReg_spec. cbn [fst snd].
    rewrite bus_on_bus, peek_write8_same. split; [reflexivity|].
    erewrite stores_since_app; [|rewrite !bus_on_bus, !stores_write8, <- !app_assoc;
                                  reflexivity].
    reflexivity.
  - run_calls.
    match goal with
    | |- context [peek16 (bus ?s7) (OSC_CALIBRATE_VAL rr)] =>
        assert (Ho : peek16 (bus s7) (OSC_CALIBRATE_VAL rr) = osc)
    end.
    { rewrite <- Hread. unfold peek16.
      assert (H0 : forall x, x = 0x80 \/ x = 0xFF \/ x = 0x00 \/ x = 0x91 ->
                             wrap8 (OSC_CALIBRATE_VAL rr) <> wrap8 x).
      { intros x Hx E. apply (Hosc (wrap8 (OSC_CALIBRATE_VAL rr))).
        - unfold both_bytes. cbn [In]. tauto.
        - rewrite E. cbn [In].
          destruct Hx as [->|[->|[->| ->]]]; vm_compute; tauto. }
      assert (H1 : forall x, x = 0x80 \/ x = 0xFF \/ x = 0x00 \/ x = 0x91 ->
                             wrap8 (wrap8 (OSC_CALIBRATE_VAL rr) + 1) <> wrap8 x).
      { intros x Hx E. apply (Hosc (wrap8 (wrap8 (OSC_CALIBRATE_VAL rr) + 1))).
        - unfold both_bytes. cbn [In]. tauto.
        - rewrite E. cbn [In].
          destruct Hx as [->|[->|[->| ->]]]; vm_compute; tauto. }
      rewrite !bus_on_bus.
      rewrite !peek_write8_other by (first [apply H0|apply H1]; tauto).
      reflexivity. }
    rewrite Ho.
    set (scaled := if negb (osc =? 0) then wrap32 (wrap32 period_ms * osc)
                   else wrap32 period_ms).
    rewrite VL53L0X_writeReg32Bit_returns. cbv beta iota. run_calls.
    unfold call. rewrite !VL53L0X_writeReg_spec.
    cbn [fst snd]. split; [reflexivity|]. split; [contradiction|].
    intros _. rewrite ?VL53L0X_readReg_spec, VL53L0X_readReg32Bit_spec. cbn [fst snd].
    rewrite !bus_on_bus, peek_write8_same. split; [reflexivity|].
    assert (Hper0 : wrap8 (SYSRANGE_START rm)
                    <> wrap8 (SYSTEM_INTERMEASUREMENT_PERIOD rr))
      by (specialize (Hper 0 ltac:(lia)); rewrite Z.add_0_r in Hper; exact Hper).
    rewrite !peek_write8_other
      by (intros E; symmetry in E; revert E; first [exact Hper0|apply Hper; lia]).
    match goal with
    | |- context [VL53L0X_writeReg32Bit ?r ?v ?s0] =>
        destruct (word_after_writeReg32Bit r v s0) as (H32 & _)
    end.
    cbv zeta in H32. rewrite H32. f_equal.
    subst scaled. destruct (osc =? 0); cbn [negb]; apply wrap32_idem.
Qed.

(** ** The timeout flag *)

Section TimeoutFlag.

Variable rm : RegisterMap.
Variable rr : RangingRegisters.




End TimeoutFlag.

(** ** Reference SPAD selection *)

Lemma truthy_bit x b : 0 <= b -> truthy (Z.land (Z.shiftr x b) 0x1) = Z.testbit x b.
Proof.
  intros Hb. rewrite Z.testbit_odd.
  change 1 with (Z.ones 1). rewrite Z.land_ones by lia. change (2 ^ 1) with 2.
  rewrite Zmod_odd. unfold truthy. destruct (Z.odd (Z.shiftr x b)); reflexivity.
Qed.

Lemma spad_bit_testbit m j :
  spad_bit m j = Z.testbit (nth (Z.to_nat (j / 8)) m 0) (j mod 8).
Proof.
  unfold spad_bit. apply truthy_bit.
  apply Z.mod_pos_bound. lia.
Qed.

Lemma nth_set_byte k v l k' :
  nth k' (set_byte k v l) 0
  = if (k' =? k)%nat && (k <? length l)%nat then v else nth k' l 0.
Proof.
  revert k k'. induction l as [|h t IH]; intros k k'.
  - cbn. rewrite andb_false_r. destruct k; reflexivity.
  - destruct k as [|k]; destruct k' as [|k']; cbn [set_byte nth length]; try reflexivity.
    rewrite IH. reflexivity.
Qed.

Lemma spad_bit_clear m i j :
  0 <= i -> 0 <= j ->
  spad_bit (clear_spad m i) j = spad_bit m j && negb (j =? i).
Proof.
  intros Hi Hj. rewrite !spad_bit_testbit. unfold clear_spad.
  rewrite nth_set_byte.
  pose proof (Z.mod_pos_bound i 8 ltac:(lia)) as Hmi.
  pose proof (Z.mod_pos_bound j 8 ltac:(lia)) as Hmj.
  destruct (Nat.eqb_spec (Z.to_nat (j / 8)) (Z.to_nat (i / 8))) as [E|E]; cbn [andb].
  - assert (Ediv : j / 8 = i / 8).
    { apply Z2Nat.inj; [apply Z.div_pos; lia|apply Z.div_pos; lia|exact E]. }
    rewrite E.
    destruct (Nat.ltb_spec (Z.to_nat (i / 8)) (length m)) as [Hin|Hout].
    + unfold wrap8. change 256 with (2 ^ 8).
      rewrite Z.mod_pow2_bits_low by lia.
      rewrite Z.land_spec, Z.lnot_spec, Z.shiftl_1_l, Z.pow2_bits_eqb by lia.
      f_equal. f_equal.
      destruct (Z.eqb_spec (i mod 8) (j mod 8)) as [Em|Em];
        destruct (Z.eqb_spec j i) as [Ej|Ej]; try reflexivity; exfalso.
      * apply Ej. rewrite (Z.div_mod j 8), (Z.div_mod i 8) by lia. lia.
      * subst j. lia.
    + rewrite nth_overflow by assumption. rewrite Z.bits_0. reflexivity.
  - destruct (Z.eqb_spec j i) as [->|_]; [contradiction|].
    rewrite andb_true_r. reflexivity.
Qed.

Lemma spads_from_nonneg n : forall lo m, 0 <= spads_from n lo m.
Proof.
  induction n as [|n IH]; intros lo m; cbn [spads_from]; [lia|].
  specialize (IH (lo + 1) m). destruct (spad_bit m lo); lia.
Qed.

Lemma spads_from_ext n :
  forall lo m1 m2,
    (forall j, lo <= j -> spad_bit m1 j = spad_bit m2 j) ->
    spads_from n lo m1 = spads_from n lo m2.
Proof.
  induction n as [|n IH]; intros lo m1 m2 H; cbn [spads_from]; [reflexivity|].
  rewrite (H lo) by lia. f_equal. apply IH. intros j Hj. apply H. lia.
Qed.

Lemma spads_from_rank m i j :
  i < j ->
  spads_from (Z.to_nat (j - i)) i m
  = (if spad_bit m i then 1 else 0) + spads_from (Z.to_nat (j - (i + 1))) (i + 1) m.
Proof.
  intros Hlt. replace (Z.to_nat (j - i)) with (S (Z.to_nat (j - (i + 1)))) by lia.
  reflexivity.
Qed.

Section Selection.

Variables first spad_count : Z.
Hypothesis Hcount : 0 <= spad_count < 256.

(** The loop from the first SPAD to enable on: it returns the requested
    count or, if fewer are available, their number; it keeps exactly the
    available SPADs that fewer than [spad_count] available ones precede; and
    the SPADs left in range are as many as it counted. *)
Lemma spad_loop_spec n :
  forall i e m,
    first <= i -> 0 <= i -> i + Z.of_nat n < 256 -> 0 <= e <= spad_count ->
    let r := spad_loop n i first spad_count e m in
    fst r = Z.min spad_count (e + spads_from n i m) /\
    (forall j, 0 <= j ->
       spad_bit (snd r) j
       = if (i <=? j) && (j <? i + Z.of_nat n)
         then spad_bit m j
              && (e + spads_from (Z.to_nat (j - i)) i m <? spad_count)
         else spad_bit m j) /\
    spads_from n i (snd r) = fst r - e.
Proof.
  induction n as [|n IH]; intros i e m Hf Hi Hn He r; subst r.
  - cbn [spad_loop spads_from fst snd]. split; [lia|]. split; [|lia].
    intros j Hj. destruct (Z.leb_spec i j); destruct (Z.ltb_spec j (i + Z.of_nat 0));
      cbn [andb]; try reflexivity; lia.
  - cbn [spad_loop].
    assert (Hlt : (i <? first) = false) by (apply Z.ltb_ge; lia).
    rewrite Hlt. cbn [orb].
    assert (Hw : wrap8 (i + 1) = i + 1).
    { apply wrap8_small. lia. }
    rewrite Hw.
    pose proof (spads_from_nonneg n (i + 1) m) as Hnn.
    assert (Hrange : forall j, (i <=? j) && (j <? i + Z.of_nat (S n))
                     = (j =? i) || ((i + 1 <=? j) && (j <? i + 1 + Z.of_nat n))).
    { intros j. destruct (Z.leb_spec i j), (Z.ltb_spec j (i + Z.of_nat (S n))),
        (Z.eqb_spec j i), (Z.leb_spec (i + 1) j), (Z.ltb_spec j (i + 1 + Z.of_nat n));
        cbn [andb orb]; try reflexivity; lia. }
    destruct (Z.eqb_spec e spad_count) as [Ee|Ee].
    + (* the requested number is reached: the bit is cleared *)
      destruct (IH (i + 1) e (clear_spad m i)) as (H1 & H2 & H3); try lia.
      pose proof (spads_from_nonneg n (i + 1) (clear_spad m i)).
      pose proof (spads_from_nonneg (S n) i m).
      assert (Hi' : spad_bit (snd (spad_loop n (i + 1) first spad_count e
                                     (clear_spad m i))) i = false).
      { rewrite H2 by lia.
        destruct (Z.leb_spec (i + 1) i); [lia|]. cbn [andb].
        rewrite spad_bit_clear, Z.eqb_refl by lia. apply andb_false_r. }
      split; [rewrite H1; lia|]. split.
      * intros j Hj. rewrite H2, Hrange by assumption.
        destruct (Z.eqb_spec j i) as [->|Hne]; cbn [orb].
        -- destruct (Z.leb_spec (i + 1) i); [lia|]. cbn [andb].
           rewrite spad_bit_clear, Z.eqb_refl, Z.sub_diag by lia.
           cbn [Z.to_nat spads_from negb]. rewrite andb_false_r.
           destruct (Z.ltb_spec (e + 0) spad_count); [lia|].
           symmetry. apply andb_false_r.
        -- rewrite spad_bit_clear by lia.
           destruct (Z.eqb_spec j i); [contradiction|]. cbn [negb].
           rewrite andb_true_r.
           destruct ((i + 1 <=? j) && (j <? i + 1 + Z.of_nat n)); [|reflexivity].
           pose proof (spads_from_nonneg (Z.to_nat (j - (i + 1))) (i + 1)
                         (clear_spad m i)).
           pose proof (spads_from_nonneg (Z.to_nat (j - i)) i m).
           destruct (Z.ltb_spec (e + spads_from (Z.to_nat (j - (i + 1))) (i + 1)
                                       (clear_spad m i)) spad_count); [lia|].
           destruct (Z.ltb_spec (e + spads_from (Z.to_nat (j - i)) i m) spad_count);
             [lia|].
           rewrite !andb_false_r. reflexivity.
      * cbn [spads_from]. rewrite Hi', H3, H1. lia.
    + destruct (spad_bit m i) eqn:Hbit.
      * (* an available SPAD is counted *)
        assert (Hw1 : wrap8 (e + 1) = e + 1) by (apply wrap8_small; lia).
        rewrite Hw1.
        destruct (IH (i + 1) (e + 1) m) as (H1 & H2 & H3); try lia.
        assert (Hi' : spad_bit (snd (spad_loop n (i + 1) first spad_count (e + 1) m)) i
                      = true).
        { rewrite H2 by lia. destruct (Z.leb_spec (i + 1) i); [lia|]. exact Hbit. }
        split; [rewrite H1; cbn [spads_from]; rewrite Hbit; f_equal; lia|]. split.
        -- intros j Hj. rewrite H2, Hrange by assumption.
           destruct (Z.eqb_spec j i) as [->|Hne]; cbn [orb].
           ++ destruct (Z.leb_spec (i + 1) i); [lia|]. cbn [andb].
              rewrite Z.sub_diag. cbn [Z.to_nat spads_from].
              destruct (Z.ltb_spec (e + 0) spad_count); [|lia].
              rewrite andb_true_r. reflexivity.
           ++ destruct ((i + 1 <=? j) && (j <? i + 1 + Z.of_nat n)) eqn:Hin;
                [|reflexivity].
              apply andb_prop in Hin. destruct Hin as [Hin _].
              apply Z.leb_le in Hin.
              rewrite (spads_from_rank m i j) by lia. rewrite Hbit.
              do 2 f_equal. lia.
        -- cbn [spads_from]. rewrite Hi', H3. lia.
      * (* an unavailable SPAD is passed over *)
        destruct (IH (i + 1) e m) as (H1 & H2 & H3); try lia.
        assert (Hi' : spad_bit (snd (spad_loop n (i + 1) first spad_count e m)) i
                      = false).
        { rewrite H2 by lia. destruct (Z.leb_spec (i + 1) i); [lia|]. exact Hbit. }
        split; [rewrite H1; cbn [spads_from]; rewrite Hbit; f_equal; lia|]. split.
        -- intros j Hj. rewrite H2, Hrange by assumption.
           destruct (Z.eqb_spec j i) as [->|Hne]; cbn [orb].
           ++ destruct (Z.leb_spec (i + 1) i); [lia|]. cbn [andb].
              rewrite Hbit. reflexivity.
           ++ destruct ((i + 1 <=? j) && (j <? i + 1 + Z.of_nat n)) eqn:Hin;
                [|reflexivity].
              apply andb_prop in Hin. destruct Hin as [Hin _].
              apply Z.leb_le in Hin.
              rewrite (spads_from_rank m i j) by lia. rewrite Hbit.
              do 2 f_equal.
        -- cbn [spads_from]. rewrite Hi', H3. lia.
Qed.

End Selection.

Lemma spads_from_app a :
  forall b lo m,
    spads_from (a + b) lo m
    = spads_from a lo m + spads_from b (lo + Z.of_nat a) m.
Proof.
  induction a as [|a IH]; intros b lo m.
  - cbn [Nat.add spads_from Z.of_nat]. rewrite Z.add_0_r. reflexivity.
  - cbn [Nat.add spads_from]. rewrite IH.
    replace (lo + 1 + Z.of_nat a) with (lo + Z.of_nat (S a)) by lia. lia.
Qed.

Lemma spads_from_none n :
  forall lo m,
    (forall j, lo <= j < lo + Z.of_nat n -> spad_bit m j = false) ->
    spads_from n lo m = 0.
Proof.
  induction n as [|n IH]; intros lo m H; cbn [spads_from]; [reflexivity|].
  rewrite (H lo) by lia. rewrite IH; [reflexivity|].
  intros j Hj. apply H. lia.
Qed.

Lemma spad_loop_below n i first c e m :
  i < first ->
  spad_loop (S n) i first c e m
  = spad_loop n (wrap8 (i + 1)) first c e (clear_spad m i).
Proof. intros H. cbn [spad_loop]. apply Z.ltb_lt in H. rewrite H. reflexivity. Qed.

Lemma select_aperture spad_count m :
  select_reference_spads spad_count true m
  = spad_loop 36 12 12 spad_count 0
      (fold_left clear_spad [0; 1; 2; 3; 4; 5; 6; 7; 8; 9; 10; 11] m).
Proof.
  unfold select_reference_spads.
  do 12 (rewrite spad_loop_below by reflexivity;
         match goal with
         | |- context [wrap8 (?i + 1)] =>
             let v := eval vm_compute in (wrap8 (i + 1)) in
             change (wrap8 (i + 1)) with v
         end).
  reflexivity.
Qed.

Lemma aperture_prefix m j :
  0 <= j ->
  spad_bit (fold_left clear_spad [0; 1; 2; 3; 4; 5; 6; 7; 8; 9; 10; 11] m) j
  = spad_bit m j && (12 <=? j).
Proof.
  intros Hj. cbn [fold_left]. rewrite !spad_bit_clear by lia.
  destruct (spad_bit m j); cbn [andb]; [|reflexivity].
  destruct (Z.leb_spec 12 j);
    repeat match goal with
    | |- context [j =? ?c] => destruct (Z.eqb_spec j c); [lia|]
    end; cbn [negb andb]; try reflexivity.
  exfalso. lia.
Qed.

Lemma select_reference_spads_spec spad_count (aperture : bool) m :
  0 <= spad_count < 256 ->
  let first := if aperture then 12 else 0 in
  let result := select_reference_spads spad_count aperture m in
  fst result = Z.min spad_count (spads_from (Z.to_nat (48 - first)) first m) /\
  (forall j, 0 <= j < 48 ->
     spad_bit (snd result) j
     = spad_bit m j && (first <=? j)
       && (spads_from (Z.to_nat (j - first)) first m <? spad_count)) /\
  spads_from 48 0 (snd result) = fst result.
Proof.
  intros Hc first result. subst first result. destruct aperture.
  - rewrite select_aperture.
    set (m12 := fold_left clear_spad [0; 1; 2; 3; 4; 5; 6; 7; 8; 9; 10; 11] m).
    destruct (spad_loop_spec 12 spad_count Hc 36 12 0 m12) as (H1 & H2 & H3);
      try lia.
    cbv zeta in H1, H2, H3.
    assert (Hbit : forall j, 0 <= j -> spad_bit m12 j = spad_bit m j && (12 <=? j))
      by (intros j Hj; apply aperture_prefix; exact Hj).
    assert (Hext : forall n, spads_from n 12 m12 = spads_from n 12 m).
    { intros n. apply spads_from_ext. intros j Hj. rewrite Hbit by lia.
      destruct (Z.leb_spec 12 j); [apply andb_true_r|lia]. }
    rewrite Hext in H1. change (0 + ?x) with x in H1.
    split; [exact H1|]. split.
    + intros j Hj. rewrite H2 by lia. change (12 + Z.of_nat 36) with 48.
      rewrite Hbit by lia.
      destruct (Z.leb_spec 12 j); destruct (Z.ltb_spec j 48); cbn [andb]; try lia.
      all: rewrite ?Hext, ?andb_false_r; reflexivity.
    + change 48%nat with (12 + 36)%nat. rewrite spads_from_app.
      change (0 + Z.of_nat 12) with 12. rewrite H3, Z.sub_0_r.
      rewrite spads_from_none; [reflexivity|].
      intros j Hj. rewrite H2 by lia.
      destruct (Z.leb_spec 12 j); [lia|]. cbn [andb].
      rewrite Hbit by lia.
      destruct (Z.leb_spec 12 j); [lia|]. apply andb_false_r.
  - unfold select_reference_spads.
    destruct (spad_loop_spec 0 spad_count Hc 48 0 0 m) as (H1 & H2 & H3); try lia.
    cbv zeta in H1, H2, H3. change (0 + ?x) with x in H1.
    split; [exact H1|]. split.
    + intros j Hj. rewrite H2 by lia. change (0 + Z.of_nat 48) with 48.
      destruct (Z.leb_spec 0 j); destruct (Z.ltb_spec j 48); cbn [andb]; try lia.
      rewrite andb_true_r. reflexivity.
    + rewrite H3. lia.
Qed.

(** X20.  The reference SPAD selection of [VL53L0X_init] keeps a SPAD enabled
    exactly when it was enabled, is not below the first SPAD of the type (12
    for aperture SPADs, 0 otherwise), and fewer than [spad_count] enabled SPADs
    lie between that first one and it. *)
Theorem select_reference_spads_first_fit spad_count (aperture : bool) ref_spad_map j :
  0 <= spad_count < 256 ->
  0 <= j < 48 ->
  let first := if aperture then 12 else 0 in
  spad_bit (snd (select_reference_spads spad_count aperture ref_spad_map)) j
  = spad_bit ref_spad_map j && (first <=? j)
    && (spads_from (Z.to_nat (j - first)) first ref_spad_map <? spad_count).
Proof.
  intros Hc Hj.
  destruct (select_reference_spads_spec spad_count aperture ref_spad_map Hc)
    as (_ & H & _).
  apply H. exact Hj.
Qed.

(** X21.  The selection counts [spad_count] SPADs or, if fewer are enabled
    from the first SPAD of the type on, that number; and exactly as many
    SPADs are left enabled in the whole map. *)
Theorem select_reference_spads_count spad_count (aperture : bool) ref_spad_map :
  0 <= spad_count < 256 ->
  let first := if aperture then 12 else 0 in
  let result := select_reference_spads spad_count aperture ref_spad_map in
  fst result
  = Z.min spad_count (spads_from (Z.to_nat (48 - first)) first ref_spad_map) /\
  spads_from 48 0 (snd result) = fst result.
Proof.
  intros Hc.
  destruct (select_reference_spads_spec spad_count aperture ref_spad_map Hc)
    as (H1 & _ & H3).
  split; assumption.
Qed.

(** ** Interrupt lines and port pins *)

Lemma truthy_land_pow2 t n :
  0 <= n -> truthy (Z.land t (2 ^ n)) = Z.testbit t n.
Proof.
  intros Hn. unfold truthy.
  destruct (Z.testbit t n) eqn:Hb.
  - destruct (Z.eqb_spec (Z.land t (2 ^ n)) 0) as [E|_]; [|reflexivity].
    assert (Z.testbit (Z.land t (2 ^ n)) n = false) by (rewrite E; apply Z.bits_0).
    rewrite Z.land_spec, Z.pow2_bits_true, Hb in H by lia. discriminate.
  - replace (Z.land t (2 ^ n)) with 0; [reflexivity|].
    symmetry. apply Z.bits_inj'. intros k Hk.
    rewrite Z.land_spec, Z.bits_0, Z.pow2_bits_eqb by lia.
    destruct (Z.eqb_spec n k) as [->|_]; [rewrite Hb; reflexivity|apply andb_false_r].
Qed.

Lemma set_bit_spec w line k :
  0 <= line < 32 -> 0 <= k < 32 ->
  Z.testbit (wrap32 (Z.lor w (Z.shiftl 1 line))) k
  = if k =? line then true else Z.testbit w k.
Proof.
  intros Hl Hk. unfold wrap32. change 4294967296 with (2 ^ 32).
  rewrite Z.mod_pow2_bits_low, Z.lor_spec, Z.shiftl_1_l, Z.pow2_bits_eqb by lia.
  rewrite (Z.eqb_sym line k).
  destruct (k =? line); [apply orb_true_r|apply orb_false_r].
Qed.

Lemma clear_bit_spec w line k :
  0 <= line < 32 -> 0 <= k < 32 ->
  Z.testbit (wrap32 (Z.land w (Z.lnot (Z.shiftl 1 line)))) k
  = if k =? line then false else Z.testbit w k.
Proof.
  intros Hl Hk. unfold wrap32. change 4294967296 with (2 ^ 32).
  rewrite Z.mod_pow2_bits_low, Z.land_spec, Z.lnot_spec, Z.shiftl_1_l,
    Z.pow2_bits_eqb by lia.
  rewrite (Z.eqb_sym line k).
  destruct (k =? line); [apply andb_false_r|apply andb_true_r].
Qed.

(** X22.  [exti_configure] makes bit [line] of the rising trigger register
    bit 0 of [trigger] and bit [line] of the falling trigger register bit 1 of
    [trigger]; it changes no other bit of the two and no other register. *)
Theorem exti_configure_bits line trigger x k :
  0 <= line < 32 -> 0 <= k < 32 ->
  let x' := exti_configure line trigger x in
  Z.testbit (rtsr x') k
  = (if k =? line then Z.testbit trigger 0 else Z.testbit (rtsr x) k) /\
  Z.testbit (ftsr x') k
  = (if k =? line then Z.testbit trigger 1 else Z.testbit (ftsr x) k) /\
  imr x' = imr x /\ emr x' = emr x /\ swier x' = swier x /\ pr x' = pr x.
Proof.
  intros Hl Hk x'. subst x'. unfold exti_configure.
  rewrite (wrap8_small line) by lia.
  cbn [rtsr ftsr imr emr swier pr].
  change EXTI_TRIGGER_RISING with (2 ^ 0). change EXTI_TRIGGER_FALLING with (2 ^ 1).
  rewrite !truthy_land_pow2 by lia.
  unfold wrap8 at 1 2. change 256 with (2 ^ 8).
  rewrite !Z.mod_pow2_bits_low by lia.
  split; [|split; [|repeat split]].
  - destruct (Z.testbit trigger 0).
    + rewrite set_bit_spec by lia. destruct (k =? line); reflexivity.
    + rewrite clear_bit_spec by lia. destruct (k =? line); reflexivity.
  - destruct (Z.testbit trigger 1).
    + rewrite set_bit_spec by lia. destruct (k =? line); reflexivity.
    + rewrite clear_bit_spec by lia. destruct (k =? line); reflexivity.
Qed.

(** X23.  [gpio_read] returns [true] exactly when the pin or any higher pin
    of the port reads high: the shifted input register is compared with 0
    without masking. *)
Theorem gpio_read_any_higher_pin g pin :
  0 <= pin < 256 -> 0 <= idr g ->
  gpio_read g pin = true <-> exists k, pin <= k /\ Z.testbit (idr g) k = true.
Proof.
  intros Hp Hi. unfold gpio_read. rewrite (wrap8_small pin) by assumption.
  assert (Hs : 0 <= Z.shiftr (idr g) pin) by (apply Z.shiftr_nonneg; assumption).
  split.
  - intros H. apply negb_true_iff in H. apply Z.eqb_neq in H.
    exists (Z.log2 (Z.shiftr (idr g) pin) + pin).
    pose proof (Z.log2_nonneg (Z.shiftr (idr g) pin)).
    split; [lia|].
    rewrite <- Z.shiftr_spec by lia. apply Z.bit_log2. lia.
  - intros (k & Hk & Hb). apply negb_true_iff. apply Z.eqb_neq. intros E.
    assert (Z.testbit (Z.shiftr (idr g) pin) (k - pin) = false)
      by (rewrite E; apply Z.bits_0).
    rewrite Z.shiftr_spec in H by lia.
    replace (k - pin + pin) with k in H by lia. congruence.
Qed.

Lemma testbit_small v k : 0 <= v < 4 -> 2 <= k -> Z.testbit v k = false.
Proof.
  intros Hv Hk. rewrite <- (Z.mod_small v (2 ^ 2)) by (change (2 ^ 2) with 4; lia).
  apply Z.mod_pow2_bits_high. lia.
Qed.

Lemma testbit_shiftl a s i : 0 <= s -> Z.testbit (Z.shiftl a s) i = Z.testbit a (i - s).
Proof.
  intros Hs. destruct (Z.lt_ge_cases i 0) as [Hi|Hi].
  - rewrite !Z.testbit_neg_r by lia. reflexivity.
  - apply Z.shiftl_spec. exact Hi.
Qed.

Lemma field_bits w s n :
  0 <= n -> 0 <= s ->
  Z.testbit (Z.land (Z.shiftr w s) 0xF) n = Z.testbit w (n + s) && (n <? 4).
Proof.
  intros Hn Hs. rewrite Z.land_spec, Z.shiftr_spec by lia.
  change 0xF with (Z.ones 4). rewrite Z.testbit_ones_nonneg by lia. reflexivity.
Qed.

Lemma configured_word_bits word mode cnf base i :
  0 <= i < 32 -> 0 <= base ->
  Z.testbit
    (wrap32 (Z.lor (Z.lor (Z.land word (Z.lnot (Z.shiftl 0xF base)))
                          (Z.shiftl mode base))
                   (Z.shiftl (Z.shiftl cnf base) 2))) i
  = (Z.testbit word i && negb (Z.testbit 0xF (i - base)))
    || Z.testbit mode (i - base) || Z.testbit cnf (i - base - 2).
Proof.
  intros Hi Hb. unfold wrap32. change 4294967296 with (2 ^ 32).
  rewrite Z.mod_pow2_bits_low by lia.
  rewrite !Z.lor_spec, Z.land_spec, Z.lnot_spec by lia.
  rewrite !testbit_shiftl by lia.
  replace (i - 2 - base) with (i - base - 2) by lia. reflexivity.
Qed.

(** X24.  For a pin below 16 and two-bit mode and function codes,
    [gpio_configure] sets the four configuration bits of the pin to the mode
    and the function and leaves every other pin's bits and the data registers
    as they were. *)
Theorem gpio_configure_field g pin mode cnf :
  0 <= pin < 16 -> 0 <= mode < 4 -> 0 <= cnf < 4 -> length (cr g) = 2%nat ->
  exists g',
    gpio_configure g pin mode cnf = Some g' /\
    (forall p, 0 <= p < 16 ->
       pin_field g' p = if p =? pin then mode + 4 * cnf else pin_field g p) /\
    idr g' = idr g /\ odr g' = odr g.
Proof.
  intros Hpin Hmode Hcnf Hlen. unfold gpio_configure.
  rewrite (wrap8_small pin), (wrap8_small mode), (wrap8_small cnf) by lia.
  assert (Hreg : 0 <= pin / 8 < 2)
    by (split; [apply Z.div_pos|apply Z.div_lt_upper_bound]; lia).
  pose proof (Z.mod_pos_bound pin 8 ltac:(lia)) as Hbase.
  rewrite (wrap8_small (pin / 8)), (wrap8_small (pin mod 8 * 4)) by lia.
  destruct (nth_error (cr g) (Z.to_nat (pin / 8))) as [word|] eqn:Hnth.
  2:{ apply nth_error_None in Hnth. lia. }
  eexists. split; [reflexivity|]. split; [|split; reflexivity].
  intros p Hp. unfold pin_field. cbn [cr].
  pose proof (Z.mod_pos_bound p 8 ltac:(lia)) as Hpb.
  assert (Hpreg : 0 <= p / 8 < 2)
    by (split; [apply Z.div_pos|apply Z.div_lt_upper_bound]; lia).
  rewrite nth_set_byte.
  assert (Hword : nth (Z.to_nat (pin / 8)) (cr g) 0 = word)
    by (apply nth_error_nth; exact Hnth).
  destruct (Nat.ltb_spec (Z.to_nat (pin / 8)) (length (cr g))) as [_|Hout]; [|lia].
  rewrite andb_true_r.
  destruct (Nat.eqb_spec (Z.to_nat (p / 8)) (Z.to_nat (pin / 8))) as [E|E].
  - assert (Ediv : p / 8 = pin / 8) by lia.
    rewrite E, Hword.
    apply Z.bits_inj'. intros n Hn.
    rewrite field_bits by lia.
    destruct (Z.ltb_spec n 4) as [Hn4|Hn4].
    + rewrite andb_true_r, configured_word_bits by lia.
      destruct (Z.eqb_spec p pin) as [->|Hne].
      * replace (n + pin mod 8 * 4 - pin mod 8 * 4) with n by lia.
        change 0xF with (Z.ones 4). rewrite Z.testbit_ones_nonneg by lia.
        destruct (Z.ltb_spec n 4); [|lia]. cbn [negb]. rewrite andb_false_r.
        cbn [orb].
        replace (mode + 4 * cnf) with (cnf * 2 ^ 2 + mode)
          by (change (2 ^ 2) with 4; lia).
        rewrite <- lor_shiftl_add by (change (2 ^ 2) with 4; lia).
        rewrite Z.lor_spec, testbit_shiftl by lia. apply orb_comm.
      * rewrite field_bits by lia.
        destruct (Z.ltb_spec n 4); [|lia]. rewrite andb_true_r.
        assert (Hd : p mod 8 <> pin mod 8).
        { intros Em. apply Hne.
          rewrite (Z.div_mod p 8), (Z.div_mod pin 8) by lia. lia. }
        set (d := n + p mod 8 * 4 - pin mod 8 * 4).
        assert (Hdr : d < 0 \/ 4 <= d) by lia.
        change 0xF with (Z.ones 4).
        destruct Hdr as [Hneg|Hbig].
        -- rewrite (Z.testbit_neg_r (Z.ones 4) d), (Z.testbit_neg_r mode d),
             (Z.testbit_neg_r cnf (d - 2)) by lia.
           cbn [negb orb].
           rewrite andb_true_r, !orb_false_r. reflexivity.
        -- rewrite Z.testbit_ones_nonneg by lia.
           destruct (Z.ltb_spec d 4); [lia|]. cbn [negb].
           rewrite (testbit_small mode d), (testbit_small cnf (d - 2)) by lia.
           rewrite andb_true_r, !orb_false_r. reflexivity.
    + rewrite andb_false_r.
      destruct (Z.eqb_spec p pin) as [->|Hne].
      * replace (mode + 4 * cnf) with (cnf * 2 ^ 2 + mode)
          by (change (2 ^ 2) with 4; lia).
        rewrite <- lor_shiftl_add by (change (2 ^ 2) with 4; lia).
        rewrite Z.lor_spec, testbit_shiftl by lia.
        rewrite (testbit_small mode n), (testbit_small cnf (n - 2)) by lia.
        reflexivity.
      * rewrite field_bits by lia.
        destruct (Z.ltb_spec n 4); [lia|]. rewrite andb_false_r. reflexivity.
  - destruct (Z.eqb_spec p pin) as [->|_]; [contradiction|]. reflexivity.
Qed.

(** ** Concrete runs of the further properties *)

(** X1 at the odd period 13. *)
Lemma vcsel_period_codec_round_trip_witness :
  wrap8 (decodeVcselPeriod (wrap8 (encodeVcselPeriod 13))) = 13 - 13 mod 2.
Proof. apply (vcsel_period_codec_round_trip 13). lia. Defined.

(** X2 at 1000 and 2000 clocks. *)
Lemma encodeTimeout_monotone_witness :
  VL53L0X_encodeTimeout 1000 <= VL53L0X_encodeTimeout 2000.
Proof. apply (encodeTimeout_monotone 1000 2000); lia. Defined.

(** X3 at [0x02F9], exponent 2 and mantissa 249. *)
Lemma encode_decode_normal_form_witness :
  VL53L0X_encodeTimeout (VL53L0X_decodeTimeout 0x02F9) = 0x02F9.
Proof.
  apply (proj2 (encode_decode_normal_form 0x02F9 ltac:(lia))).
  split; [|right]; apply Z.leb_le; reflexivity.
Defined.

(** X13 and X14 on the default configuration. *)
Lemma getMeasurementTimingBudget_reports_witness :
  exists g,
    fst (VL53L0X_getMeasurementTimingBudget datasheet_map (configured_state 0xE8 0))
    = Some g /\
    2870 <= g <= 21481915.
Proof.
  destruct (getMeasurementTimingBudget_reports datasheet_map (configured_state 0xE8 0)
              _ _ _ _
              (getSequenceStepEnables_spec datasheet_map _)
              (getSequenceStepTimeouts_spec datasheet_map _ _))
    as (H1 & H2 & _).
  eexists. split; [exact H1|exact H2].
Defined.

Lemma setMeasurementTimingBudget_accepts_reported_witness :
  exists g s',
    VL53L0X_getMeasurementTimingBudget datasheet_map (configured_state 0xE8 0)
    = (Some g, s') /\
    fst (VL53L0X_setMeasurementTimingBudget datasheet_map g s') = Some true.
Proof.
  do 2 eexists. split; [apply getMeasurementTimingBudget_spec|].
  refine (proj1 (setMeasurementTimingBudget_accepts_reported datasheet_map
                   (configured_state 0xE8 0) _ _ _ _ _ _
                   (getSequenceStepEnables_spec datasheet_map _)
                   (getSequenceStepTimeouts_spec datasheet_map _ _)
                   (getMeasurementTimingBudget_spec datasheet_map _) _)).
  vm_compute. discriminate.
Defined.

(** In the vendor's map the final-range timeout lies apart from everything
    else the budget computation reads. *)
Lemma timing_registers_isolated_datasheet : timing_registers_isolated datasheet_map.
Proof.
  intros a Ha. vm_compute in Ha.
  repeat destruct Ha as [<-|Ha]; try contradiction;
    vm_compute; intros H; repeat destruct H as [H|H]; try discriminate H; exact H.
Qed.

(** X16 on the default configuration with a budget of 33000 microseconds. *)
Lemma setMeasurementTimingBudget_idempotent_witness :
  let once := VL53L0X_setMeasurementTimingBudget datasheet_map 33000
                (configured_state 0xE8 0) in
  let twice := VL53L0X_setMeasurementTimingBudget datasheet_map 33000 (snd once) in
  fst twice = fst once /\ hnd (snd twice) = hnd (snd once).
Proof.
  intros once twice.
  destruct (setMeasurementTimingBudget_idempotent datasheet_map 33000
              (configured_state 0xE8 0) timing_registers_isolated_datasheet)
    as (H1 & _ & H3).
  split; [exact H1|exact H3].
Defined.

(** In the vendor's map the pre-range period register is written by nothing
    that follows it, and the step-enable byte by nothing else. *)
Lemma period_not_overwritten_datasheet :
  ~ In (wrap8 (period_register datasheet_map VcselPeriodPreRange))
       (written_after_period datasheet_map VcselPeriodPreRange).
Proof.
  vm_compute. intros H; repeat destruct H as [H|H]; try discriminate H; exact H.
Qed.

Lemma sequence_config_apart_datasheet :
  ~ In (wrap8 (SYSTEM_SEQUENCE_CONFIG datasheet_map))
       (written_by_apply datasheet_map VcselPeriodPreRange
        ++ both_bytes (FINAL_RANGE_CONFIG_TIMEOUT_MACROP_HI datasheet_map)).
Proof.
  vm_compute. intros H; repeat destruct H as [H|H]; try discriminate H; exact H.
Qed.

(** X17 and X18 for a change of the pre-range period to 18. *)
Lemma getVcselPulsePeriod_after_set_witness :
  fst (VL53L0X_getVcselPulsePeriod datasheet_map VcselPeriodPreRange
         (snd (VL53L0X_setVcselPulsePeriod datasheet_map 1 VcselPeriodPreRange 18
                 (configured_state 0xE8 33000))))
  = Some 18.
Proof.
  apply (getVcselPulsePeriod_after_set datasheet_map 1 VcselPeriodPreRange 18
           (configured_state 0xE8 33000)).
  - simpl; tauto.
  - exact period_not_overwritten_datasheet.
Defined.

Lemma setVcselPulsePeriod_restores_sequence_config_witness :
  let result := VL53L0X_setVcselPulsePeriod datasheet_map 1 VcselPeriodPreRange 18
                  (configured_state 0xE8 33000) in
  fst (VL53L0X_readReg (SYSTEM_SEQUENCE_CONFIG datasheet_map) (snd result))
  = fst (VL53L0X_readReg (SYSTEM_SEQUENCE_CONFIG datasheet_map)
           (configured_state 0xE8 33000)).
Proof.
  intros result.
  refine (proj1 (setVcselPulsePeriod_restores_sequence_config datasheet_map 1
                   VcselPeriodPreRange 18 (configured_state 0xE8 33000)
                   sequence_config_apart_datasheet _)).
  vm_compute. reflexivity.
Defined.


(** In the vendor's maps the oscillator calibration and the inter-measurement
    period lie apart from the registers of the start sequence. *)
Lemma continuous_registers_isolated_datasheet :
  continuous_registers_isolated datasheet_map datasheet_ranging.
Proof.
  split.
  - intros a Ha. vm_compute in Ha.
    repeat destruct Ha as [<-|Ha]; try contradiction;
      vm_compute; intros H; repeat destruct H as [H|H]; try discriminate H; exact H.
  - intros k Hk.
    assert (Hcases : k = 0 \/ k = 1 \/ k = 2 \/ k = 3) by lia.
    destruct Hcases as [->|[->|[->| ->]]]; vm_compute; discriminate.
Qed.

(** X19 for a period of 100 milliseconds on a sensor calibrated to 3000. *)
Lemma startContinuous_mode_witness :
  let result := VL53L0X_startContinuous datasheet_map datasheet_ranging 100
                  calibrated_state in
  fst (VL53L0X_readReg (SYSRANGE_START datasheet_map) (snd result)) = Some 4 /\
  fst (VL53L0X_readReg32Bit (SYSTEM_INTERMEASUREMENT_PERIOD datasheet_ranging)
         (snd result)) = Some 300000.
Proof.
  intros result.
  refine (proj2 (proj2 (startContinuous_mode datasheet_map datasheet_ranging 100
                          calibrated_state 3000
                          continuous_registers_isolated_datasheet _)) _).
  - vm_compute. reflexivity.
  - vm_compute. discriminate.
Defined.

(** X20 and X21 for three aperture SPADs out of a full map: SPAD 13 is kept,
    and three are counted and left. *)
Lemma select_reference_spads_first_fit_witness :
  spad_bit (snd (select_reference_spads 3 true full_spad_map)) 13 = true.
Proof.
  apply (select_reference_spads_first_fit 3 true full_spad_map 13); lia.
Defined.

Lemma select_reference_spads_count_witness :
  fst (select_reference_spads 3 true full_spad_map) = 3 /\
  spads_from 48 0 (snd (select_reference_spads 3 true full_spad_map))
  = fst (select_reference_spads 3 true full_spad_map).
Proof.
  apply (select_reference_spads_count 3 true full_spad_map). lia.
Defined.

(** X22 for line 3 and a rising trigger. *)
Lemma exti_configure_bits_witness :
  Z.testbit (rtsr (exti_configure 3 EXTI_TRIGGER_RISING reset_exti)) 3 = true /\
  Z.testbit (ftsr (exti_configure 3 EXTI_TRIGGER_RISING reset_exti)) 3 = false.
Proof.
  destruct (exti_configure_bits 3 EXTI_TRIGGER_RISING reset_exti 3
              ltac:(lia) ltac:(lia)) as (H1 & H2 & _).
  split; [exact H1|exact H2].
Defined.

(** X23: with only pin 7 high, pin 3 reads high. *)
Lemma gpio_read_any_higher_pin_witness : gpio_read reset_port 3 = true.
Proof.
  apply (proj2 (gpio_read_any_higher_pin reset_port 3 ltac:(lia) ltac:(simpl; lia))).
  exists 7. split; [lia|reflexivity].
Defined.

(** X24 for pin 7 as [i2c_init] configures it: 50 MHz output, alternate
    function open drain. *)
Lemma gpio_configure_field_witness :
  exists g',
    gpio_configure reset_port 7 3 3 = Some g' /\
    pin_field g' 7 = 15 /\
    pin_field g' 6 = pin_field reset_port 6.
Proof.
  destruct (gpio_configure_field reset_port 7 3 3
              ltac:(lia) ltac:(lia) ltac:(lia) eq_refl) as (g' & H1 & H2 & _).
  exists g'. split; [exact H1|]. split; [apply (H2 7); lia|apply (H2 6); lia].
Defined.
